(** * Replicating-DeepMind: the two training scripts and the NeuralNet wrapper

    A shallow embedding of [sandbox/example2.py], [sandbox/example3.py] and
    [src/ai/NeuralNet.py].  Tensor entries are real numbers (an idealisation
    of [floatX]); Python integers are [Z]; exceptions are values of [exn]
    carried by the error monad [result].

    The scripts build a symbolic graph first and evaluate it later
    ([theano.function]).  A symbolic variable is embedded as its static
    rank together with its denotation on an evaluation environment, so the
    two stages of the scripts stay apart: what a constructor or [errors]
    raises while the graph is built, and what a compiled function computes
    when it is called. *)

From Stdlib Require Import String Reals Lra Lia ZArith List Bool.
From Stdlib Require Import Permutation Sorted.
Import ListNotations.

Set Implicit Arguments.

(** ** Python exceptions and results *)

Module Py.

(** The exception classes that the three files meet.  [Exception] is an
    exception raised as a plain [Exception], of no more specific class. *)
Inductive exn : Set :=
| TypeError
| ValueError
| IndexError
| AssertionError
| ZeroDivisionError
| Exception.

Inductive result (A : Type) : Type :=
| Ok (a : A)
| Raise (e : exn).

Arguments Ok {A} a.
Arguments Raise {A} e.

Definition bind {A B : Type} (r : result A) (k : A -> result B) : result B :=
  match r with
  | Ok a => k a
  | Raise e => Raise e
  end.

(** [assert c]. *)
Definition assert (c : bool) : result unit :=
  if c then Ok tt else Raise AssertionError.

(** [t[k]] on a tuple or list. *)
Definition getitem {A : Type} (t : list A) (k : nat) : result A :=
  match nth_error t k with
  | Some a => Ok a
  | None => Raise IndexError
  end.

(** Python 2 [a / b] on integers: floor division, [ZeroDivisionError] on a
    zero divisor.  [Z.div] rounds towards minus infinity like Python. *)
Definition int_div (a b : Z) : result Z :=
  if (b =? 0)%Z then Raise ZeroDivisionError else Ok (a / b)%Z.

End Py.

Export Py.

Declare Scope py_scope.
Delimit Scope py_scope with py.
Notation "x <- c ;; k" := (Py.bind c (fun x => k))
  (at level 61, c at next level, right associativity) : py_scope.
Notation "c ;;; k" := (Py.bind c (fun _ => k))
  (at level 61, right associativity) : py_scope.
Open Scope py_scope.

(** ** numpy arrays *)

Module np.

Open Scope R_scope.

(** An n-dimensional array: its shape and its entries in row-major order. *)
Record ndarray : Type := mk_ndarray { shape : list nat; data : list R }.

Definition ndim (a : ndarray) : nat := length (shape a).

(** [np.prod] of a shape. *)
Definition prod (s : list nat) : nat := fold_right Nat.mul 1%nat s.

Definition well_formed (a : ndarray) : Prop := length (data a) = prod (shape a).

(** A 0-dimensional array holding one number. *)
Definition scalar (v : R) : ndarray := mk_ndarray [] [v].

Definition full (s : list nat) (v : R) : ndarray := mk_ndarray s (repeat v (prod s)).

(** [np.ones(s) * 2] and [np.zeros(s)]. *)
Definition ones (s : list nat) : ndarray := full s 1.
Definition zeros (s : list nat) : ndarray := full s 0.
Definition mul_scalar (a : ndarray) (c : R) : ndarray :=
  mk_ndarray (shape a) (map (fun v => v * c) (data a)).

Definition sum_list (l : list R) : R := fold_right Rplus 0 l.

(** Entry [k] of the flat data. *)
Definition item (a : ndarray) (k : nat) : R := nth k (data a) 0.

Fixpoint zip_with (f : R -> R -> R) (l1 l2 : list R) : list R :=
  match l1, l2 with
  | a :: l1', b :: l2' => f a b :: zip_with f l1' l2'
  | _, _ => []
  end.

Definition shape_eqb (s1 s2 : list nat) : bool :=
  if list_eq_dec Nat.eq_dec s1 s2 then true else false.

(** Element-wise binary operation as the tensor engine evaluates it on
    variables without broadcastable dimensions: a 0-dimensional operand is
    spread over the other one, equal shapes combine entry by entry, a
    vector is added to every row of a matrix, and any other pair of shapes
    is refused with the engine's [ValueError]. *)
Definition elemwise (f : R -> R -> R) (a b : ndarray) : result ndarray :=
  match shape a, shape b with
  | _, [] => Ok (mk_ndarray (shape a) (map (fun v => f v (item b 0)) (data a)))
  | [], _ => Ok (mk_ndarray (shape b) (map (fun v => f (item a 0) v) (data b)))
  | sa, sb =>
      if shape_eqb sa sb then
        Ok (mk_ndarray sa (zip_with f (data a) (data b)))
      else
        match sa, sb with
        | [r; c], [c'] =>
            if (c =? c')%nat then
              Ok (mk_ndarray sa (zip_with f (data a) (concat (repeat (data b) r))))
            else Raise ValueError
        | _, _ => Raise ValueError
        end
  end.

(** [numpy.dot] of two matrices. *)
Definition dot (a b : ndarray) : result ndarray :=
  match shape a, shape b with
  | [r; k], [k'; c] =>
      if (k =? k')%nat then
        Ok (mk_ndarray [r; c]
              (flat_map (fun i =>
                 map (fun j =>
                   sum_list (map (fun l => item a (i * k + l) * item b (l * c + j))
                                 (seq 0 k)))
                     (seq 0 c))
                 (seq 0 r)))
      else Raise ValueError
  | _, _ => Raise ValueError
  end.

(** [a.mean()], [abs(a)], [a.sum()], [a ** 2].  The mean of an array
    without entries is nan in numpy and in the engine; the reals have no
    such value, and [mean] is 0 there.  What is stated about a mean is
    stated for an array with entries, or does not depend on its value. *)
Definition mean (a : ndarray) : ndarray :=
  scalar (sum_list (data a) / INR (length (data a))).
Definition abs (a : ndarray) : ndarray :=
  mk_ndarray (shape a) (map Rabs (data a)).
Definition sum (a : ndarray) : ndarray := scalar (sum_list (data a)).
Definition sqr (a : ndarray) : ndarray :=
  mk_ndarray (shape a) (map (fun v => v * v) (data a)).

(** The value of [v > t] as the engine stores it: 1 for true, 0 for false. *)
Definition gt (v t : R) : R := if Rlt_dec t v then 1 else 0.

(** [a] with entry [k] of its flat data replaced by [t]. *)
Definition set_item (a : ndarray) (k : nat) (t : R) : ndarray :=
  mk_ndarray (shape a) (firstn k (data a) ++ t :: skipn (S k) (data a)).

(** [a[i]] for an integer [i]: the [i]-th block along the first axis,
    counted from the end when [i] is negative. *)
Definition getitem (a : ndarray) (i : Z) : result ndarray :=
  match shape a with
  | [] => Raise IndexError
  | n :: rest =>
      let n' := Z.of_nat n in
      if ((- n' <=? i) && (i <? n'))%Z then
        let j := Z.to_nat (if (i <? 0)%Z then i + n' else i)%Z in
        Ok (mk_ndarray rest (firstn (prod rest) (skipn (j * prod rest) (data a))))
      else Raise IndexError
  end.

End np.

(** ** The tensor engine: symbolic variables and compiled functions *)

Module theano.

Import np.
Open Scope R_scope.

(** The layers of a classifier.  Every layer allocates its own pair of
    shared variables, so a shared variable is named by the layer that owns
    it; the two data sets of a script are shared variables as well. *)
Inductive layer_id : Set := hidden_layer | output_layer | conv_layer.

Inductive shared : Set :=
| W_of (l : layer_id)
| b_of (l : layer_id)
| train_set_x
| train_set_y.

Definition layer_id_eq_dec (a b : layer_id) : {a = b} + {a <> b}.
Proof. decide equality. Defined.

Definition shared_eq_dec (a b : shared) : {a = b} + {a <> b}.
Proof. decide equality; apply layer_id_eq_dec. Defined.

(** The values of the shared variables. *)
Definition store : Type := shared -> ndarray.

Definition set_value (st : store) (p : shared) (v : ndarray) : store :=
  fun q => if shared_eq_dec q p then v else st q.

(** What a compiled function sees when it runs: the shared variables and
    the values substituted for the matrices [x] and [y]. *)
Record env : Type := mk_env { shareds : store; value_x : ndarray; value_y : ndarray }.

(** A symbolic variable: its rank, known when the graph is built, and its
    value, known when the graph is evaluated. *)
Record TensorVariable : Type :=
  mk_var { tv_ndim : nat; eval : env -> result ndarray }.

(** [T.matrix('x')], [T.matrix('y')]. *)
Definition x : TensorVariable := mk_var 2 (fun e => Ok (value_x e)).
Definition y : TensorVariable := mk_var 2 (fun e => Ok (value_y e)).

(** [theano.shared(value=v)]: a handle on a stored array; as a variable it
    has the rank of its first value and evaluates to the stored array. *)
Record SharedVariable : Type := mk_shared { name : shared; rank : nat }.

Definition variable (p : SharedVariable) : TensorVariable :=
  mk_var (rank p) (fun e => Ok (shareds e (name p))).

Definition shared_of_rank (p : shared) (nd : nat) : SharedVariable := mk_shared p nd.

Definition shared_var (p : shared) (v : ndarray) : SharedVariable :=
  shared_of_rank p (ndim v).

(** A Python number used inside an expression. *)
Definition constant (c : R) : TensorVariable := mk_var 0 (fun _ => Ok (scalar c)).

Definition lift1 (nd : nat) (f : ndarray -> ndarray) (a : TensorVariable) : TensorVariable :=
  mk_var nd (fun e => a' <- eval a e ;; Ok (f a')).

Definition lift2 (f : R -> R -> R) (a b : TensorVariable) : TensorVariable :=
  mk_var (Nat.max (tv_ndim a) (tv_ndim b))
         (fun e => a' <- eval a e ;; b' <- eval b e ;; elemwise f a' b').

Definition T_add := lift2 Rplus.
Definition T_sub := lift2 Rminus.
Definition T_mul := lift2 Rmult.
Definition T_gt := lift2 gt.
Definition T_dot (a b : TensorVariable) : TensorVariable :=
  mk_var 2 (fun e => a' <- eval a e ;; b' <- eval b e ;; dot a' b').
Definition T_mean (a : TensorVariable) : TensorVariable := lift1 0 mean a.
Definition T_sum (a : TensorVariable) : TensorVariable := lift1 0 sum a.
Definition T_abs (a : TensorVariable) : TensorVariable := lift1 (tv_ndim a) abs a.
Definition T_sqr (a : TensorVariable) : TensorVariable := lift1 (tv_ndim a) sqr a.

(** What the scripts take from the engine without implementing it: the
    gradient of a scalar cost with respect to a shared variable, and the
    operations of the convolution script. *)
Class TensorEngine : Type := {
  grad : TensorVariable -> SharedVariable -> TensorVariable;
  reshape : TensorVariable -> list Z -> TensorVariable;
  conv2d : TensorVariable -> TensorVariable -> list Z -> list Z -> Z -> TensorVariable;
  add_bias_per_map : TensorVariable -> TensorVariable -> TensorVariable;
  flatten : TensorVariable -> nat -> TensorVariable
}.

(** The list of pairs given as [updates]. *)
Definition updates_list : Type := list (SharedVariable * TensorVariable).

Fixpoint eval_all (e : env) (vs : list TensorVariable) : result (list ndarray) :=
  match vs with
  | [] => Ok []
  | v :: vs' =>
      v' <- eval v e ;;
      rest <- eval_all e vs' ;;
      Ok (v' :: rest)
  end.

Definition write_all (ups : updates_list) (vals : list ndarray) (st : store) : store :=
  fold_left (fun s pv => set_value s (name (fst (fst pv))) (snd pv)) (combine ups vals) st.

(** [givens={x: train_set_x[index], y: train_set_y[index]}]: the batch
    selected by an index. *)
Definition givens (st : store) (index : Z) : result (ndarray * ndarray) :=
  bx <- getitem (st train_set_x) index ;;
  by_ <- getitem (st train_set_y) index ;;
  Ok (bx, by_).

(** [theano.function(inputs=[index], outputs=..., updates=..., givens=...)]
    applied to an index: the batch is selected, the outputs and every new
    value are computed from the old values of the shared variables, and
    only then are the shared variables overwritten.  A selected batch that
    is not a pair of matrices cannot stand for [x] and [y]. *)
Definition function (outputs : list TensorVariable) (updates : updates_list)
    (st : store) (index : Z) : result (list ndarray * store) :=
  batch <- givens st index ;;
  if negb ((ndim (fst batch) =? 2)%nat && (ndim (snd batch) =? 2)%nat) then Raise TypeError
  else
    let e := mk_env st (fst batch) (snd batch) in
    outs <- eval_all e outputs ;;
    vals <- eval_all e (map snd updates) ;;
    Ok (outs, write_all updates vals st).

(** The same with a single variable as [outputs]. *)
Definition function1 (output : TensorVariable) (updates : updates_list)
    (st : store) (index : Z) : result (ndarray * store) :=
  r <- function [output] updates st index ;;
  match fst r with
  | [c] => Ok (c, snd r)
  | _ => Raise ValueError
  end.

(** The engine's contract for [grad], at one environment: [g] has the
    shape of the shared variable [p], and each entry of [g] is the partial
    derivative of the scalar [c] in the matching entry of [p]. *)
Definition cost_along (c : TensorVariable) (e : env) (p : shared) (k : nat) (t : R) : R :=
  match eval c (mk_env (set_value (shareds e) p (set_item (shareds e p) k t))
                       (value_x e) (value_y e)) with
  | Ok a => item a 0
  | Raise _ => 0
  end.

Definition is_gradient (c : TensorVariable) (e : env) (p : shared) (g : ndarray) : Prop :=
  shape g = shape (shareds e p) /\
  length (data g) = length (data (shareds e p)) /\
  forall k, (k < length (data g))%nat ->
    derivable_pt_lim (cost_along c e p k) (item (shareds e p) k) (item g k).

End theano.

(** ** What the two training scripts share *)

Module scripts.

Import np theano.
Open Scope R_scope.

(** A layer object: its two shared variables with their first values, its
    symbolic output and its list [params]. *)
Record Layer : Type := mk_layer {
  W : SharedVariable;
  b : SharedVariable;
  W_values : ndarray;
  b_values : ndarray;
  output : TensorVariable;
  params : list SharedVariable
}.

(** [shared_dataset(data_xy)]: the two arrays become the shared variables
    that the compiled functions index. *)
Definition shared_dataset (data_xy : ndarray * ndarray) (st : store) : store :=
  set_value (set_value st train_set_x (fst data_xy)) train_set_y (snd data_xy).

(** The linear rectifier of [OutputLayer.__init__], with [self.threshold]
    as a parameter (it is 1 in example2.py and 0 in example3.py):
    [above_threshold = lin_output > self.threshold] and
    [self.output = above_threshold * (lin_output - self.threshold)]. *)
Definition rectifier (threshold : R) (lin_output : TensorVariable) : TensorVariable :=
  let above_threshold := T_gt lin_output (constant threshold) in
  T_mul above_threshold (T_sub lin_output (constant threshold)).

(** [OutputLayer.errors(self, y)], identical in both scripts, as a function
    of [self.output] and [y]. *)
Definition errors (self_output y : TensorVariable) : result TensorVariable :=
  if negb (tv_ndim y =? tv_ndim self_output)%nat then Raise TypeError
  else Ok (T_abs (T_mean (T_sub self_output y))).

(** [param - learning_rate * gparam]. *)
Definition new_value (learning_rate : R) (param : SharedVariable)
    (gparam : TensorVariable) : TensorVariable :=
  T_sub (variable param) (T_mul (constant learning_rate) gparam).

(** The loop of [main] that builds [updates]:
    [updates.append((param, param - learning_rate * gparam))] over
    [zip(params, gparams)]. *)
Definition make_updates (learning_rate : R) (params : list SharedVariable)
    (gparams : list TensorVariable) : updates_list :=
  map (fun pg => (fst pg, new_value learning_rate (fst pg) (snd pg)))
      (combine params gparams).

(** [errors(y) + 0.0 * L1 + 0.0 * L2_sqr]. *)
Definition regularised (err L1 L2_sqr : TensorVariable) : TensorVariable :=
  T_add (T_add err (T_mul (constant 0) L1)) (T_mul (constant 0) L2_sqr).

End scripts.

(** ** sandbox/example2.py *)

Module example2.

Import np theano scripts.
Open Scope R_scope.

Definition HiddenLayer (self : layer_id) (input : TensorVariable) (n_in n_nodes : nat) : Layer :=
  let W_values := mul_scalar (ones [n_in; n_nodes]) 2 in
  let W := shared_var (W_of self) W_values in
  let b_values := zeros [n_nodes] in
  let b := shared_var (b_of self) b_values in
  mk_layer W b W_values b_values
           (T_add (T_dot input (variable W)) (variable b))
           [W; b].

Definition threshold : R := 1.

Definition OutputLayer (self : layer_id) (input_from_previous_layer : TensorVariable)
    (n_in n_nodes : nat) : Layer :=
  let W_values := mul_scalar (ones [n_in; n_nodes]) 2 in
  let W := shared_var (W_of self) W_values in
  let b_values := zeros [n_nodes] in
  let b := shared_var (b_of self) b_values in
  let lin_output := T_add (T_dot input_from_previous_layer (variable W)) (variable b) in
  mk_layer W b W_values b_values (rectifier threshold lin_output) [W; b].

Record MLP_object : Type := mk_MLP {
  hidden_layer_of : Layer;
  output_layer_of : Layer;
  L1 : TensorVariable;
  L2_sqr : TensorVariable;
  MLP_params : list SharedVariable
}.

Definition MLP (input : TensorVariable) (n_in n_hidden n_out : nat) : MLP_object :=
  let hidden := HiddenLayer hidden_layer input n_in n_hidden in
  let out := OutputLayer output_layer (output hidden) n_hidden n_out in
  mk_MLP hidden out
    (T_add (T_sum (T_abs (variable (W hidden)))) (T_sum (T_abs (variable (W out)))))
    (T_add (T_sum (T_sqr (variable (W hidden)))) (T_sum (T_sqr (variable (W out)))))
    (params hidden ++ params out).

(** [main]: the classifier, the cost, the updates and the two compiled
    functions. *)
Definition classifier : MLP_object := MLP x 2 1 1.

Definition cost : result TensorVariable :=
  err <- errors (output (output_layer_of classifier)) y ;;
  Ok (regularised err (L1 classifier) (L2_sqr classifier)).

Definition learning_rate : R := 0.02.

Definition gparams `{TensorEngine} (c : TensorVariable) : list TensorVariable :=
  map (fun param => grad c param) (MLP_params classifier).

Definition updates `{TensorEngine} (c : TensorVariable) : updates_list :=
  make_updates learning_rate (MLP_params classifier) (gparams c).

Definition train_model `{TensorEngine} (st : store) (index : Z) : result (ndarray * store) :=
  c <- cost ;;
  function1 c (updates c) st index.

Definition test_model (st : store) (index : Z) : result (list ndarray) :=
  c <- cost ;;
  r <- function [x; output (output_layer_of classifier); c;
                 variable (W (hidden_layer_of classifier));
                 variable (b (hidden_layer_of classifier));
                 variable (W (output_layer_of classifier));
                 variable (b (output_layer_of classifier))] [] st index ;;
  Ok (fst r).

(** The data of [main] and the values of the shared variables once the
    classifier is built. *)
Definition train_set : ndarray * ndarray :=
  (mk_ndarray [2; 4; 2]%nat [0; 0; 0; 1; 1; 1; 1; 0; 0; 0; 0; 1; 1; 1; 1; 0],
   mk_ndarray [2; 4; 1]%nat [0; 0; 1; 0; 0; 0; 1; 0]).

Definition initial_store : store :=
  fun p =>
    match p with
    | W_of hidden_layer => W_values (hidden_layer_of classifier)
    | b_of hidden_layer => b_values (hidden_layer_of classifier)
    | W_of output_layer => W_values (output_layer_of classifier)
    | b_of output_layer => b_values (output_layer_of classifier)
    | train_set_x => fst train_set
    | train_set_y => snd train_set
    | _ => zeros []
    end.

(** [for iteration in range(n): cost = train_model(0)]. *)
Fixpoint train_loop `{TensorEngine} (n : nat) (st : store) : result store :=
  match n with
  | O => Ok st
  | S n' => r <- train_model st 0 ;; train_loop n' (snd r)
  end.

End example2.

(** ** sandbox/example3.py *)

Module example3.

Import np theano scripts.
Open Scope R_scope.

(** A call [np.random.uniform(high=..., low=..., size=...)].  The numbers
    drawn are numpy's; a layer records the arguments it passes. *)
Record uniform_call : Type := mk_uniform { high : R; low : R; size : list Z }.

(** numpy refuses a negative dimension with [ValueError], in
    [np.random.uniform] as in [np.zeros]. *)
Definition dimensions_ok (size : list Z) : bool :=
  forallb (fun n => (0 <=? n)%Z) size.

Definition uniform (high low : R) (size : list Z) : result uniform_call :=
  if dimensions_ok size then Ok (mk_uniform high low size) else Raise ValueError.

Definition np_zeros (shape : list Z) : result (list Z) :=
  if dimensions_ok shape then Ok shape else Raise ValueError.

(** A layer whose weights are drawn at random. *)
Record RandomLayer : Type := mk_random_layer {
  W_bound : R;
  W_draw : uniform_call;
  W : SharedVariable;
  b : SharedVariable;
  b_shape : list Z;
  output : TensorVariable;
  params : list SharedVariable
}.

(** [6. / n] for a Python integer [n]: Python refuses a zero divisor.  The
    square root taken of the quotient is the real one, 0 on a negative
    number where [np.sqrt] gives nan; in the two dense layers a negative
    quotient comes with a negative size, which the draw refuses. *)
Definition float_div_int (a : R) (n : Z) : result R :=
  if (n =? 0)%Z then Raise ZeroDivisionError else Ok (a / IZR n).

Definition HiddenLayer (self : layer_id) (input : TensorVariable) (n_in n_nodes : Z)
    : result RandomLayer :=
  q <- float_div_int 6 (n_in + n_nodes) ;;
  let W_bound := sqrt q in
  W_draw <- uniform W_bound (- W_bound) [n_in; n_nodes] ;;
  let W := shared_of_rank (W_of self) 2 in
  b_shape <- np_zeros [n_nodes] ;;
  let b := shared_of_rank (b_of self) 1 in
  Ok (mk_random_layer W_bound W_draw W b b_shape
        (T_add (T_dot input (variable W)) (variable b))
        [W; b]).

Definition threshold : R := 0.

Definition OutputLayer (self : layer_id) (input_from_previous_layer : TensorVariable)
    (n_in n_nodes : Z) : result RandomLayer :=
  q <- float_div_int 6 (n_in + n_nodes) ;;
  let W_bound := - sqrt q in
  W_draw <- uniform W_bound (- W_bound) [n_in; n_nodes] ;;
  let W := shared_of_rank (W_of self) 2 in
  b_shape <- np_zeros [n_nodes] ;;
  let b := shared_of_rank (b_of self) 1 in
  let lin_output := T_add (T_dot input_from_previous_layer (variable W)) (variable b) in
  Ok (mk_random_layer W_bound W_draw W b b_shape
        (rectifier threshold lin_output)
        [W; b]).

(** [np.prod] of a list of Python integers.  The entries of a shape are
    sizes of array dimensions and fit in 64 bits; numpy then multiplies
    64-bit integers, and the product wraps.  A list with an entry that
    does not fit is outside this model: numpy would leave the 64-bit
    integers for another type. *)
Definition int64 (z : Z) : Z := ((z + 2 ^ 63) mod 2 ^ 64 - 2 ^ 63)%Z.
Definition np_prod (l : list Z) : Z := int64 (fold_right Z.mul 1%Z l).

(** [conv.conv2d] is given the two shapes and works out the shape of its
    output before it builds the variable.  In its valid mode and with a
    positive stride, a filter higher or wider than the image leaves no
    output, and the engine refuses it with a plain [Exception].  This is
    the refusal that the shapes of four entries decide; what else the
    engine may refuse is not modelled. *)
Definition filter_fits (filter_shape image_shape : list Z) : bool :=
  match skipn 2 filter_shape, skipn 2 image_shape with
  | [fh; fw], [ih; iw] => ((fh <=? ih) && (fw <=? iw))%Z
  | _, _ => true
  end.

Definition conv2d_shapes (filter_shape image_shape : list Z) (stride : Z) : result unit :=
  if ((0 <? stride)%Z && negb (filter_fits filter_shape image_shape))%bool
  then Raise Exception else Ok tt.

Record ConvLayer : Type := mk_conv_layer {
  fan_in : Z;
  fan_out : Z;
  layer : RandomLayer
}.

(** [ConvolutionalLayer.__init__].  [filter_shape] and [image_shape] are
    Python lists.  [fan_in] is a numpy integer, so [6. / (fan_in + fan_out)]
    is numpy's division, which raises nothing; the sum is taken in [Z] and
    the quotient in the reals.  Where numpy's quotient is not a finite
    positive number ([fan_in + fan_out <= 0]) the real number of the model
    is not numpy's bound, and what is stated about the bound is stated for
    a positive sum.  The draw of [W], the zeros of [b] and [conv2d] are
    numpy's and the engine's: the layer records what it passes to them,
    after the refusals of [uniform], [np_zeros] and [conv2d_shapes]. *)
Definition ConvolutionalLayer `{TensorEngine} (input_images : TensorVariable)
    (filter_shape image_shape : list Z) (stride : Z) : result ConvLayer :=
  image_maps <- Py.getitem image_shape 1 ;;
  filter_maps <- Py.getitem filter_shape 1 ;;
  assert (image_maps =? filter_maps)%Z ;;;
  let fan_in := np_prod (tl filter_shape) in
  image_height <- Py.getitem image_shape 2 ;;
  filter_height <- Py.getitem filter_shape 2 ;;
  q <- int_div (image_height - filter_height) stride ;;
  let feature_map_size := (1 + q)%Z in
  n_filters <- Py.getitem filter_shape 0 ;;
  let fan_out := (n_filters * feature_map_size * feature_map_size)%Z in
  let W_bound := sqrt (6 / IZR (fan_in + fan_out)) in
  W_draw <- uniform W_bound (- W_bound) filter_shape ;;
  let W := shared_of_rank (W_of conv_layer) (List.length filter_shape) in
  b_shape <- np_zeros [n_filters] ;;
  let b := shared_of_rank (b_of conv_layer) 1 in
  conv2d_shapes filter_shape image_shape stride ;;;
  let convolution_output :=
    conv2d input_images (variable W) filter_shape image_shape stride in
  let activation := add_bias_per_map convolution_output (variable b) in
  Ok (mk_conv_layer fan_in fan_out
        (mk_random_layer W_bound W_draw W b b_shape activation [W; b])).

Record MLP_object : Type := mk_MLP {
  conv_layer_of : ConvLayer;
  hidden_layer_of : RandomLayer;
  output_layer_of : RandomLayer;
  L1 : TensorVariable;
  L2_sqr : TensorVariable;
  MLP_params : list SharedVariable
}.

Definition MLP `{TensorEngine} (input : TensorVariable) (input_shape : list Z)
    (filter_shapes : list (list Z)) (strides : list Z) (n_hidden n_out : Z)
    : result MLP_object :=
  filter_shape <- Py.getitem filter_shapes 0 ;;
  stride <- Py.getitem strides 0 ;;
  conv <- ConvolutionalLayer input filter_shape input_shape stride ;;
  let flattened_input := flatten (output (layer conv)) 2 in
  hidden <- HiddenLayer hidden_layer flattened_input (fan_out conv) n_hidden ;;
  out <- OutputLayer output_layer (output hidden) n_hidden n_out ;;
  Ok (mk_MLP conv hidden out
        (T_add (T_add (T_sum (T_abs (variable (W hidden))))
                      (T_sum (T_abs (variable (W out)))))
               (T_sum (T_abs (variable (W (layer conv))))))
        (T_add (T_add (T_sum (T_sqr (variable (W hidden))))
                      (T_sum (T_sqr (variable (W out)))))
               (T_sum (T_sqr (variable (W (layer conv))))))
        (params hidden ++ params out ++ params (layer conv))).

(** [main]. *)
Definition classifier `{TensorEngine} : result MLP_object :=
  MLP (reshape x [1; 1; 84; 84]%Z) [1; 1; 84; 84]%Z [[16; 1; 8; 8]%Z] [4%Z] 40 1.

Definition cost `{TensorEngine} : result (MLP_object * TensorVariable) :=
  cl <- classifier ;;
  err <- errors (output (output_layer_of cl)) y ;;
  Ok (cl, regularised err (L1 cl) (L2_sqr cl)).

Definition learning_rate : R := 0.0001.

Definition grads `{TensorEngine} (c : TensorVariable) (wrt : list SharedVariable)
    : list TensorVariable :=
  map (fun param => grad c param) wrt.

Definition updates `{TensorEngine} (cl : MLP_object) (c : TensorVariable) : updates_list :=
  make_updates learning_rate (MLP_params cl) (grads c (MLP_params cl)).

Definition train_model `{TensorEngine} (st : store) (index : Z) : result (ndarray * store) :=
  cc <- cost ;;
  function1 (snd cc) (updates (fst cc) (snd cc)) st index.

End example3.

(** ** src/ai/NeuralNet.py *)

Module NeuralNet_py.

Import np.
Open Scope Z_scope.

(** [SimpleDataProvider.get_data_dims(self, idx)], with the class attribute
    [dims] ([None] until a [NeuralNet] is built) as an argument. *)
Definition get_data_dims (dims : option (list Z)) (idx : Z) : result Z :=
  match dims with
  | None => Raise AssertionError
  | Some d =>
      assert ((0 <=? idx) && (idx <? Z.of_nat (List.length d))) ;;;
      Py.getitem d (Z.to_nat idx)
  end.

(** The GPU library behind [self.libmodel]: two opaque calls on a device
    state. *)
Class LibModel (device : Type) : Type := {
  startBatch_on : list ndarray -> Z -> bool -> device -> device;
  finishBatch_on : device -> R * device
}.

(** The calls a model has made to its library, latest first. *)
Inductive libcall : Type :=
| startBatch (batch : list ndarray) (progress : Z) (testOnly : bool)
| finishBatch.

Record NeuralNet (device : Type) : Type := mk_NeuralNet {
  nr_inputs : Z;
  nr_outputs : Z;
  layers_file : string;
  params_file : string;
  output_layer_name : string;
  libmodel : device;
  calls : list libcall
}.

(** The value of [SimpleDataProvider.dims] once [__init__] has run. *)
Definition dims_after_init {device : Type} (self : NeuralNet device) : option (list Z) :=
  Some [nr_inputs self; nr_outputs self].

(** The three assertions of [NeuralNet.train]. *)
Definition train_asserts {device : Type} (self : NeuralNet device)
    (inputs outputs : ndarray) : result unit :=
  n <- Py.getitem (shape inputs) 0 ;;
  assert (Z.of_nat n =? nr_inputs self) ;;;
  k <- Py.getitem (shape outputs) 0 ;;
  assert (Z.of_nat k =? nr_outputs self) ;;;
  m <- Py.getitem (shape inputs) 1 ;;
  m' <- Py.getitem (shape outputs) 1 ;;
  assert (m =? m')%nat.

(** [NeuralNet.train(self, inputs, outputs)]: the outcome of the call and
    the model after it. *)
Definition train {device : Type} `{LibModel device} (self : NeuralNet device)
    (inputs outputs : ndarray) : result R * NeuralNet device :=
  match train_asserts self inputs outputs with
  | Raise e => (Raise e, self)
  | Ok _ =>
      let started := startBatch_on [inputs; outputs] 1 false (libmodel self) in
      let finished := finishBatch_on started in
      (Ok (fst finished),
       mk_NeuralNet (nr_inputs self) (nr_outputs self) (layers_file self)
         (params_file self) (output_layer_name self) (snd finished)
         (finishBatch :: startBatch [inputs; outputs] 1 false :: calls self))
  end.

End NeuralNet_py.

(** ** A network of one affine layer

    The network of the descent property: one [HiddenLayer] of example2.py
    with two inputs and one node, the cost and the update loop of its
    [main], and a data set of one batch, input [[1, 1]] and target [[0]]. *)

Module affine_network.

Import np theano scripts.
Open Scope R_scope.

Definition affine_layer : Layer := example2.HiddenLayer hidden_layer x 2 1.

Definition L1 : TensorVariable := T_sum (T_abs (variable (W affine_layer))).
Definition L2_sqr : TensorVariable := T_sum (T_sqr (variable (W affine_layer))).

Definition cost : result TensorVariable :=
  err <- errors (output affine_layer) y ;;
  Ok (regularised err L1 L2_sqr).

Definition updates `{TensorEngine} (c : TensorVariable) : updates_list :=
  make_updates example2.learning_rate (params affine_layer)
    (map (fun param => grad c param) (params affine_layer)).

Definition train_model `{TensorEngine} (st : store) (index : Z) : result (ndarray * store) :=
  c <- cost ;;
  function1 c (updates c) st index.

(** The cost alone, as [test_model] reports it: no update. *)
Definition cost_model (st : store) (index : Z) : result ndarray :=
  c <- cost ;;
  r <- function1 c [] st index ;;
  Ok (fst r).

Definition train_set : ndarray * ndarray :=
  (mk_ndarray [1; 1; 2]%nat [1; 1], mk_ndarray [1; 1; 1]%nat [0]).

Definition initial_store : store :=
  fun p =>
    match p with
    | W_of hidden_layer => W_values affine_layer
    | b_of hidden_layer => b_values affine_layer
    | train_set_x => fst train_set
    | train_set_y => snd train_set
    | _ => zeros []
    end.

(** The environment of the first call [train_model(0)]. *)
Definition first_env : env :=
  mk_env initial_store (mk_ndarray [1; 2]%nat [1; 1]) (mk_ndarray [1; 1]%nat [0]).

End affine_network.

(** ** The properties stated of the code, in their own words *)

Module stated.

Import np theano.
Open Scope R_scope.

(** mean(|predicted - target|). *)
Definition mean_absolute_error (predicted target : ndarray) : R :=
  sum_list (map Rabs (zip_with Rminus (data predicted) (data target)))
  / INR (List.length (data predicted)).

(** |mean(predicted - target)|. *)
Definition absolute_mean_error (predicted target : ndarray) : R :=
  Rabs (sum_list (zip_with Rminus (data predicted) (data target))
        / INR (List.length (data predicted))).

(** filters x floor(1 + (image_size - filter_size)/stride)^2, the quotient
    taken in the reals. *)
Definition feature_map_size (image_size filter_size stride : Z) : Z :=
  Zfloor (1 + (IZR image_size - IZR filter_size) / IZR stride).

Definition fan_out (filters image_size filter_size stride : Z) : Z :=
  (filters * feature_map_size image_size filter_size stride ^ 2)%Z.

(** max(v - threshold, 0) on every entry. *)
Definition thresholded (threshold : R) (a : ndarray) : ndarray :=
  mk_ndarray (shape a) (map (fun v => Rmax (v - threshold) 0) (data a)).

(** p - learning_rate * g on every entry. *)
Definition descent (learning_rate : R) (p g : ndarray) : ndarray :=
  mk_ndarray (shape p)
    (zip_with (fun a d => a - learning_rate * d) (data p) (data g)).

(** What the update rule needs from the engine at one call: a gradient for
    every parameter, of the parameter's shape. *)
Definition gradients_available `{TensorEngine} (c : TensorVariable)
    (params : list SharedVariable) (e : env) : Prop :=
  forall p, In p params ->
    exists g, eval (grad c p) e = Ok g /\
              shape g = shape (shareds e (name p)) /\
              well_formed g /\ well_formed (shareds e (name p)).

(** The engine keeps its contract for [grad] at one call: what it returns
    for every parameter is the gradient of the cost. *)
Definition true_gradients `{TensorEngine} (c : TensorVariable)
    (params : list SharedVariable) (e : env) : Prop :=
  forall p, In p params ->
    exists g, eval (grad c p) e = Ok g /\ is_gradient c e (name p) g.

(** Plain gradient descent: every parameter [p] with gradient [g] becomes
    exactly [p - learning_rate * g], and nothing else is written. *)
Definition plain_descent `{TensorEngine} (c : TensorVariable) (learning_rate : R)
    (params : list SharedVariable) (e : env) (st' : store) : Prop :=
  (forall p, In p params ->
     exists g, eval (grad c p) e = Ok g /\
               st' (name p) = descent learning_rate (shareds e (name p)) g) /\
  (forall q, ~ In q (map name params) -> st' q = shareds e q).

(** The three preconditions of [train]: [inputs.shape[0]] is [nr_inputs],
    [outputs.shape[0]] is [nr_outputs], and [inputs.shape[1]] is
    [outputs.shape[1]]. *)
Definition train_preconditions {device : Type} (self : NeuralNet_py.NeuralNet device)
    (inputs outputs : ndarray) : Prop :=
  exists n k m rest_in rest_out,
    shape inputs = n :: m :: rest_in /\
    shape outputs = k :: m :: rest_out /\
    Z.of_nat n = NeuralNet_py.nr_inputs self /\
    Z.of_nat k = NeuralNet_py.nr_outputs self.

(** The value a descent step gives to a parameter. *)
Definition stepped `{TensorEngine} (c : TensorVariable) (learning_rate : R)
    (e : env) (param : SharedVariable) : ndarray :=
  match eval (grad c param) e with
  | Ok g => descent learning_rate (shareds e (name param)) g
  | Raise _ => shareds e (name param)
  end.

End stated.

(** ** Concrete collaborators

    Stand-ins for the tensor engine and the GPU library, for running the
    models on concrete data. *)

Module fixtures.

Import np theano.
Open Scope R_scope.

(** An engine whose gradient is 1 in every entry; its other operations
    pass their first argument on. *)
Definition unit_gradient_engine : TensorEngine :=
  {| grad := fun _ p =>
       mk_var (rank p)
              (fun e => Ok (full (shape (shareds e (name p))) 1));
     reshape := fun v _ => v;
     conv2d := fun v _ _ _ _ => v;
     add_bias_per_map := fun v _ => v;
     flatten := fun v _ => v |}.

(** A library whose device counts the batches it was given and reports a
    cost of 0. *)
Definition counting_library : NeuralNet_py.LibModel nat :=
  {| NeuralNet_py.startBatch_on := fun _ _ _ d => S d;
     NeuralNet_py.finishBatch_on := fun d => (0, d) |}.

Definition small_net : NeuralNet_py.NeuralNet nat :=
  NeuralNet_py.mk_NeuralNet 2 1 "layers.cfg" "params.cfg" "out" 0%nat [].

End fixtures.

(** ** The rest of [main] in example3.py *)

Module example3_main.

Import np theano scripts.
Open Scope R_scope.

Definition test_model `{TensorEngine} (st : store) (index : Z) : result (list ndarray) :=
  cc <- example3.cost ;;
  let cl := fst cc in
  r <- function [variable (example3.W (example3.layer (example3.conv_layer_of cl)));
                 variable (example3.b (example3.hidden_layer_of cl));
                 variable (example3.W (example3.output_layer_of cl));
                 variable (example3.b (example3.output_layer_of cl));
                 example3.output (example3.output_layer_of cl);
                 snd cc] [] st index ;;
  Ok (fst r).

(** [for i in range(n): cost = train_model(0); cost = train_model(1);
    result = test_model(0); result = test_model(1)]. *)
Fixpoint train_loop `{TensorEngine} (n : nat) (st : store) : result store :=
  match n with
  | O => Ok st
  | S n' =>
      r0 <- example3.train_model st 0 ;;
      r1 <- example3.train_model (snd r0) 1 ;;
      test_model (snd r1) 0 ;;;
      test_model (snd r1) 1 ;;;
      train_loop n' (snd r1)
  end.

End example3_main.

(** ** The other methods of [NeuralNet] *)

Module NeuralNet_methods.

Import np NeuralNet_py.

(** The feature writer of the GPU library.  It is handed a buffer and
    fills it in place while the batch runs; [written_on] is entry [k] of
    that buffer once the batch has finished. *)
Class FeatureWriter (device : Type) : Type := {
  startFeatureWriter_on :
    list ndarray -> list ndarray -> list string -> device -> device;
  written_on : device -> nat -> R
}.

(** [np.zeros((rows, cols))] with [cols] a Python integer. *)
Definition zeros2 (rows : nat) (cols : Z) : result ndarray :=
  if (cols <? 0)%Z then Raise ValueError else Ok (zeros [rows; Z.to_nat cols]).

(** [a.transpose().copy()] of a matrix; an array of lower rank is its own
    transpose, and [predict] has no array of higher rank. *)
Definition transpose (a : ndarray) : ndarray :=
  match shape a with
  | [r; c] =>
      mk_ndarray [c; r]
        (flat_map (fun j => map (fun i => item a (i * c + j)) (seq 0 r)) (seq 0 c))
  | _ => a
  end.

(** What [predict] does before it reaches the library. *)
Definition predict_prepare {device : Type} (self : NeuralNet device)
    (inputs : ndarray) : result ndarray :=
  n <- Py.getitem (shape inputs) 0 ;;
  assert (Z.of_nat n =? nr_inputs self)%Z ;;;
  batch_size <- Py.getitem (shape inputs) 1 ;;
  zeros2 batch_size (nr_outputs self).

(** [NeuralNet.predict(self, inputs)]: the outcome of the call and the
    device after it. *)
Definition predict {device : Type} `{LibModel device} `{FeatureWriter device}
    (self : NeuralNet device) (inputs : ndarray) : result ndarray * device :=
  match predict_prepare self inputs with
  | Raise e => (Raise e, libmodel self)
  | Ok outputs =>
      let started :=
        startFeatureWriter_on [inputs; transpose outputs] [outputs]
          [output_layer_name self] (libmodel self) in
      let finished := snd (finishBatch_on started) in
      (Ok (mk_ndarray (shape outputs)
             (map (written_on finished) (seq 0 (List.length (data outputs))))),
       finished)
  end.

End NeuralNet_methods.

(** ** [NeuralNet.get_weight_stats] *)

Module weight_stats.

Import np.
Open Scope R_scope.

(** What a layer with weights holds once [sync_with_host] has copied it
    from the device. *)
Record weight_layer : Type := mk_weight_layer {
  weights : list ndarray;
  biases : ndarray;
  biasesInc : ndarray;
  weightsInc : list ndarray
}.

(** A value of [self.layers]: [l['name']], [l['id']], and the entries of a
    layer for which ['weights' in l] holds. *)
Record layer_dict : Type := mk_layer_dict {
  l_name : string;
  l_id : Z;
  l_weights : option weight_layer
}.

(** The second component of a key: ['biases'] or ['weights' + str(i)]. *)
Inductive stat_name : Set :=
| biases_stat
| weights_stat (i : nat).

Definition key : Type := (string * stat_name)%type.

Definition stat_name_eqb (s1 s2 : stat_name) : bool :=
  match s1, s2 with
  | biases_stat, biases_stat => true
  | weights_stat i, weights_stat j => (i =? j)%nat
  | _, _ => false
  end.

Definition key_eqb (k1 k2 : key) : bool :=
  String.eqb (fst k1) (fst k2) && stat_name_eqb (snd k1) (snd k2).

(** [n.mean(n.abs(a))]. *)
Definition mean_abs (a : ndarray) : R := item (mean (abs a)) 0.

(** An [OrderedDict]: the pairs in the order of first insertion. *)
Definition OrderedDict : Type := list (key * (R * R)).

(** [d[k] = v]: a key already there keeps its place and takes the value. *)
Fixpoint setitem (d : OrderedDict) (k : key) (v : R * R) : OrderedDict :=
  match d with
  | [] => [(k, v)]
  | (k', v') :: d' =>
      if key_eqb k' k then (k', v) :: d' else (k', v') :: setitem d' k v
  end.

(** [sorted(items, key=lambda x: x[1]['id'])]: a stable sort. *)
Fixpoint insert_by_id (x : string * layer_dict) (l : list (string * layer_dict))
    : list (string * layer_dict) :=
  match l with
  | [] => [x]
  | y :: l' =>
      if (l_id (snd x) <=? l_id (snd y))%Z then x :: y :: l'
      else y :: insert_by_id x l'
  end.

Definition sorted_by_id (items : list (string * layer_dict)) : list (string * layer_dict) :=
  fold_right insert_by_id [] items.

(** [enumerate(zip(ws, wis))]. *)
Fixpoint enumerate_zip (i : nat) (ws wis : list ndarray) : list (nat * (ndarray * ndarray)) :=
  match ws, wis with
  | w :: ws', wi :: wis' => (i, (w, wi)) :: enumerate_zip (S i) ws' wis'
  | _, _ => []
  end.

(** The body of the loop, for one layer. *)
Definition record_layer (wscales : OrderedDict) (l : layer_dict) : OrderedDict :=
  match l_weights l with
  | None => wscales
  | Some wl =>
      fold_left
        (fun d iw =>
           setitem d (l_name l, weights_stat (fst iw))
                   (mean_abs (fst (snd iw)), mean_abs (snd (snd iw))))
        (enumerate_zip 0 (weights wl) (weightsInc wl))
        (setitem wscales (l_name l, biases_stat)
                 (mean_abs (biases wl), mean_abs (biasesInc wl)))
  end.

(** [get_weight_stats], on the items of [self.layers] as the dictionary
    yields them after [sync_with_host]; the layer looked up under a name
    is the value yielded with it. *)
Definition get_weight_stats (items : list (string * layer_dict)) : OrderedDict :=
  fold_left (fun wscales item => record_layer wscales (snd item))
            (sorted_by_id items) [].

End weight_stats.

(** ** What [get_weight_stats] records for one layer *)

Module weight_stats_view.

Import np weight_stats.
Open Scope R_scope.

(** The entries of one layer, in the order the loop writes them: none for a
    layer without weights; otherwise the biases, then one entry for every
    pair of [zip(l['weights'], l['weightsInc'])]. *)
Definition layer_entries (l : layer_dict) : OrderedDict :=
  match l_weights l with
  | None => []
  | Some wl =>
      ((l_name l, biases_stat), (mean_abs (biases wl), mean_abs (biasesInc wl)))
      :: map (fun iw => ((l_name l, weights_stat (fst iw)),
                         (mean_abs (fst (snd iw)), mean_abs (snd (snd iw)))))
             (enumerate_zip 0 (weights wl) (weightsInc wl))
  end.

(** Layers ordered by [id]. *)
Definition id_le (a b : string * layer_dict) : Prop := (l_id (snd a) <= l_id (snd b))%Z.
Definition id_lt (a b : string * layer_dict) : Prop := (l_id (snd a) < l_id (snd b))%Z.

End weight_stats_view.

(** ** More concrete collaborators *)

Module more_fixtures.

Import np.
Open Scope R_scope.

(** A feature writer for the counting device: it fills the buffer with the
    number of batches the device has seen. *)
Definition counting_writer : NeuralNet_methods.FeatureWriter nat :=
  {| NeuralNet_methods.startFeatureWriter_on := fun _ _ _ d => S d;
     NeuralNet_methods.written_on := fun d _ => INR d |}.

(** Two layers as [self.layers] holds them: a data layer without weights
    and a layer with one weight matrix. *)
Definition data_layer : weight_stats.layer_dict :=
  weight_stats.mk_layer_dict "data" 0 None.

Definition fc_layer : weight_stats.layer_dict :=
  weight_stats.mk_layer_dict "fc" 1
    (Some (weight_stats.mk_weight_layer
             [mk_ndarray [1; 2]%nat [1; -3]]
             (mk_ndarray [1]%nat [-2])
             (mk_ndarray [1]%nat [0])
             [mk_ndarray [1; 2]%nat [0; 0]])).

End more_fixtures.

(** * Properties *)

Import np theano scripts.
Open Scope R_scope.

(** ** Integer helpers *)

(** Python's floor division is the floor of the real quotient. *)
Lemma Zfloor_quotient (a s : Z) :
  s <> 0%Z -> Zfloor (IZR a / IZR s) = (a / s)%Z.
Proof.
  intros Hs.
  apply Zfloor_eq.
  pose proof (Z.div_mod a s Hs) as Hdm.
  assert (Hs' : IZR s <> 0) by (intro H0; apply Hs; now apply eq_IZR).
  assert (Ha : IZR a = IZR s * IZR (a / s) + IZR (a mod s)).
  { rewrite <- mult_IZR, <- plus_IZR. now rewrite <- Hdm. }
  assert (Hq : IZR a / IZR s = IZR (a / s) + IZR (a mod s) / IZR s).
  { rewrite Ha. field. exact Hs'. }
  rewrite Hq.
  destruct (Z_lt_ge_dec 0 s) as [Hpos | Hneg].
  - pose proof (Z.mod_pos_bound a s Hpos) as [Hlo Hhi].
    apply IZR_le in Hlo. apply IZR_lt in Hhi. apply IZR_lt in Hpos.
    assert (0 <= IZR (a mod s) / IZR s < 1).
    { split.
      - apply Rmult_le_pos; [exact Hlo | left; now apply Rinv_0_lt_compat].
      - apply (Rmult_lt_reg_r (IZR s)); [exact Hpos |].
        unfold Rdiv. rewrite Rmult_assoc, Rinv_l by exact Hs'. lra. }
    lra.
  - assert (Hlt : (s < 0)%Z) by lia.
    pose proof (Z.mod_neg_bound a s Hlt) as [Hlo Hhi].
    apply IZR_lt in Hlo. apply IZR_le in Hhi. apply IZR_lt in Hlt.
    assert (Hinv : / IZR s < 0) by now apply Rinv_lt_0_compat.
    assert (0 <= IZR (a mod s) / IZR s < 1).
    { unfold Rdiv. split.
      - replace (IZR (a mod s) * / IZR s) with ((- IZR (a mod s)) * (- / IZR s)) by ring.
        apply Rmult_le_pos; lra.
      - assert (Hone : IZR s * / IZR s = 1) by (now apply Rinv_r).
        nra. }
    lra.
Qed.

Lemma feature_map_size_floor (image_size filter_size stride : Z) :
  stride <> 0%Z ->
  stated.feature_map_size image_size filter_size stride
  = (1 + (image_size - filter_size) / stride)%Z.
Proof.
  intros Hs. unfold stated.feature_map_size.
  rewrite <- minus_IZR.
  rewrite Rplus_comm.
  change 1 with (IZR 1).
  rewrite Zfloor_addz, Zfloor_quotient by exact Hs.
  lia.
Qed.

(** ** The convolutional layer *)

Section ConvolutionalLayer_facts.

Context {engine : TensorEngine}.
Variable input_images : TensorVariable.

(** What a constructor call that returns has gone through, and what the
    layer it returns holds. *)
Lemma ConvolutionalLayer_Ok (filter_shape image_shape : list Z) (stride : Z)
    (l : example3.ConvLayer) :
  example3.ConvolutionalLayer input_images filter_shape image_shape stride = Ok l ->
  exists maps image_height filter_height n_filters,
    Py.getitem image_shape 1 = Ok maps /\
    Py.getitem filter_shape 1 = Ok maps /\
    Py.getitem image_shape 2 = Ok image_height /\
    Py.getitem filter_shape 2 = Ok filter_height /\
    Py.getitem filter_shape 0 = Ok n_filters /\
    stride <> 0%Z /\
    example3.dimensions_ok filter_shape = true /\
    example3.conv2d_shapes filter_shape image_shape stride = Ok tt /\
    example3.fan_in l = example3.np_prod (tl filter_shape) /\
    example3.fan_out l
    = (n_filters * (1 + (image_height - filter_height) / stride)
                 * (1 + (image_height - filter_height) / stride))%Z /\
    example3.W_bound (example3.layer l)
    = sqrt (6 / IZR (example3.fan_in l + example3.fan_out l)) /\
    example3.W_draw (example3.layer l)
    = example3.mk_uniform (example3.W_bound (example3.layer l))
                          (- example3.W_bound (example3.layer l)) filter_shape /\
    example3.b_shape (example3.layer l) = [n_filters] /\
    example3.params (example3.layer l)
    = [shared_of_rank (W_of conv_layer) (length filter_shape);
       shared_of_rank (b_of conv_layer) 1].
Proof.
  unfold example3.ConvolutionalLayer, Py.getitem, int_div, assert,
    example3.uniform, example3.np_zeros.
  destruct (nth_error image_shape 1) as [maps |]; cbn [bind]; [| discriminate].
  destruct (nth_error filter_shape 1) as [maps' |]; cbn [bind]; [| discriminate].
  destruct (Z.eqb_spec maps maps') as [<- | _]; cbn [bind]; [| discriminate].
  destruct (nth_error image_shape 2) as [ih |]; cbn [bind]; [| discriminate].
  destruct (nth_error filter_shape 2) as [fh |]; cbn [bind]; [| discriminate].
  destruct (Z.eqb_spec stride 0) as [| Hs]; cbn [bind]; [discriminate |].
  destruct (nth_error filter_shape 0) as [n |]; cbn [bind]; [| discriminate].
  destruct (example3.dimensions_ok filter_shape) eqn:Hdims; cbn [bind];
    [| discriminate].
  destruct (example3.dimensions_ok [n]); cbn [bind]; [| discriminate].
  destruct (example3.conv2d_shapes filter_shape image_shape stride) as [[] | e];
    cbn [bind]; [| discriminate].
  intros Hl. injection Hl as <-.
  exists maps, ih, fh, n. cbn. repeat split. exact Hs.
Qed.

Lemma dimensions_ok_head (n : Z) (size : list Z) :
  example3.dimensions_ok (n :: size) = true -> example3.dimensions_ok [n] = true.
Proof.
  unfold example3.dimensions_ok. cbn [forallb].
  destruct (0 <=? n)%Z; [reflexivity | discriminate].
Qed.

(** The constructor returns a layer on shapes of four entries with the
    same number of feature maps, a stride other than 0, a filter shape
    without a negative entry, and a filter that the engine accepts. *)
Lemma ConvolutionalLayer_built (n_filters maps fh fw batch ih iw stride : Z) :
  stride <> 0%Z ->
  example3.dimensions_ok [n_filters; maps; fh; fw] = true ->
  example3.conv2d_shapes [n_filters; maps; fh; fw] [batch; maps; ih; iw] stride = Ok tt ->
  exists l,
    example3.ConvolutionalLayer input_images
      [n_filters; maps; fh; fw] [batch; maps; ih; iw] stride = Ok l.
Proof.
  intros Hs Hdims Hconv.
  unfold example3.ConvolutionalLayer. cbn [Py.getitem nth_error bind].
  rewrite Z.eqb_refl. cbn [assert bind].
  unfold int_div.
  destruct (Z.eqb_spec stride 0) as [H0 | _]; [contradiction |].
  cbn [bind tl]. unfold example3.uniform, example3.np_zeros.
  rewrite Hdims, (dimensions_ok_head _ _ Hdims). cbn [bind].
  rewrite Hconv. cbn [bind]. eexists. reflexivity.
Qed.

(** The layer of [main]. *)
Lemma ConvolutionalLayer_of_main :
  exists l,
    example3.ConvolutionalLayer input_images [16; 1; 8; 8]%Z [1; 1; 84; 84]%Z 4 = Ok l.
Proof. apply ConvolutionalLayer_built; [discriminate | reflexivity | reflexivity]. Qed.

Lemma ConvolutionalLayer_assertion (filter_shape image_shape : list Z) (stride : Z)
    (image_maps filter_maps : Z) :
  Py.getitem image_shape 1 = Ok image_maps ->
  Py.getitem filter_shape 1 = Ok filter_maps ->
  image_maps <> filter_maps ->
  example3.ConvolutionalLayer input_images filter_shape image_shape stride
  = Raise AssertionError.
Proof.
  intros Hi Hf Hne.
  unfold example3.ConvolutionalLayer. rewrite Hi, Hf. cbn [bind].
  destruct (Z.eqb_spec image_maps filter_maps) as [Heq | _]; [contradiction |].
  reflexivity.
Qed.

Lemma ConvolutionalLayer_no_assertion (filter_shape image_shape : list Z) (stride : Z)
    (image_maps : Z) :
  Py.getitem image_shape 1 = Ok image_maps ->
  Py.getitem filter_shape 1 = Ok image_maps ->
  example3.ConvolutionalLayer input_images filter_shape image_shape stride
  <> Raise AssertionError.
Proof.
  intros Hi Hf.
  unfold example3.ConvolutionalLayer. rewrite Hi, Hf. cbn [bind].
  rewrite Z.eqb_refl. cbn [assert bind].
  unfold Py.getitem, int_div, example3.uniform, example3.np_zeros,
    example3.conv2d_shapes.
  destruct (nth_error image_shape 2); cbn [bind]; [| discriminate].
  destruct (nth_error filter_shape 2); cbn [bind]; [| discriminate].
  destruct (Z.eqb_spec stride 0); cbn [bind]; [discriminate |].
  destruct (nth_error filter_shape 0) as [n_filters |]; cbn [bind]; [| discriminate].
  destruct (example3.dimensions_ok filter_shape); cbn [bind]; [| discriminate].
  destruct (example3.dimensions_ok [n_filters]); cbn [bind]; [| discriminate].
  destruct ((0 <? stride)%Z && negb (example3.filter_fits filter_shape image_shape))%bool;
    cbn [bind]; discriminate.
Qed.

End ConvolutionalLayer_facts.

(** C4.  Whenever the constructor returns a layer for a square image and
    square filters, the layer has
    [fan_out = filters * floor(1 + (image_size - filter_size)/stride)^2];
    it returns one for the image 84x84, the filter 8x8, stride 4 and 16
    filters, where the feature map size is 20 and [fan_out] is 6400. *)
Theorem ConvolutionalLayer_fan_out :
  forall (engine : TensorEngine) (input_images : TensorVariable)
         (filters maps batch image_size filter_size stride : Z)
         (l : example3.ConvLayer),
    example3.ConvolutionalLayer input_images
      [filters; maps; filter_size; filter_size]
      [batch; maps; image_size; image_size] stride = Ok l ->
    example3.fan_out l = stated.fan_out filters image_size filter_size stride /\
    (exists l84,
       example3.ConvolutionalLayer input_images
         [16; 1; 8; 8]%Z [1; 1; 84; 84]%Z 4 = Ok l84 /\
       stated.feature_map_size 84 8 4 = 20%Z /\
       example3.fan_out l84 = 6400%Z).
Proof.
  intros engine input_images filters maps batch image_size filter_size stride l Hl.
  split.
  - destruct (ConvolutionalLayer_Ok _ _ _ _ Hl)
      as (m & ih & fh & n & _ & _ & Hih & Hfh & Hn & Hs & _ & _ & _ & Hout & _).
    cbn in Hih, Hfh, Hn. injection Hih as <-. injection Hfh as <-. injection Hn as <-.
    rewrite Hout. unfold stated.fan_out.
    rewrite feature_map_size_floor by exact Hs. ring.
  - assert (H4 : 4%Z <> 0%Z) by discriminate.
    destruct (ConvolutionalLayer_of_main input_images) as (l84 & Hl84).
    exists l84. split; [exact Hl84 |]. split.
    + rewrite feature_map_size_floor by exact H4. reflexivity.
    + destruct (ConvolutionalLayer_Ok _ _ _ _ Hl84)
        as (m & ih & fh & n & _ & _ & Hih & Hfh & Hn & _ & _ & _ & _ & Hout & _).
      cbn in Hih, Hfh, Hn. injection Hih as <-. injection Hfh as <-. injection Hn as <-.
      rewrite Hout. reflexivity.
Qed.

Lemma ConvolutionalLayer_fan_out_witness :
  exists l,
    @example3.ConvolutionalLayer fixtures.unit_gradient_engine x
      [32; 4; 4; 4]%Z [1; 4; 20; 20]%Z 2 = Ok l /\
    example3.fan_out l = stated.fan_out 32 20 4 2.
Proof.
  eexists. split; [reflexivity |].
  exact (proj1 (@ConvolutionalLayer_fan_out fixtures.unit_gradient_engine x
                  32 4 1 20 4 2 _ eq_refl)).
Defined.

(** C8.  When the image shape and the filter shape carry different numbers
    of feature maps the constructor fails on its assertion; when they carry
    the same number it does not. *)
Theorem ConvolutionalLayer_channel_check :
  forall (engine : TensorEngine) (input_images : TensorVariable)
         (filter_shape image_shape : list Z) (stride : Z)
         (image_maps filter_maps : Z),
    Py.getitem image_shape 1 = Ok image_maps ->
    Py.getitem filter_shape 1 = Ok filter_maps ->
    (image_maps <> filter_maps ->
     example3.ConvolutionalLayer input_images filter_shape image_shape stride
     = Raise AssertionError) /\
    (image_maps = filter_maps ->
     example3.ConvolutionalLayer input_images filter_shape image_shape stride
     <> Raise AssertionError).
Proof.
  intros engine input_images filter_shape image_shape stride image_maps filter_maps Hi Hf.
  split.
  - intros Hne. now apply ConvolutionalLayer_assertion with image_maps filter_maps.
  - intros Heq. subst filter_maps.
    now apply ConvolutionalLayer_no_assertion with image_maps.
Qed.

Lemma ConvolutionalLayer_channel_check_witness :
  @example3.ConvolutionalLayer fixtures.unit_gradient_engine x
    [16; 3; 8; 8]%Z [1; 1; 84; 84]%Z 4 = Raise AssertionError /\
  @example3.ConvolutionalLayer fixtures.unit_gradient_engine x
    [16; 1; 8; 8]%Z [1; 1; 84; 84]%Z 4 <> Raise AssertionError.
Proof.
  split.
  - apply (proj1 (@ConvolutionalLayer_channel_check fixtures.unit_gradient_engine x
                    [16; 3; 8; 8]%Z [1; 1; 84; 84]%Z 4%Z 1%Z 3%Z eq_refl eq_refl)).
    discriminate.
  - apply (proj2 (@ConvolutionalLayer_channel_check fixtures.unit_gradient_engine x
                    [16; 1; 8; 8]%Z [1; 1; 84; 84]%Z 4%Z 1%Z 1%Z eq_refl eq_refl)).
    reflexivity.
Defined.

(** ** Random initialisation *)

Lemma dimensions_ok_spec (size : list Z) :
  example3.dimensions_ok size = true <-> Forall (fun n => (0 <= n)%Z) size.
Proof.
  unfold example3.dimensions_ok. rewrite forallb_forall, Forall_forall.
  split; intros H n Hn; specialize (H n Hn); lia.
Qed.

(** The two dense layers, once the division and the draw have gone
    through. *)
Lemma HiddenLayer_built (self : layer_id) (input : TensorVariable) (n_in n_nodes : Z) :
  (0 <= n_in)%Z -> (0 <= n_nodes)%Z -> (n_in + n_nodes <> 0)%Z ->
  example3.HiddenLayer self input n_in n_nodes
  = Ok (example3.mk_random_layer
          (sqrt (6 / IZR (n_in + n_nodes)))
          (example3.mk_uniform (sqrt (6 / IZR (n_in + n_nodes)))
                               (- sqrt (6 / IZR (n_in + n_nodes))) [n_in; n_nodes])
          (shared_of_rank (W_of self) 2) (shared_of_rank (b_of self) 1) [n_nodes]
          (T_add (T_dot input (variable (shared_of_rank (W_of self) 2)))
                 (variable (shared_of_rank (b_of self) 1)))
          [shared_of_rank (W_of self) 2; shared_of_rank (b_of self) 1]).
Proof.
  intros Hin Hnodes Hsum.
  unfold example3.HiddenLayer, example3.float_div_int, example3.uniform, example3.np_zeros.
  destruct (Z.eqb_spec (n_in + n_nodes) 0) as [H0 | _]; [contradiction |].
  cbn [bind].
  rewrite (proj2 (dimensions_ok_spec [n_in; n_nodes])) by (repeat constructor; assumption).
  cbn [bind].
  rewrite (proj2 (dimensions_ok_spec [n_nodes])) by (repeat constructor; assumption).
  reflexivity.
Qed.

Lemma OutputLayer_built (self : layer_id) (input : TensorVariable) (n_in n_nodes : Z) :
  (0 <= n_in)%Z -> (0 <= n_nodes)%Z -> (n_in + n_nodes <> 0)%Z ->
  example3.OutputLayer self input n_in n_nodes
  = Ok (example3.mk_random_layer
          (- sqrt (6 / IZR (n_in + n_nodes)))
          (example3.mk_uniform (- sqrt (6 / IZR (n_in + n_nodes)))
                               (- - sqrt (6 / IZR (n_in + n_nodes))) [n_in; n_nodes])
          (shared_of_rank (W_of self) 2) (shared_of_rank (b_of self) 1) [n_nodes]
          (rectifier example3.threshold
             (T_add (T_dot input (variable (shared_of_rank (W_of self) 2)))
                    (variable (shared_of_rank (b_of self) 1))))
          [shared_of_rank (W_of self) 2; shared_of_rank (b_of self) 1]).
Proof.
  intros Hin Hnodes Hsum.
  unfold example3.OutputLayer, example3.float_div_int, example3.uniform, example3.np_zeros.
  destruct (Z.eqb_spec (n_in + n_nodes) 0) as [H0 | _]; [contradiction |].
  cbn [bind].
  rewrite (proj2 (dimensions_ok_spec [n_in; n_nodes])) by (repeat constructor; assumption).
  cbn [bind].
  rewrite (proj2 (dimensions_ok_spec [n_nodes])) by (repeat constructor; assumption).
  reflexivity.
Qed.

(** A dense layer that is returned was given sizes that are not negative
    and not both 0, and is the layer above. *)
Lemma HiddenLayer_Ok (self : layer_id) (input : TensorVariable) (n_in n_nodes : Z)
    (l : example3.RandomLayer) :
  example3.HiddenLayer self input n_in n_nodes = Ok l ->
  (0 <= n_in)%Z /\ (0 <= n_nodes)%Z /\ (n_in + n_nodes <> 0)%Z /\
  example3.HiddenLayer self input n_in n_nodes
  = Ok (example3.mk_random_layer
          (sqrt (6 / IZR (n_in + n_nodes)))
          (example3.mk_uniform (sqrt (6 / IZR (n_in + n_nodes)))
                               (- sqrt (6 / IZR (n_in + n_nodes))) [n_in; n_nodes])
          (shared_of_rank (W_of self) 2) (shared_of_rank (b_of self) 1) [n_nodes]
          (T_add (T_dot input (variable (shared_of_rank (W_of self) 2)))
                 (variable (shared_of_rank (b_of self) 1)))
          [shared_of_rank (W_of self) 2; shared_of_rank (b_of self) 1]).
Proof.
  intros Hl.
  assert (H : (0 <= n_in)%Z /\ (0 <= n_nodes)%Z /\ (n_in + n_nodes <> 0)%Z).
  { revert Hl.
    unfold example3.HiddenLayer, example3.float_div_int, example3.uniform.
    destruct (Z.eqb_spec (n_in + n_nodes) 0) as [H0 | Hsum]; cbn [bind]; [discriminate |].
    destruct (example3.dimensions_ok [n_in; n_nodes]) eqn:Hd; cbn [bind]; [| discriminate].
    intros _. apply dimensions_ok_spec in Hd.
    inversion Hd as [| ? ? Hin Hd']. inversion Hd' as [| ? ? Hnodes _]. now repeat split. }
  destruct H as (Hin & Hnodes & Hsum).
  repeat (split; [assumption |]). now apply HiddenLayer_built.
Qed.

Lemma OutputLayer_Ok (self : layer_id) (input : TensorVariable) (n_in n_nodes : Z)
    (l : example3.RandomLayer) :
  example3.OutputLayer self input n_in n_nodes = Ok l ->
  (0 <= n_in)%Z /\ (0 <= n_nodes)%Z /\ (n_in + n_nodes <> 0)%Z /\
  example3.OutputLayer self input n_in n_nodes
  = Ok (example3.mk_random_layer
          (- sqrt (6 / IZR (n_in + n_nodes)))
          (example3.mk_uniform (- sqrt (6 / IZR (n_in + n_nodes)))
                               (- - sqrt (6 / IZR (n_in + n_nodes))) [n_in; n_nodes])
          (shared_of_rank (W_of self) 2) (shared_of_rank (b_of self) 1) [n_nodes]
          (rectifier example3.threshold
             (T_add (T_dot input (variable (shared_of_rank (W_of self) 2)))
                    (variable (shared_of_rank (b_of self) 1))))
          [shared_of_rank (W_of self) 2; shared_of_rank (b_of self) 1]).
Proof.
  intros Hl.
  assert (H : (0 <= n_in)%Z /\ (0 <= n_nodes)%Z /\ (n_in + n_nodes <> 0)%Z).
  { revert Hl.
    unfold example3.OutputLayer, example3.float_div_int, example3.uniform.
    destruct (Z.eqb_spec (n_in + n_nodes) 0) as [H0 | Hsum]; cbn [bind]; [discriminate |].
    destruct (example3.dimensions_ok [n_in; n_nodes]) eqn:Hd; cbn [bind]; [| discriminate].
    intros _. apply dimensions_ok_spec in Hd.
    inversion Hd as [| ? ? Hin Hd']. inversion Hd' as [| ? ? Hnodes _]. now repeat split. }
  destruct H as (Hin & Hnodes & Hsum).
  repeat (split; [assumption |]). now apply OutputLayer_built.
Qed.

(** [HiddenLayer] of example3.py passes [low = -bound] and [high = bound],
    with [bound = sqrt(6/(n_in+n_nodes))] positive. *)
Lemma HiddenLayer_draw (self : layer_id) (input : TensorVariable) (n_in n_nodes : Z) :
  (0 <= n_in)%Z -> (0 <= n_nodes)%Z -> (0 < n_in + n_nodes)%Z ->
  exists l,
    example3.HiddenLayer self input n_in n_nodes = Ok l /\
    example3.W_bound l = sqrt (6 / IZR (n_in + n_nodes)) /\
    0 < example3.W_bound l /\
    example3.low (example3.W_draw l) = - example3.W_bound l /\
    example3.high (example3.W_draw l) = example3.W_bound l.
Proof.
  intros Hin Hnodes Hpos.
  eexists. split; [apply HiddenLayer_built; lia |]. cbn.
  repeat split.
  apply sqrt_lt_R0. apply Rdiv_lt_0_compat; [lra |]. now apply IZR_lt.
Qed.

(** So does [ConvolutionalLayer], with the bound of its own sizes. *)
Lemma ConvolutionalLayer_draw (engine : TensorEngine) (input_images : TensorVariable)
    (filter_shape image_shape : list Z) (stride : Z) (l : example3.ConvLayer) :
  example3.ConvolutionalLayer input_images filter_shape image_shape stride = Ok l ->
  example3.W_bound (example3.layer l)
  = sqrt (6 / IZR (example3.fan_in l + example3.fan_out l)) /\
  example3.low (example3.W_draw (example3.layer l))
  = - example3.W_bound (example3.layer l) /\
  example3.high (example3.W_draw (example3.layer l))
  = example3.W_bound (example3.layer l) /\
  example3.size (example3.W_draw (example3.layer l)) = filter_shape.
Proof.
  intros Hl.
  destruct (ConvolutionalLayer_Ok _ _ _ _ Hl)
    as (m & ih & fh & n & _ & _ & _ & _ & _ & _ & _ & _ & _ & _ & Hb & Hdraw & _).
  rewrite Hdraw. cbn. repeat split. exact Hb.
Qed.

(** C3, at the output layer of example3.py ([n_in = 40], [n_nodes = 1]):
    [W_bound] is the negated square root, so the sampler receives
    [low = +sqrt(6/41)] and [high = -sqrt(6/41)], the interval inverted. *)
Theorem OutputLayer_draw_inverted :
  forall (self : layer_id) (input : TensorVariable),
  exists l,
    example3.OutputLayer self input 40 1 = Ok l /\
    example3.W_bound l = - sqrt (6 / 41) /\
    example3.W_bound l < 0 /\
    example3.low (example3.W_draw l) = sqrt (6 / 41) /\
    example3.high (example3.W_draw l) = - sqrt (6 / 41) /\
    example3.high (example3.W_draw l) < example3.low (example3.W_draw l).
Proof.
  intros self input.
  assert (Hpos : 0 < sqrt (6 / 41)) by (apply sqrt_lt_R0; lra).
  eexists. split; [apply OutputLayer_built; lia |].
  cbn [example3.W_bound example3.W_draw example3.low example3.high
       Z.add Pos.add Pos.succ].
  repeat split; try lra.
Qed.

(** ** NeuralNet.train *)

Section train_facts.

Import NeuralNet_py.

Context {device : Type} {lib : LibModel device}.
Variable self : NeuralNet device.

(** The assertions pass exactly when the three equalities hold. *)
Lemma train_asserts_pass (inputs outputs : ndarray) :
  train_asserts self inputs outputs = Ok tt <->
  exists n k m rest_in rest_out,
    shape inputs = n :: m :: rest_in /\
    shape outputs = k :: m :: rest_out /\
    Z.of_nat n = nr_inputs self /\
    Z.of_nat k = nr_outputs self.
Proof.
  unfold train_asserts, Py.getitem, assert. split.
  - destruct (shape inputs) as [| n [| m rest_in]]; cbn [nth_error bind];
      try discriminate;
      (destruct (Z.eqb_spec (Z.of_nat n) (nr_inputs self)) as [Hn | Hn];
       cbn [bind]; [| discriminate]);
      (destruct (shape outputs) as [| k [| m' rest_out]]; cbn [nth_error bind];
       try discriminate);
      (destruct (Z.eqb_spec (Z.of_nat k) (nr_outputs self)) as [Hk | Hk];
       cbn [bind]; [| discriminate]);
      try discriminate.
    destruct (Nat.eqb_spec m m') as [Hm | Hm]; [| discriminate].
    intros _. subst m'. now exists n, k, m, rest_in, rest_out.
  - intros (n & k & m & rest_in & rest_out & Hin & Hout & Hn & Hk).
    rewrite Hin, Hout. cbn [nth_error bind].
    rewrite Hn, Hk, !Z.eqb_refl. cbn [bind]. now rewrite Nat.eqb_refl.
Qed.

(** On two-dimensional arguments a failed assertion is the only failure. *)
Lemma train_asserts_fail (inputs outputs : ndarray) (n m k m' : nat)
    (rest_in rest_out : list nat) :
  shape inputs = n :: m :: rest_in ->
  shape outputs = k :: m' :: rest_out ->
  Z.of_nat n <> nr_inputs self \/ Z.of_nat k <> nr_outputs self \/ m <> m' ->
  train_asserts self inputs outputs = Raise AssertionError.
Proof.
  intros Hin Hout Hbad.
  unfold train_asserts, Py.getitem, assert. rewrite Hin, Hout. cbn [nth_error bind].
  destruct (Z.eqb_spec (Z.of_nat n) (nr_inputs self)) as [Hn | Hn]; cbn [bind];
    [| reflexivity].
  destruct (Z.eqb_spec (Z.of_nat k) (nr_outputs self)) as [Hk | Hk]; cbn [bind];
    [| reflexivity].
  destruct (Nat.eqb_spec m m') as [Hm | Hm]; [| reflexivity].
  destruct Hbad as [H | [H | H]]; contradiction.
Qed.

(** A failure of the assertions is a failed assertion or a missing entry of
    a shape. *)
Lemma train_asserts_errors (inputs outputs : ndarray) (e : exn) :
  train_asserts self inputs outputs = Raise e ->
  e = AssertionError \/ e = IndexError.
Proof.
  unfold train_asserts, Py.getitem, assert.
  destruct (nth_error (shape inputs) 0); cbn [bind];
    [| intros H; injection H as <-; now right].
  destruct (Z.of_nat n =? nr_inputs self)%Z; cbn [bind];
    [| intros H; injection H as <-; now left].
  destruct (nth_error (shape outputs) 0); cbn [bind];
    [| intros H; injection H as <-; now right].
  destruct (Z.of_nat n0 =? nr_outputs self)%Z; cbn [bind];
    [| intros H; injection H as <-; now left].
  destruct (nth_error (shape inputs) 1); cbn [bind];
    [| intros H; injection H as <-; now right].
  destruct (nth_error (shape outputs) 1); cbn [bind];
    [| intros H; injection H as <-; now right].
  destruct (n1 =? n2)%nat; [discriminate | intros H; injection H as <-; now left].
Qed.

(** Without a dispatch the model is the one before the call. *)
Lemma train_raises_unchanged (inputs outputs : ndarray) (e : exn) :
  train_asserts self inputs outputs = Raise e ->
  train self inputs outputs = (Raise e, self).
Proof. intros H. unfold train. now rewrite H. Qed.

Lemma train_dispatches (inputs outputs : ndarray) :
  train_asserts self inputs outputs = Ok tt ->
  fst (train self inputs outputs)
  = Ok (fst (finishBatch_on (startBatch_on [inputs; outputs] 1%Z false (libmodel self)))) /\
  calls (snd (train self inputs outputs))
  = finishBatch :: startBatch [inputs; outputs] 1%Z false :: calls self.
Proof. intros H. unfold train. rewrite H. split; reflexivity. Qed.

End train_facts.

(** C10, as the code has it.  Whatever its arguments, [train] reaches
    [startBatch] only if [inputs.shape[0] = nr_inputs],
    [outputs.shape[0] = nr_outputs] and [inputs.shape[1] = outputs.shape[1]]:
    when the three hold it makes exactly the calls [startBatch] and
    [finishBatch]; when they do not it fails, makes no call and leaves the
    model as it was, with [AssertionError] on arguments of two dimensions
    or more, and with [AssertionError] or [IndexError] on the others. *)
Theorem train_guarded :
  forall (device : Type) (lib : NeuralNet_py.LibModel device)
         (self : NeuralNet_py.NeuralNet device) (inputs outputs : ndarray),
    (NeuralNet_py.calls (snd (NeuralNet_py.train self inputs outputs))
     <> NeuralNet_py.calls self ->
     stated.train_preconditions self inputs outputs) /\
    (stated.train_preconditions self inputs outputs ->
     fst (NeuralNet_py.train self inputs outputs)
     = Ok (fst (NeuralNet_py.finishBatch_on
                  (NeuralNet_py.startBatch_on [inputs; outputs] 1%Z false
                     (NeuralNet_py.libmodel self)))) /\
     NeuralNet_py.calls (snd (NeuralNet_py.train self inputs outputs))
     = NeuralNet_py.finishBatch
         :: NeuralNet_py.startBatch [inputs; outputs] 1%Z false
         :: NeuralNet_py.calls self) /\
    (~ stated.train_preconditions self inputs outputs ->
     exists err,
       NeuralNet_py.train self inputs outputs = (Raise err, self) /\
       (err = AssertionError \/ err = IndexError) /\
       ((2 <= ndim inputs)%nat -> (2 <= ndim outputs)%nat -> err = AssertionError)).
Proof.
  intros device lib self inputs outputs.
  assert (Hfail : ~ stated.train_preconditions self inputs outputs ->
            exists err,
              NeuralNet_py.train self inputs outputs = (Raise err, self) /\
              (err = AssertionError \/ err = IndexError) /\
              ((2 <= ndim inputs)%nat -> (2 <= ndim outputs)%nat ->
               err = AssertionError)).
  { intros Hnot.
    destruct (NeuralNet_py.train_asserts self inputs outputs) as [[] | err] eqn:Ha.
    - exfalso. apply Hnot. now apply train_asserts_pass.
    - exists err. split; [now apply train_raises_unchanged |].
      split; [now apply (train_asserts_errors _ _ _ Ha) |].
      unfold ndim. intros Hin Hout.
      destruct (shape inputs) as [| n [| m rest_in]] eqn:Ein; cbn in Hin; try lia.
      destruct (shape outputs) as [| k [| m' rest_out]] eqn:Eout; cbn in Hout; try lia.
      assert (Hbad : Z.of_nat n <> NeuralNet_py.nr_inputs self \/
                     Z.of_nat k <> NeuralNet_py.nr_outputs self \/ m <> m').
      { destruct (Z.eq_dec (Z.of_nat n) (NeuralNet_py.nr_inputs self)) as [Hn | Hn];
          [| now left].
        destruct (Z.eq_dec (Z.of_nat k) (NeuralNet_py.nr_outputs self)) as [Hk | Hk];
          [| now right; left].
        destruct (Nat.eq_dec m m') as [Hm | Hm]; [| now right; right].
        exfalso. apply Hnot. subst m'.
        now exists n, k, m, rest_in, rest_out. }
      pose proof (train_asserts_fail self inputs outputs Ein Eout Hbad) as Ha'.
      congruence. }
  split; [| split; [| exact Hfail]].
  - intros Hcalled.
    destruct (NeuralNet_py.train_asserts self inputs outputs) as [[] | err] eqn:Ha.
    + now apply train_asserts_pass.
    + exfalso. apply Hcalled.
      now rewrite (train_raises_unchanged self inputs outputs Ha).
  - intros Hok. apply train_dispatches. now apply train_asserts_pass.
Qed.

Lemma train_guarded_witness :
  let inputs := mk_ndarray [2; 3]%nat [1; 2; 3; 4; 5; 6] in
  let good := mk_ndarray [1; 3]%nat [1; 0; 1] in
  NeuralNet_py.calls (snd (@NeuralNet_py.train nat fixtures.counting_library
                             fixtures.small_net inputs good))
  = [NeuralNet_py.finishBatch; NeuralNet_py.startBatch [inputs; good] 1%Z false].
Proof.
  intros inputs good.
  apply (@train_guarded nat fixtures.counting_library fixtures.small_net inputs good).
  exists 2%nat, 1%nat, 3%nat, [], []. repeat split.
Defined.

(** C10, as stated, fails: on a one-dimensional [inputs] with the right
    number of rows the third precondition cannot hold, and the call fails
    with [IndexError], not with [AssertionError]. *)
Lemma train_raises_IndexError :
  let inputs := mk_ndarray [2]%nat [1; 2] in
  let outputs := mk_ndarray [1; 3]%nat [1; 0; 1] in
  ~ stated.train_preconditions fixtures.small_net inputs outputs /\
  @NeuralNet_py.train nat fixtures.counting_library fixtures.small_net inputs outputs
  = (Raise IndexError, fixtures.small_net) /\
  @NeuralNet_py.train nat fixtures.counting_library fixtures.small_net inputs outputs
  <> (Raise AssertionError, fixtures.small_net).
Proof.
  cbn zeta. split; [| split; [reflexivity | discriminate]].
  intros (n & k & m & rest_in & rest_out & Hin & _). discriminate Hin.
Qed.

(** ** Batch selection *)

Lemma getitem_in_range (a : ndarray) (n : nat) (rest : list nat) (i : Z) :
  shape a = n :: rest ->
  (0 <= i < Z.of_nat n)%Z ->
  getitem a i
  = Ok (mk_ndarray rest
          (firstn (prod rest) (skipn (Z.to_nat i * prod rest) (data a)))).
Proof.
  intros Hs Hi. unfold getitem. rewrite Hs.
  destruct (Z.leb_spec (- Z.of_nat n) i); [| lia].
  destruct (Z.ltb_spec i (Z.of_nat n)); [| lia].
  destruct (Z.ltb_spec i 0); [lia |].
  reflexivity.
Qed.

Lemma getitem_from_the_end (a : ndarray) (n : nat) (rest : list nat) (i : Z) :
  shape a = n :: rest ->
  (- Z.of_nat n <= i < 0)%Z ->
  getitem a i = getitem a (i + Z.of_nat n).
Proof.
  intros Hs Hi. rewrite (@getitem_in_range a n rest (i + Z.of_nat n)) by (auto; lia).
  unfold getitem. rewrite Hs.
  destruct (Z.leb_spec (- Z.of_nat n) i); [| lia].
  destruct (Z.ltb_spec i (Z.of_nat n)); [| lia].
  destruct (Z.ltb_spec i 0); [| lia].
  reflexivity.
Qed.

Lemma getitem_IndexError (a : ndarray) (n : nat) (rest : list nat) (i : Z) :
  shape a = n :: rest ->
  (getitem a i = Raise IndexError <-> (i < - Z.of_nat n \/ Z.of_nat n <= i)%Z).
Proof.
  intros Hs. unfold getitem. rewrite Hs.
  destruct (Z.leb_spec (- Z.of_nat n) i); destruct (Z.ltb_spec i (Z.of_nat n));
    cbn [andb]; split; intros H1; try reflexivity; try discriminate; lia.
Qed.

Lemma get_data_dims_outside (d : list Z) (idx : Z) :
  (idx < 0 \/ Z.of_nat (length d) <= idx)%Z ->
  NeuralNet_py.get_data_dims (Some d) idx = Raise AssertionError.
Proof.
  intros Hout. unfold NeuralNet_py.get_data_dims, assert.
  destruct (Z.leb_spec 0 idx); destruct (Z.ltb_spec idx (Z.of_nat (length d)));
    cbn [andb bind]; try reflexivity; lia.
Qed.

Lemma get_data_dims_inside (d : list Z) (idx : Z) :
  (0 <= idx < Z.of_nat (length d))%Z ->
  exists v, NeuralNet_py.get_data_dims (Some d) idx = Ok v /\
            nth_error d (Z.to_nat idx) = Some v.
Proof.
  intros Hin. unfold NeuralNet_py.get_data_dims, assert, Py.getitem.
  destruct (Z.leb_spec 0 idx); [| lia].
  destruct (Z.ltb_spec idx (Z.of_nat (length d))); [| lia].
  cbn [andb bind].
  destruct (nth_error d (Z.to_nat idx)) as [v |] eqn:Hnth.
  - now exists v.
  - apply nth_error_None in Hnth. lia.
Qed.

Lemma shared_dataset_x (data_xy : ndarray * ndarray) (st : store) :
  shared_dataset data_xy st train_set_x = fst data_xy.
Proof. reflexivity. Qed.

Lemma shared_dataset_y (data_xy : ndarray * ndarray) (st : store) :
  shared_dataset data_xy st train_set_y = snd data_xy.
Proof. reflexivity. Qed.

(** C9, as the code has it.  The scripts wrap their arrays with
    [shared_dataset] and select a batch with [train_set_x[index]] and
    [train_set_y[index]]: over data sets of [n] batches the selection
    raises [IndexError] exactly for an index outside [-n, n), returns the
    pair of batch [i] for [0 <= i < n], and for [-n <= i < 0] returns the
    pair of batch [n + i].  [SimpleDataProvider.get_data_dims] fails on its
    assertion for an index outside [0, len(dims)) and returns [dims[idx]]
    inside. *)
Theorem batch_lookup_bounds :
  forall (st : store) (data_x data_y : ndarray) (n : nat)
         (rest_x rest_y : list nat) (i : Z) (dims : list Z),
    shape data_x = n :: rest_x ->
    shape data_y = n :: rest_y ->
    let st' := shared_dataset (data_x, data_y) st in
    (givens st' i = Raise IndexError <-> (i < - Z.of_nat n \/ Z.of_nat n <= i)%Z) /\
    ((0 <= i < Z.of_nat n)%Z ->
     exists bx by_,
       givens st' i = Ok (bx, by_) /\
       getitem data_x i = Ok bx /\ shape bx = rest_x /\
       getitem data_y i = Ok by_ /\ shape by_ = rest_y) /\
    ((- Z.of_nat n <= i < 0)%Z -> givens st' i = givens st' (i + Z.of_nat n)) /\
    ((i < 0 \/ Z.of_nat (length dims) <= i)%Z ->
     NeuralNet_py.get_data_dims (Some dims) i = Raise AssertionError) /\
    ((0 <= i < Z.of_nat (length dims))%Z ->
     exists v, NeuralNet_py.get_data_dims (Some dims) i = Ok v /\
               nth_error dims (Z.to_nat i) = Some v).
Proof.
  intros st data_x data_y n rest_x rest_y i dims Hx Hy st'.
  unfold givens. subst st'. rewrite !shared_dataset_x, !shared_dataset_y.
  cbn [fst snd].
  split; [| split; [| split; [| split]]].
  - split.
    + intros Hraise.
      destruct (getitem data_x i) as [bx | e] eqn:Hbx; cbn [bind] in Hraise.
      * destruct (getitem data_y i) as [by_ | e] eqn:Hby;
          cbn [bind] in Hraise; [discriminate |].
        injection Hraise as ->. now apply (getitem_IndexError _ i Hy).
      * injection Hraise as ->. now apply (getitem_IndexError _ i Hx).
    + intros Hout. apply (getitem_IndexError _ i Hx) in Hout.
      now rewrite Hout.
  - intros Hin.
    rewrite (getitem_in_range _ Hx Hin), (getitem_in_range _ Hy Hin). cbn [bind].
    eexists. eexists. repeat split.
  - intros Hneg.
    now rewrite (getitem_from_the_end _ Hx Hneg), (getitem_from_the_end _ Hy Hneg).
  - apply get_data_dims_outside.
  - apply get_data_dims_inside.
Qed.

Lemma batch_lookup_bounds_witness :
  let st := shared_dataset example2.train_set example2.initial_store in
  (exists bx by_, givens st 1 = Ok (bx, by_)) /\
  givens st 2 = Raise IndexError /\
  NeuralNet_py.get_data_dims (Some [2; 1]%Z) 2 = Raise AssertionError.
Proof.
  intros st.
  pose proof (@batch_lookup_bounds example2.initial_store
                (fst example2.train_set) (snd example2.train_set)
                2%nat [4; 2]%nat [4; 1]%nat
                1%Z [2; 1]%Z eq_refl eq_refl) as (_ & Hin & _).
  pose proof (@batch_lookup_bounds example2.initial_store
                (fst example2.train_set) (snd example2.train_set)
                2%nat [4; 2]%nat [4; 1]%nat
                2%Z [2; 1]%Z eq_refl eq_refl) as (Hout & _ & _ & Hdims & _).
  split; [| split].
  - destruct Hin as (bx & by_ & H & _); [cbn; lia |]. now exists bx, by_.
  - apply Hout. right. cbn. lia.
  - apply Hdims. right. cbn. lia.
Defined.

(** C9, as stated, fails: on the two batches of example2.py the index -1
    lies outside [0, 2) and yet selects the last batch. *)
Lemma batch_lookup_negative_index :
  let st := shared_dataset example2.train_set example2.initial_store in
  ~ (0 <= -1 < 2)%Z /\
  givens st (-1)
  = Ok (mk_ndarray [4; 2]%nat [0; 0; 0; 1; 1; 1; 1; 0],
        mk_ndarray [4; 1]%nat [0; 0; 1; 0]) /\
  givens st (-1) <> Raise IndexError.
Proof.
  intros st. split; [lia |].
  assert (H : givens st (-1)
              = Ok (mk_ndarray [4; 2]%nat [0; 0; 0; 1; 1; 1; 1; 0],
                    mk_ndarray [4; 1]%nat [0; 0; 1; 0])) by reflexivity.
  split; [exact H |]. rewrite H. discriminate.
Qed.

(** ** Element-wise operations *)

Lemma elemwise_scalar_r (f : R -> R -> R) (a : ndarray) (t : R) :
  elemwise f a (scalar t)
  = Ok (mk_ndarray (shape a) (map (fun v => f v t) (data a))).
Proof. unfold elemwise. destruct (shape a); reflexivity. Qed.

Lemma shape_eqb_refl (s : list nat) : shape_eqb s s = true.
Proof. unfold shape_eqb. destruct (list_eq_dec Nat.eq_dec s s); congruence. Qed.

Lemma zip_with_map (f : R -> R -> R) (g h : R -> R) (l : list R) :
  zip_with f (map g l) (map h l) = map (fun v => f (g v) (h v)) l.
Proof. induction l as [| v l IH]; cbn; [reflexivity | now rewrite IH]. Qed.

Lemma zip_with_length (f : R -> R -> R) (l1 l2 : list R) :
  length l1 = length l2 -> length (zip_with f l1 l2) = length l1.
Proof.
  revert l2. induction l1 as [| a l1 IH]; intros [| b l2] Hlen; cbn in *;
    try discriminate; [reflexivity |].
  now rewrite IH by congruence.
Qed.

(** Equal shapes of well-formed arrays combine entry by entry. *)
Lemma elemwise_same_shape (f : R -> R -> R) (a b : ndarray) :
  shape a = shape b -> well_formed a -> well_formed b ->
  elemwise f a b = Ok (mk_ndarray (shape a) (zip_with f (data a) (data b))).
Proof.
  intros Hs Ha Hb. unfold elemwise, well_formed in *. rewrite <- Hs in *.
  destruct (shape a) as [| n s] eqn:Hsa.
  - cbn in Ha, Hb.
    destruct (data a) as [| va [| ? ?]]; try discriminate.
    destruct (data b) as [| vb [| ? ?]] eqn:Hdb; try discriminate.
    unfold item. rewrite Hdb. reflexivity.
  - now rewrite shape_eqb_refl.
Qed.

(** The rectifier, entry by entry. *)
Lemma rectifier_entry (threshold v : R) :
  gt v threshold * (v - threshold) = Rmax (v - threshold) 0.
Proof.
  unfold gt, Rmax.
  destruct (Rlt_dec threshold v); destruct (Rle_dec (v - threshold) 0); lra.
Qed.

Lemma rectifier_eval (threshold : R) (lin_output : TensorVariable) (e : env) (a : ndarray) :
  eval lin_output e = Ok a ->
  well_formed a ->
  eval (rectifier threshold lin_output) e = Ok (stated.thresholded threshold a).
Proof.
  intros Ha Hwf. unfold rectifier, T_mul, T_gt, T_sub, lift2, constant.
  cbn [eval]. rewrite Ha. cbn [bind].
  rewrite !elemwise_scalar_r. cbn [bind].
  rewrite elemwise_same_shape; cbn [shape data].
  - unfold stated.thresholded. f_equal. f_equal.
    rewrite zip_with_map. apply map_ext. intros v. apply rectifier_entry.
  - reflexivity.
  - unfold well_formed in *. cbn [shape data]. now rewrite length_map.
  - unfold well_formed in *. cbn [shape data]. now rewrite length_map.
Qed.

Lemma thresholded_nonnegative (threshold : R) (a : ndarray) :
  Forall (fun v => 0 <= v) (data (stated.thresholded threshold a)).
Proof.
  unfold stated.thresholded. cbn [data].
  apply Forall_forall. intros v Hv. apply in_map_iff in Hv as (u & <- & _).
  apply Rmax_r.
Qed.

(** C7.  Whatever the threshold and the affine output, the rectified
    output is [max(affine_output - threshold, 0)] in every entry; no entry
    is below 0, and with threshold 0 the output is the positive part of the
    affine output.  The output layers of the two scripts are this rectifier
    at thresholds 1 and 0, applied to the affine output that a hidden layer
    with the same arguments computes. *)
Theorem rectifier_is_thresholded_maximum :
  forall (threshold : R) (lin_output : TensorVariable) (e : env) (a : ndarray),
    eval lin_output e = Ok a ->
    well_formed a ->
    eval (rectifier threshold lin_output) e = Ok (stated.thresholded threshold a) /\
    Forall (fun v => 0 <= v) (data (stated.thresholded threshold a)) /\
    (threshold = 0 ->
     stated.thresholded threshold a
     = mk_ndarray (shape a) (map (fun v => Rmax v 0) (data a))) /\
    (forall self input n_in n_nodes,
       output (example2.OutputLayer self input n_in n_nodes)
       = rectifier 1 (output (example2.HiddenLayer self input n_in n_nodes))) /\
    (forall self input n_in n_nodes h o,
       example3.HiddenLayer self input n_in n_nodes = Ok h ->
       example3.OutputLayer self input n_in n_nodes = Ok o ->
       example3.output o = rectifier 0 (example3.output h)).
Proof.
  intros threshold lin_output e a Ha Hwf.
  split; [now apply rectifier_eval |].
  split; [apply thresholded_nonnegative |].
  split; [| split].
  - intros ->. unfold stated.thresholded. f_equal.
    apply map_ext. intros v. now rewrite Rminus_0_r.
  - reflexivity.
  - intros self input n_in n_nodes h o Hh Ho.
    destruct (HiddenLayer_Ok _ _ _ _ Hh) as (_ & _ & _ & Hh').
    destruct (OutputLayer_Ok _ _ _ _ Ho) as (_ & _ & _ & Ho').
    rewrite Hh' in Hh. rewrite Ho' in Ho.
    injection Hh as <-. injection Ho as <-. reflexivity.
Qed.

Lemma rectifier_is_thresholded_maximum_witness :
  let e := mk_env example2.initial_store
                  (mk_ndarray [2; 1]%nat [3; -2]) (mk_ndarray [2; 1]%nat [0; 0]) in
  eval (rectifier 1 x) e
  = Ok (stated.thresholded 1 (mk_ndarray [2; 1]%nat [3; -2])) /\
  Forall (fun v => 0 <= v)
         (data (stated.thresholded 1 (mk_ndarray [2; 1]%nat [3; -2]))).
Proof.
  intros e.
  destruct (@rectifier_is_thresholded_maximum 1 x e (mk_ndarray [2; 1]%nat [3; -2])
              eq_refl eq_refl) as (H1 & H2 & _).
  split; [exact H1 | exact H2].
Defined.

(** ** Running a graph on concrete data *)

Ltac run_graph :=
  cbv [example2.cost affine_network.cost errors bind
       example2.classifier example2.MLP example2.OutputLayer example2.HiddenLayer
       affine_network.affine_layer affine_network.L1 affine_network.L2_sqr
       output example2.output_layer_of example2.hidden_layer_of
       example2.L1 example2.L2_sqr example2.MLP_params params
       tv_ndim rectifier regularised
       T_mul T_gt T_sub T_add T_dot T_sum T_abs T_sqr T_mean lift2 lift1 constant
       new_value make_updates
       x y shared_var shared_of_rank variable name rank ndim W b W_values b_values
       eval shareds value_x value_y
       example2.initial_store affine_network.initial_store
       example2.train_set affine_network.train_set fst snd
       mul_scalar ones zeros full scalar prod shape data
       dot elemwise shape_eqb mean abs sum sqr item sum_list zip_with
       list_eq_dec list_rec list_rect Nat.eq_dec nat_rec nat_rect
       length Nat.max Nat.eqb Nat.mul Nat.add negb andb
       repeat map flat_map seq app concat fold_right nth
       sumbool_rec sumbool_rect f_equal eq_ind_r eq_ind eq_sym eq_rec eq_rect].

Ltac decide_reals :=
  unfold gt, example2.threshold, example3.threshold, Rabs;
  repeat match goal with
         | |- context [Rlt_dec ?u ?v] => destruct (Rlt_dec u v); try (exfalso; lra)
         | |- context [Rcase_abs ?u] => destruct (Rcase_abs u); try (exfalso; lra)
         end.

Ltac same_entries := repeat first [lra | f_equal].

(** ** The error function *)

(** The check of [errors] itself is on the two ranks. *)
Lemma errors_same_rank (self_output y : TensorVariable) :
  tv_ndim y = tv_ndim self_output ->
  errors self_output y = Ok (T_abs (T_mean (T_sub self_output y))).
Proof. intros H. unfold errors. rewrite H, Nat.eqb_refl. reflexivity. Qed.





(** C1, as the code has it.  On a prediction and a target of one shape the
    cost built by [errors] evaluates to [|mean(predicted - target)|]. *)
Theorem errors_is_absolute_mean :
  forall (self_output y : TensorVariable) (e : env) (predicted target : ndarray),
    eval self_output e = Ok predicted ->
    eval y e = Ok target ->
    tv_ndim self_output = ndim predicted ->
    tv_ndim y = ndim target ->
    well_formed predicted ->
    well_formed target ->
    shape predicted = shape target ->
    exists c,
      errors self_output y = Ok c /\
      eval c e = Ok (scalar (stated.absolute_mean_error predicted target)).
Proof.
  intros self_output y e predicted target Hp Ht Hnp Hnt Hwp Hwt Hs.
  exists (T_abs (T_mean (T_sub self_output y))). split.
  - apply errors_same_rank. rewrite Hnp, Hnt. unfold ndim. now rewrite Hs.
  - cbn [T_abs T_mean T_sub lift1 lift2 eval]. rewrite Hp, Ht. cbn [bind].
    rewrite elemwise_same_shape by assumption. cbn [bind].
    unfold mean, abs, scalar, stated.absolute_mean_error. cbn [data shape map].
    rewrite zip_with_length; [reflexivity |].
    unfold well_formed in *. congruence.
Qed.

Lemma errors_is_absolute_mean_witness :
  let predicted := mk_ndarray [2; 1]%nat [3; 0] in
  let target := mk_ndarray [2; 1]%nat [1; 1] in
  let e := mk_env example2.initial_store predicted target in
  exists c,
    errors x y = Ok c /\
    eval c e = Ok (scalar (stated.absolute_mean_error predicted target)).
Proof.
  intros predicted target e.
  exact (@errors_is_absolute_mean x y e predicted target
           eq_refl eq_refl eq_refl eq_refl eq_refl eq_refl eq_refl).
Defined.

(** C1, as stated, fails.  On the batch [[0.75, 0], [0, 0]] the classifier
    of example2.py, at its first weights, predicts [[2], [0]]; against the
    target [[1], [1]] both predictions are off by 1, the mean absolute
    error is 1, and [errors] evaluates to 0. *)
Lemma errors_is_not_mean_absolute :
  let e := mk_env example2.initial_store
                  (mk_ndarray [2; 2]%nat [0.75; 0; 0; 0])
                  (mk_ndarray [2; 1]%nat [1; 1]) in
  let predicted := mk_ndarray [2; 1]%nat [2; 0] in
  let target := mk_ndarray [2; 1]%nat [1; 1] in
  eval (output (example2.output_layer_of example2.classifier)) e = Ok predicted /\
  eval y e = Ok target /\
  shape predicted = shape target /\
  (c <- errors (output (example2.output_layer_of example2.classifier)) y ;; eval c e)
  = Ok (scalar 0) /\
  stated.mean_absolute_error predicted target = 1 /\
  scalar 0 <> scalar (stated.mean_absolute_error predicted target).
Proof.
  cbn zeta.
  assert (Hmae : stated.mean_absolute_error (mk_ndarray [2; 1]%nat [2; 0])
                   (mk_ndarray [2; 1]%nat [1; 1]) = 1).
  { unfold stated.mean_absolute_error. cbn. decide_reals; lra. }
  split; [| split; [reflexivity | split; [reflexivity | split; [| split]]]].
  - run_graph. decide_reals. same_entries.
  - run_graph. cbn [INR]. decide_reals; same_entries.
  - exact Hmae.
  - rewrite Hmae. unfold scalar. intros H. injection H as H. lra.
Qed.

(** ** The update rule *)

Lemma elemwise_scalar_l (f : R -> R -> R) (t : R) (g : ndarray) :
  well_formed g ->
  elemwise f (scalar t) g
  = Ok (mk_ndarray (shape g) (map (fun v => f t v) (data g))).
Proof.
  intros Hg. unfold elemwise, well_formed in *. cbn [shape scalar].
  destruct (shape g) as [| n s]; [| reflexivity].
  cbn in Hg. unfold item.
  destruct (data g) as [| v [| ? ?]]; try discriminate. reflexivity.
Qed.

Lemma zip_with_map_r (f : R -> R -> R) (h : R -> R) (l1 l2 : list R) :
  zip_with f l1 (map h l2) = zip_with (fun a d => f a (h d)) l1 l2.
Proof.
  revert l2. induction l1 as [| a l1 IH]; intros [| d l2]; cbn; try reflexivity.
  now rewrite IH.
Qed.

Lemma combine_with_map {A B : Type} (f : A -> B) (l : list A) :
  combine l (map f l) = map (fun a => (a, f a)) l.
Proof. induction l as [| a l IH]; cbn; [reflexivity | now rewrite IH]. Qed.

Section descent.

Context {engine : TensorEngine}.
Variables (c : TensorVariable) (learning_rate : R).

Lemma make_updates_map (params : list SharedVariable) :
  make_updates learning_rate params (map (fun param => grad c param) params)
  = map (fun param => (param, new_value learning_rate param (grad c param))) params.
Proof.
  unfold make_updates. rewrite combine_with_map, map_map. reflexivity.
Qed.

(** One update expression evaluates to [p - learning_rate * g]. *)
Lemma new_value_eval (e : env) (param : SharedVariable) (g : ndarray) :
  eval (grad c param) e = Ok g ->
  shape g = shape (shareds e (name param)) ->
  well_formed g ->
  well_formed (shareds e (name param)) ->
  eval (new_value learning_rate param (grad c param)) e
  = Ok (stated.descent learning_rate (shareds e (name param)) g).
Proof.
  intros Hg Hs Hwg Hwp.
  unfold new_value, T_sub, T_mul, lift2, constant, variable. cbn [eval bind].
  rewrite Hg. cbn [bind].
  rewrite elemwise_scalar_l by exact Hwg. cbn [bind].
  rewrite elemwise_same_shape; cbn [shape data].
  - unfold stated.descent. now rewrite zip_with_map_r.
  - now symmetry.
  - exact Hwp.
  - unfold well_formed in *. cbn [shape data]. now rewrite length_map.
Qed.

Lemma eval_all_new_values (e : env) (params : list SharedVariable) :
  stated.gradients_available c params e ->
  eval_all e (map (fun param => new_value learning_rate param (grad c param)) params)
  = Ok (map (stated.stepped c learning_rate e) params).
Proof.
  induction params as [| p params IH]; intros Hav; [reflexivity |].
  cbn [map eval_all].
  destruct (Hav p (or_introl eq_refl)) as (g & Hg & Hs & Hwg & Hwp).
  rewrite (new_value_eval e p Hg Hs Hwg Hwp). cbn [bind].
  rewrite IH by (intros q Hq; apply Hav; now right). cbn [bind].
  unfold stated.stepped at 2. now rewrite Hg.
Qed.

Lemma write_all_map (params : list SharedVariable) (vals : SharedVariable -> ndarray)
    (st : store) :
  write_all (map (fun param => (param, new_value learning_rate param (grad c param))) params)
            (map vals params) st
  = fold_left (fun s param => set_value s (name param) (vals param)) params st.
Proof.
  unfold write_all. revert st.
  induction params as [| p params IH]; intros st; [reflexivity |].
  cbn [map combine fold_left fst snd]. apply IH.
Qed.

Lemma fold_set_value_other (params : list SharedVariable)
    (vals : SharedVariable -> ndarray) (st : store) (q : shared) :
  ~ In q (map name params) ->
  fold_left (fun s param => set_value s (name param) (vals param)) params st q = st q.
Proof.
  revert st. induction params as [| p params IH]; intros st Hq; [reflexivity |].
  cbn [fold_left]. rewrite IH by (intros H; apply Hq; now right).
  unfold set_value. destruct (shared_eq_dec q (name p)) as [-> | _]; [| reflexivity].
  elim Hq. now left.
Qed.

Lemma fold_set_value_written (params : list SharedVariable)
    (vals : SharedVariable -> ndarray) (st : store) (p : SharedVariable) :
  NoDup (map name params) ->
  In p params ->
  fold_left (fun s param => set_value s (name param) (vals param)) params st (name p)
  = vals p.
Proof.
  revert st. induction params as [| a params IH]; intros st Hnd Hin; [contradiction |].
  cbn [map] in Hnd. inversion Hnd as [| ? ? Hnotin Hnd']; subst.
  cbn [fold_left]. destruct Hin as [-> | Hin].
  - rewrite fold_set_value_other by exact Hnotin.
    unfold set_value. destruct (shared_eq_dec (name p) (name p)); congruence.
  - now apply IH.
Qed.

(** A call of a function compiled with the updates of [main]. *)
Lemma descent_step (params : list SharedVariable) (st : store) (index : Z)
    (bx by_ cv : ndarray) :
  NoDup (map name params) ->
  givens st index = Ok (bx, by_) ->
  ndim bx = 2%nat -> ndim by_ = 2%nat ->
  eval c (mk_env st bx by_) = Ok cv ->
  stated.gradients_available c params (mk_env st bx by_) ->
  exists st',
    function1 c (make_updates learning_rate params
                   (map (fun param => grad c param) params)) st index
    = Ok (cv, st') /\
    stated.plain_descent c learning_rate params (mk_env st bx by_) st'.
Proof.
  intros Hnd Hgiv Hbx Hby Hc Hav.
  exists (fold_left (fun s param =>
                       set_value s (name param) (stated.stepped c learning_rate (mk_env st bx by_) param))
                    params st).
  split.
  - unfold function1, function. rewrite Hgiv. cbn [bind fst snd].
    rewrite Hbx, Hby. cbn [Nat.eqb andb negb eval_all].
    rewrite Hc. cbn [bind].
    rewrite make_updates_map, map_map. cbn [snd].
    rewrite (eval_all_new_values Hav). cbn [bind fst snd].
    now rewrite write_all_map.
  - split.
    + intros p Hp.
      destruct (Hav p Hp) as (g & Hg & _).
      exists g. split; [exact Hg |].
      rewrite fold_set_value_written by assumption.
      unfold stated.stepped. now rewrite Hg.
    + intros q Hq. now apply fold_set_value_other.
Qed.

End descent.

(** ** The two training functions *)

Lemma example2_cost_built :
  exists c, example2.cost = Ok c /\ tv_ndim c = 0%nat.
Proof. eexists. split; reflexivity. Qed.

Lemma example3_cost_built (engine : TensorEngine) :
  exists cl c,
    example3.cost = Ok (cl, c) /\
    map name (example3.MLP_params cl)
    = [W_of hidden_layer; b_of hidden_layer; W_of output_layer; b_of output_layer;
       W_of conv_layer; b_of conv_layer].
Proof.
  unfold example3.cost, example3.classifier, example3.MLP.
  cbn [Py.getitem nth_error bind].
  destruct (ConvolutionalLayer_of_main (reshape x [1; 1; 84; 84]%Z)) as (conv & Hconv).
  rewrite Hconv. cbn [bind].
  destruct (ConvolutionalLayer_Ok _ _ _ _ Hconv)
    as (m & ih & fh & n & _ & _ & Hih & Hfh & Hn & _ & _ & _ & _ & Hout & _ & _ & _ & Hpar).
  cbn in Hih, Hfh, Hn. injection Hih as <-. injection Hfh as <-. injection Hn as <-.
  rewrite Hout.
  change (16 * (1 + (84 - 8) / 4) * (1 + (84 - 8) / 4))%Z with 6400%Z.
  rewrite HiddenLayer_built by lia. cbn [bind].
  rewrite OutputLayer_built by lia. cbn [bind].
  unfold errors. cbn [example3.output tv_ndim rectifier T_mul T_gt T_sub T_add T_dot
                        lift2 constant variable shared_of_rank rank y Nat.max
                        Nat.eqb negb bind example3.output_layer_of].
  eexists. eexists. split; [reflexivity |].
  cbn [example3.MLP_params example3.params map app name shared_of_rank].
  rewrite Hpar. reflexivity.
Qed.

(** C6.  A call of [train_model], in either script, on a batch for which
    the engine delivers the cost and a gradient of every parameter, returns
    that cost and leaves every parameter [p] of the classifier, the weights
    and the bias of each of its layers, at exactly [p - learning_rate * g],
    [g] being the gradient of the cost in [p] at the values before the
    call; nothing else enters the new value and no other shared variable
    is written. *)
Theorem train_model_is_plain_descent :
  forall (engine : TensorEngine) (st : store) (index : Z) (bx by_ : ndarray),
    givens st index = Ok (bx, by_) ->
    ndim bx = 2%nat ->
    ndim by_ = 2%nat ->
    (exists c,
       example2.cost = Ok c /\
       map name (example2.MLP_params example2.classifier)
       = [W_of hidden_layer; b_of hidden_layer; W_of output_layer; b_of output_layer] /\
       forall cv,
         eval c (mk_env st bx by_) = Ok cv ->
         stated.gradients_available c (example2.MLP_params example2.classifier)
           (mk_env st bx by_) ->
         exists st',
           example2.train_model st index = Ok (cv, st') /\
           stated.plain_descent c example2.learning_rate
             (example2.MLP_params example2.classifier) (mk_env st bx by_) st') /\
    (exists cl c,
       example3.cost = Ok (cl, c) /\
       map name (example3.MLP_params cl)
       = [W_of hidden_layer; b_of hidden_layer; W_of output_layer; b_of output_layer;
          W_of conv_layer; b_of conv_layer] /\
       forall cv,
         eval c (mk_env st bx by_) = Ok cv ->
         stated.gradients_available c (example3.MLP_params cl) (mk_env st bx by_) ->
         exists st',
           example3.train_model st index = Ok (cv, st') /\
           stated.plain_descent c example3.learning_rate
             (example3.MLP_params cl) (mk_env st bx by_) st').
Proof.
  intros engine st index bx by_ Hgiv Hbx Hby. split.
  - destruct example2_cost_built as (c & Hc & _).
    exists c. split; [exact Hc |]. split; [reflexivity |].
    intros cv Hcv Hav.
    unfold example2.train_model, example2.updates, example2.gparams.
    rewrite Hc. cbn [bind].
    apply descent_step; try assumption.
    cbn. repeat constructor; cbn; intuition discriminate.
  - destruct (example3_cost_built engine) as (cl & c & Hc & Hnames).
    exists cl, c. split; [exact Hc |]. split; [exact Hnames |].
    intros cv Hcv Hav.
    unfold example3.train_model, example3.updates, example3.grads.
    rewrite Hc. cbn [bind fst snd].
    apply descent_step; try assumption.
    rewrite Hnames. repeat constructor; cbn; intuition discriminate.
Qed.

Lemma full_well_formed (s : list nat) (v : R) : well_formed (full s v).
Proof. unfold well_formed, full. cbn [data shape]. apply repeat_length. Qed.

(** The first batch of example2.py and the cost of the classifier on it,
    at its first weights. *)
Lemma example2_first_cost (c : TensorVariable) :
  example2.cost = Ok c ->
  eval c (mk_env example2.initial_store
                 (mk_ndarray [4; 2]%nat [0; 0; 0; 1; 1; 1; 1; 0])
                 (mk_ndarray [4; 1]%nat [0; 0; 1; 0]))
  = Ok (scalar 3).
Proof.
  intros Hc. assert (Hc' := Hc). revert Hc'.
  unfold example2.cost, errors.
  cbn [negb Nat.eqb tv_ndim y bind example2.classifier example2.MLP
       example2.output_layer_of example2.OutputLayer output rectifier
       T_mul T_gt T_sub T_add T_dot lift2 constant variable shared_var
       shared_of_rank rank Nat.max].
  intros Hc'. injection Hc' as <-.
  run_graph. cbn [INR]. decide_reals; same_entries.
Qed.

Lemma unit_gradients_available (c : TensorVariable) (bx by_ : ndarray) :
  @stated.gradients_available fixtures.unit_gradient_engine c
    (example2.MLP_params example2.classifier)
    (mk_env example2.initial_store bx by_).
Proof.
  intros p Hp. eexists. split; [reflexivity |].
  split; [reflexivity |]. split; [apply full_well_formed |].
  cbn in Hp. destruct Hp as [<- | [<- | [<- | [<- | []]]]]; reflexivity.
Qed.

Lemma train_model_is_plain_descent_witness :
  let e := mk_env example2.initial_store
                  (mk_ndarray [4; 2]%nat [0; 0; 0; 1; 1; 1; 1; 0])
                  (mk_ndarray [4; 1]%nat [0; 0; 1; 0]) in
  exists c st',
    example2.cost = Ok c /\
    @example2.train_model fixtures.unit_gradient_engine example2.initial_store 0
    = Ok (scalar 3, st') /\
    @stated.plain_descent fixtures.unit_gradient_engine c example2.learning_rate
      (example2.MLP_params example2.classifier) e st'.
Proof.
  intros e.
  destruct (@train_model_is_plain_descent fixtures.unit_gradient_engine
              example2.initial_store 0%Z
              (mk_ndarray [4; 2]%nat [0; 0; 0; 1; 1; 1; 1; 0])
              (mk_ndarray [4; 1]%nat [0; 0; 1; 0])
              eq_refl eq_refl eq_refl) as ((c & Hc & _ & Hstep) & _).
  destruct (Hstep (scalar 3) (example2_first_cost Hc)
                  (unit_gradients_available c _ _)) as (st' & Hrun & Hdesc).
  exists c, st'. split; [exact Hc |]. split; [exact Hrun | exact Hdesc].
Defined.

(** ** One descent step on the affine network *)

(** The absolute value has slope 1 to the right of its kink. *)
Lemma abs_slope_one (f : R -> R) (x0 K : R) :
  (forall t, f t = Rabs (t + K)) ->
  0 < x0 + K ->
  derivable_pt_lim f x0 1.
Proof.
  intros Hf Hpos eps Heps.
  exists (mkposreal (x0 + K) Hpos). intros h Hh0 Hh. cbn [pos] in Hh.
  rewrite !Hf.
  assert (Hh' : h < x0 + K /\ - (x0 + K) < h) by (now apply Rabs_def2).
  rewrite (Rabs_pos_eq (x0 + h + K)) by lra.
  rewrite (Rabs_pos_eq (x0 + K)) by lra.
  replace ((x0 + h + K - (x0 + K)) / h - 1) with 0 by (field; exact Hh0).
  now rewrite Rabs_R0.
Qed.

(** The cost of the affine network on its batch, for any weights [w1],
    [w2] and bias [b0]. *)
Lemma affine_cost_at (c : TensorVariable) (st : store) (w1 w2 b0 : R) :
  affine_network.cost = Ok c ->
  st (W_of hidden_layer) = mk_ndarray [2; 1]%nat [w1; w2] ->
  st (b_of hidden_layer) = mk_ndarray [1]%nat [b0] ->
  exists v,
    eval c (mk_env st (mk_ndarray [1; 2]%nat [1; 1]) (mk_ndarray [1; 1]%nat [0]))
    = Ok (scalar v) /\
    v = Rabs (w1 + w2 + b0).
Proof.
  intros Hc HW Hb. revert Hc.
  unfold affine_network.cost, errors.
  cbn [negb Nat.eqb tv_ndim y bind affine_network.affine_layer example2.HiddenLayer
       output T_mul T_gt T_sub T_add T_dot lift2 constant variable shared_var
       shared_of_rank rank Nat.max].
  intros Hc. injection Hc as <-.
  cbv [regularised affine_network.L1 affine_network.L2_sqr affine_network.affine_layer
       example2.HiddenLayer output W b
       T_mul T_sub T_add T_dot T_sum T_abs T_sqr T_mean lift2 lift1 constant
       x y shared_var shared_of_rank variable name rank eval bind
       shareds value_x value_y].
  rewrite HW, Hb.
  run_graph. cbn [INR]. eexists. split; [reflexivity |].
  rewrite !Rmult_0_l, !Rplus_0_r. f_equal. lra.
Qed.

(** At the first weights every partial derivative of the cost is 1. *)
Lemma affine_partials (c : TensorVariable) (p : SharedVariable) (k : nat) :
  affine_network.cost = Ok c ->
  In p (params affine_network.affine_layer) ->
  (k < length (data (shareds affine_network.first_env (name p))))%nat ->
  derivable_pt_lim (cost_along c affine_network.first_env (name p) k)
                   (item (shareds affine_network.first_env (name p)) k) 1.
Proof.
  intros Hc Hp Hk.
  cbn in Hp. destruct Hp as [<- | [<- | []]]; cbn in Hk.
  - destruct k as [| [| k]]; [| | lia].
    + apply abs_slope_one with (K := 2); [| cbn; lra].
      intros t. unfold cost_along. cbn [shareds value_x value_y affine_network.first_env].
      destruct (@affine_cost_at c
                  (set_value affine_network.initial_store (W_of hidden_layer)
                     (set_item (affine_network.initial_store (W_of hidden_layer)) 0 t))
                  t (1 * 2) 0 Hc eq_refl eq_refl) as (v & Hv & ->).
      cbn [name shared_var shared_of_rank W affine_network.affine_layer
           example2.HiddenLayer].
      rewrite Hv. cbn. f_equal. lra.
    + apply abs_slope_one with (K := 2); [| cbn; lra].
      intros t. unfold cost_along. cbn [shareds value_x value_y affine_network.first_env].
      destruct (@affine_cost_at c
                  (set_value affine_network.initial_store (W_of hidden_layer)
                     (set_item (affine_network.initial_store (W_of hidden_layer)) 1 t))
                  (1 * 2) t 0 Hc eq_refl eq_refl) as (v & Hv & ->).
      cbn [name shared_var shared_of_rank W affine_network.affine_layer
           example2.HiddenLayer].
      rewrite Hv. cbn. f_equal. lra.
  - destruct k as [| k]; [| lia].
    apply abs_slope_one with (K := 4); [| cbn; lra].
    intros t. unfold cost_along. cbn [shareds value_x value_y affine_network.first_env].
    destruct (@affine_cost_at c
                (set_value affine_network.initial_store (b_of hidden_layer)
                   (set_item (affine_network.initial_store (b_of hidden_layer)) 0 t))
                (1 * 2) (1 * 2) t Hc eq_refl eq_refl) as (v & Hv & ->).
    cbn [name shared_var shared_of_rank b affine_network.affine_layer
         example2.HiddenLayer].
    rewrite Hv. cbn. f_equal. lra.
Qed.

(** So a gradient of the cost at the first weights is 1 in every entry. *)
Lemma affine_gradient_is_ones (c : TensorVariable) (p : SharedVariable) (g : ndarray) :
  affine_network.cost = Ok c ->
  In p (params affine_network.affine_layer) ->
  is_gradient c affine_network.first_env (name p) g ->
  g = full (shape (shareds affine_network.first_env (name p))) 1.
Proof.
  intros Hc Hp (Hs & Hl & Hd).
  assert (Hone : forall k,
             (k < length (data g))%nat -> item g k = 1).
  { intros k Hk.
    apply (uniqueness_limite _ _ _ _ (Hd k Hk)).
    apply affine_partials; [exact Hc | exact Hp | now rewrite <- Hl]. }
  destruct g as [sg dg]. cbn [shape data] in *. subst sg. unfold full. f_equal.
  cbn in Hp. destruct Hp as [<- | [<- | []]]; cbn in Hl |- *.
  - destruct dg as [| u [| v [| ? ?]]]; try discriminate.
    pose proof (Hone 0%nat ltac:(cbn; lia)) as H0.
    pose proof (Hone 1%nat ltac:(cbn; lia)) as H1.
    unfold item in H0, H1. cbn in H0, H1. now subst.
  - destruct dg as [| u [| ? ?]]; try discriminate.
    pose proof (Hone 0%nat ltac:(cbn; lia)) as H0.
    unfold item in H0. cbn in H0. now subst.
Qed.

(** C5.  On the network of one affine layer with every weight 2, input
    [[1, 1]], target [[0]] and learning rate 0.02, one call of
    [train_model] with the gradients of the cost returns the cost 4 and
    leaves weights at which the cost is 3.94, smaller in absolute value. *)
Theorem affine_step_lowers_cost :
  forall (engine : TensorEngine) (c : TensorVariable),
    affine_network.cost = Ok c ->
    stated.true_gradients c (params affine_network.affine_layer)
      affine_network.first_env ->
    exists c0 c1 st1,
      affine_network.train_model affine_network.initial_store 0
      = Ok (scalar c0, st1) /\
      affine_network.cost_model st1 0 = Ok (scalar c1) /\
      c0 = 4 /\ c1 = 3.94 /\ Rabs c1 < Rabs c0.
Proof.
  intros engine c Hc Htrue.
  assert (Hav : stated.gradients_available c (params affine_network.affine_layer)
                  affine_network.first_env).
  { intros p Hp. destruct (Htrue p Hp) as (g & Hg & Hgrad).
    exists g. split; [exact Hg |].
    rewrite (affine_gradient_is_ones Hc Hp Hgrad).
    split; [reflexivity |]. split; [apply full_well_formed |].
    cbn in Hp. destruct Hp as [<- | [<- | []]]; reflexivity. }
  destruct (@affine_cost_at c affine_network.initial_store (1 * 2) (1 * 2) 0
              Hc eq_refl eq_refl) as (c0 & Hc0 & Hv0).
  destruct (@descent_step engine c example2.learning_rate
              (params affine_network.affine_layer) affine_network.initial_store 0%Z
              (mk_ndarray [1; 2]%nat [1; 1]) (mk_ndarray [1; 1]%nat [0]) (scalar c0))
    as (st1 & Hrun & Hpar & Hrest).
  { cbn. repeat constructor; cbn; intuition discriminate. }
  { reflexivity. }
  { reflexivity. }
  { reflexivity. }
  { exact Hc0. }
  { exact Hav. }
  assert (HW : st1 (W_of hidden_layer)
               = mk_ndarray [2; 1]%nat [1 * 2 - 0.02 * 1; 1 * 2 - 0.02 * 1]).
  { destruct (Hpar (W affine_network.affine_layer) (or_introl eq_refl))
      as (g & Hg & Hst).
    destruct (Htrue (W affine_network.affine_layer) (or_introl eq_refl))
      as (g' & Hg' & Hgrad).
    assert (Hsame : Ok g' = Ok g) by exact (eq_trans (eq_sym Hg') Hg).
    injection Hsame as ->.
    rewrite (affine_gradient_is_ones Hc (or_introl eq_refl) Hgrad) in Hst.
    exact Hst. }
  assert (Hb : st1 (b_of hidden_layer) = mk_ndarray [1]%nat [0 - 0.02 * 1]).
  { destruct (Hpar (b affine_network.affine_layer) (or_intror (or_introl eq_refl)))
      as (g & Hg & Hst).
    destruct (Htrue (b affine_network.affine_layer) (or_intror (or_introl eq_refl)))
      as (g' & Hg' & Hgrad).
    assert (Hsame : Ok g' = Ok g) by exact (eq_trans (eq_sym Hg') Hg).
    injection Hsame as ->.
    rewrite (affine_gradient_is_ones Hc (or_intror (or_introl eq_refl)) Hgrad) in Hst.
    exact Hst. }
  assert (Hx : st1 train_set_x = affine_network.initial_store train_set_x).
  { apply Hrest. cbn. intuition discriminate. }
  assert (Hy : st1 train_set_y = affine_network.initial_store train_set_y).
  { apply Hrest. cbn. intuition discriminate. }
  destruct (@affine_cost_at c st1 _ _ _ Hc HW Hb) as (c1 & Hc1 & Hv1).
  exists c0, c1, st1.
  split; [| split; [| split; [| split]]].
  - unfold affine_network.train_model, affine_network.updates.
    rewrite Hc. cbn [bind]. exact Hrun.
  - unfold affine_network.cost_model. rewrite Hc. cbn [bind].
    unfold function1, function, givens. rewrite Hx, Hy.
    change (getitem (affine_network.initial_store train_set_x) 0)
      with (Ok (mk_ndarray [1; 2]%nat [1; 1])).
    change (getitem (affine_network.initial_store train_set_y) 0)
      with (Ok (mk_ndarray [1; 1]%nat [0])).
    cbn [bind fst snd ndim shape length Nat.eqb andb negb eval_all map].
    rewrite Hc1. reflexivity.
  - rewrite Hv0. unfold Rabs. destruct (Rcase_abs (1 * 2 + 1 * 2 + 0)); lra.
  - rewrite Hv1. unfold Rabs.
    destruct (Rcase_abs (1 * 2 - 0.02 * 1 + (1 * 2 - 0.02 * 1) + (0 - 0.02 * 1))); lra.
  - rewrite Hv0, Hv1. rewrite !Rabs_Rabsolu. unfold Rabs.
    destruct (Rcase_abs (1 * 2 - 0.02 * 1 + (1 * 2 - 0.02 * 1) + (0 - 0.02 * 1)));
      destruct (Rcase_abs (1 * 2 + 1 * 2 + 0)); lra.
Qed.

(** The engine with gradient 1 everywhere keeps the contract on the affine
    network at its first weights. *)
Lemma unit_gradient_is_true (c : TensorVariable) :
  affine_network.cost = Ok c ->
  @stated.true_gradients fixtures.unit_gradient_engine c
    (params affine_network.affine_layer) affine_network.first_env.
Proof.
  intros Hc p Hp. eexists. split; [reflexivity |].
  split; [reflexivity |].
  assert (Hlen : length (data (full (shape (shareds affine_network.first_env (name p))) 1))
                 = length (data (shareds affine_network.first_env (name p)))).
  { cbn in Hp. destruct Hp as [<- | [<- | []]]; reflexivity. }
  split; [exact Hlen |].
  intros k Hk. rewrite Hlen in Hk.
  replace (item (full (shape (shareds affine_network.first_env (name p))) 1) k) with 1.
  - now apply affine_partials.
  - unfold item, full. cbn [data]. symmetry. apply nth_repeat_lt.
    rewrite <- Hlen in Hk. unfold full in Hk. cbn [data] in Hk.
    now rewrite repeat_length in Hk.
Qed.

Lemma affine_step_lowers_cost_witness :
  exists c c0 c1 st1,
    affine_network.cost = Ok c /\
    @affine_network.train_model fixtures.unit_gradient_engine
      affine_network.initial_store 0 = Ok (scalar c0, st1) /\
    affine_network.cost_model st1 0 = Ok (scalar c1) /\
    Rabs c1 < Rabs c0.
Proof.
  destruct (@affine_step_lowers_cost fixtures.unit_gradient_engine _ eq_refl
              (unit_gradient_is_true eq_refl))
    as (c0 & c1 & st1 & Hrun & Hcost & _ & _ & Hlt).
  eexists. exists c0, c1, st1.
  split; [reflexivity |]. split; [exact Hrun |]. split; [exact Hcost | exact Hlt].
Defined.

(** * Further properties of the code *)

(** ** The value of [errors] *)

Lemma sum_list_abs_triangle (l : list R) :
  Rabs (sum_list l) <= sum_list (map Rabs l).
Proof.
  unfold sum_list. induction l as [| a l IH]; cbn.
  - rewrite Rabs_R0. lra.
  - eapply Rle_trans; [apply Rabs_triang |]. lra.
Qed.


Lemma inv_INR_nonneg (n : nat) : 0 <= / INR n.
Proof.
  destruct n as [| n].
  - cbn. rewrite Rinv_0. lra.
  - left. apply Rinv_0_lt_compat. apply lt_0_INR. lia.
Qed.

Lemma Rabs_div_INR (s : R) (n : nat) : Rabs (s / INR n) = Rabs s / INR n.
Proof.
  unfold Rdiv. rewrite Rabs_mult.
  rewrite (Rabs_pos_eq (/ INR n)) by apply inv_INR_nonneg. reflexivity.
Qed.

Lemma zip_with_diag (f : R -> R -> R) (l : list R) :
  zip_with f l l = map (fun v => f v v) l.
Proof. induction l as [| a l IH]; cbn; [reflexivity | now rewrite IH]. Qed.

Lemma sum_list_zeros (l : list R) :
  sum_list (map (fun v => v - v) l) = 0.
Proof.
  unfold sum_list. induction l as [| a l IH]; cbn; [reflexivity | rewrite IH; lra].
Qed.

(** What the cost built by [errors] evaluates to. *)
Lemma errors_eval (self_output y : TensorVariable) (e : env) (predicted target : ndarray) :
  eval self_output e = Ok predicted ->
  eval y e = Ok target ->
  tv_ndim self_output = ndim predicted ->
  tv_ndim y = ndim target ->
  well_formed predicted ->
  well_formed target ->
  shape predicted = shape target ->
  exists c,
    errors self_output y = Ok c /\
    eval c e = Ok (scalar (stated.absolute_mean_error predicted target)).
Proof.
  intros Hp Ht Hnp Hnt Hwp Hwt Hs.
  exists (T_abs (T_mean (T_sub self_output y))). split.
  - apply errors_same_rank. rewrite Hnp, Hnt. unfold ndim. now rewrite Hs.
  - cbn [T_abs T_mean T_sub lift1 lift2 eval]. rewrite Hp, Ht. cbn [bind].
    rewrite elemwise_same_shape by assumption. cbn [bind].
    unfold mean, abs, scalar, stated.absolute_mean_error. cbn [data shape map].
    rewrite zip_with_length; [reflexivity |].
    unfold well_formed in *. congruence.
Qed.

(** X1.  On a prediction and a target of one shape, with entries, the
    value of [errors] lies between 0 and the mean absolute error. *)
Theorem errors_below_mean_absolute_error :
  forall (self_output y : TensorVariable) (e : env) (predicted target : ndarray),
    eval self_output e = Ok predicted ->
    eval y e = Ok target ->
    tv_ndim self_output = ndim predicted ->
    tv_ndim y = ndim target ->
    well_formed predicted ->
    well_formed target ->
    shape predicted = shape target ->
    data predicted <> [] ->
    exists c v,
      errors self_output y = Ok c /\
      eval c e = Ok (scalar v) /\
      0 <= v <= stated.mean_absolute_error predicted target.
Proof.
  intros self_output y e predicted target Hp Ht Hnp Hnt Hwp Hwt Hs _.
  destruct (errors_eval self_output y e Hp Ht Hnp Hnt Hwp Hwt Hs) as (c & Hc & Hv).
  exists c, (stated.absolute_mean_error predicted target).
  split; [exact Hc |]. split; [exact Hv |].
  unfold stated.absolute_mean_error, stated.mean_absolute_error. split.
  - apply Rabs_pos.
  - rewrite Rabs_div_INR. unfold Rdiv.
    apply Rmult_le_compat_r; [apply inv_INR_nonneg | apply sum_list_abs_triangle].
Qed.

Lemma errors_below_mean_absolute_error_witness :
  let predicted := mk_ndarray [2; 1]%nat [3; 0] in
  let target := mk_ndarray [2; 1]%nat [1; 1] in
  let e := mk_env example2.initial_store predicted target in
  exists c v,
    errors x y = Ok c /\
    eval c e = Ok (scalar v) /\
    0 <= v <= stated.mean_absolute_error predicted target.
Proof.
  intros predicted target e.
  apply (@errors_below_mean_absolute_error x y e predicted target
           eq_refl eq_refl eq_refl eq_refl eq_refl eq_refl eq_refl).
  discriminate.
Defined.

(** X2.  When the prediction equals the target and has entries, [errors]
    evaluates to 0. *)
Theorem errors_zero_on_exact_prediction :
  forall (self_output y : TensorVariable) (e : env) (predicted : ndarray),
    eval self_output e = Ok predicted ->
    eval y e = Ok predicted ->
    tv_ndim self_output = ndim predicted ->
    tv_ndim y = ndim predicted ->
    well_formed predicted ->
    data predicted <> [] ->
    exists c, errors self_output y = Ok c /\ eval c e = Ok (scalar 0).
Proof.
  intros self_output y e predicted Hp Ht Hnp Hnt Hwp _.
  destruct (errors_eval self_output y e Hp Ht Hnp Hnt Hwp Hwp eq_refl) as (c & Hc & Hv).
  exists c. split; [exact Hc |]. rewrite Hv. do 2 f_equal.
  unfold stated.absolute_mean_error.
  rewrite zip_with_diag.
  rewrite sum_list_zeros. unfold Rdiv. rewrite Rmult_0_l. apply Rabs_R0.
Qed.

Lemma errors_zero_on_exact_prediction_witness :
  let target := mk_ndarray [2; 1]%nat [1; 4] in
  let e := mk_env example2.initial_store target target in
  exists c, errors x y = Ok c /\ eval c e = Ok (scalar 0).
Proof.
  intros target e.
  apply (@errors_zero_on_exact_prediction x y e target
           eq_refl eq_refl eq_refl eq_refl eq_refl).
  discriminate.
Defined.








(** ** The cost of [main] *)

Lemma sum_abs_eval (p : SharedVariable) (e : env) :
  eval (T_sum (T_abs (variable p))) e
  = Ok (scalar (sum_list (map Rabs (data (shareds e (name p)))))).
Proof. reflexivity. Qed.

Lemma sum_sqr_eval (p : SharedVariable) (e : env) :
  eval (T_sum (T_sqr (variable p))) e
  = Ok (scalar (sum_list (map (fun v => v * v) (data (shareds e (name p)))))).
Proof. reflexivity. Qed.

Lemma add_scalars_eval (a b : TensorVariable) (e : env) (u v : R) :
  eval a e = Ok (scalar u) ->
  eval b e = Ok (scalar v) ->
  eval (T_add a b) e = Ok (scalar (u + v)).
Proof. intros Ha Hb. cbn [T_add lift2 eval]. rewrite Ha, Hb. reflexivity. Qed.

(** The two penalties enter the cost with weight 0.0. *)
Lemma regularised_eval (err L1 L2_sqr : TensorVariable) (e : env) (a : ndarray)
    (l1 l2 : R) :
  eval (T_abs (T_mean err)) e = Ok a ->
  eval L1 e = Ok (scalar l1) ->
  eval L2_sqr e = Ok (scalar l2) ->
  eval (regularised (T_abs (T_mean err)) L1 L2_sqr) e = Ok a.
Proof.
  intros Ha H1 H2.
  assert (Hscalar : exists v, a = scalar v).
  { revert Ha. cbn [T_abs T_mean lift1 eval].
    destruct (eval err e) as [d | ?]; cbn [bind]; [| discriminate].
    intros Ha. injection Ha as <-. eexists. reflexivity. }
  destruct Hscalar as (v & ->).
  remember (T_abs (T_mean err)) as E eqn:HE. clear HE.
  unfold regularised. cbn [T_add T_mul lift2 constant eval].
  rewrite Ha, H1, H2. cbn. unfold scalar. do 3 f_equal. ring.
Qed.

Lemma sum_abs_nonneg (l : list R) : 0 <= sum_list (map Rabs l).
Proof.
  unfold sum_list. induction l as [| a l IH]; cbn; [lra |].
  pose proof (Rabs_pos a). lra.
Qed.

Lemma sum_sqr_nonneg (l : list R) : 0 <= sum_list (map (fun v => v * v) l).
Proof.
  unfold sum_list. induction l as [| a l IH]; cbn; [lra |].
  pose proof (Rle_0_sqr a) as Ha. unfold Rsqr in Ha. lra.
Qed.

(** The penalties of a classifier of example3.py evaluate to numbers that
    are not negative. *)
Lemma example3_penalties_eval (engine : TensorEngine) (input : TensorVariable)
    (input_shape : list Z) (filter_shapes : list (list Z)) (strides : list Z)
    (n_hidden n_out : Z) (cl : example3.MLP_object) (e : env) :
  example3.MLP input input_shape filter_shapes strides n_hidden n_out = Ok cl ->
  exists l1 l2,
    eval (example3.L1 cl) e = Ok (scalar l1) /\
    eval (example3.L2_sqr cl) e = Ok (scalar l2) /\
    0 <= l1 /\ 0 <= l2.
Proof.
  unfold example3.MLP.
  destruct (Py.getitem filter_shapes 0); cbn [bind]; [| discriminate].
  destruct (Py.getitem strides 0); cbn [bind]; [| discriminate].
  destruct (example3.ConvolutionalLayer input a input_shape a0) as [conv |];
    cbn [bind]; [| discriminate].
  destruct (example3.HiddenLayer hidden_layer
              (flatten (example3.output (example3.layer conv)) 2)
              (example3.fan_out conv) n_hidden) as [hidden |];
    cbn [bind]; [| discriminate].
  destruct (example3.OutputLayer output_layer (example3.output hidden) n_hidden n_out)
    as [out |]; cbn [bind]; [| discriminate].
  intros H. injection H as <-. cbn [example3.L1 example3.L2_sqr].
  eexists. eexists. split; [| split; [| split]].
  - apply add_scalars_eval; [apply add_scalars_eval |]; apply sum_abs_eval.
  - apply add_scalars_eval; [apply add_scalars_eval |]; apply sum_sqr_eval.
  - repeat apply Rplus_le_le_0_compat; apply sum_abs_nonneg.
  - repeat apply Rplus_le_le_0_compat; apply sum_sqr_nonneg.
Qed.

(** X4.  In both scripts the cost that [main] compiles evaluates to what
    [errors] evaluates to, on every environment on which [errors]
    evaluates: the penalties [L1] and [L2_sqr] contribute nothing. *)
Theorem cost_is_errors :
  forall (engine : TensorEngine) (e : env),
    (exists c err,
       example2.cost = Ok c /\
       errors (output (example2.output_layer_of example2.classifier)) y = Ok err /\
       forall a, eval err e = Ok a -> eval c e = Ok a) /\
    (exists cl c err,
       example3.cost = Ok (cl, c) /\
       errors (example3.output (example3.output_layer_of cl)) y = Ok err /\
       forall a, eval err e = Ok a -> eval c e = Ok a).
Proof.
  intros engine e. split.
  - eexists. eexists. split; [reflexivity |]. split; [reflexivity |].
    intros a Ha.
    apply regularised_eval with
      (l1 := sum_list (map Rabs (data (shareds e (W_of hidden_layer))))
             + sum_list (map Rabs (data (shareds e (W_of output_layer)))))
      (l2 := sum_list (map (fun v => v * v) (data (shareds e (W_of hidden_layer))))
             + sum_list (map (fun v => v * v) (data (shareds e (W_of output_layer))))).
    + exact Ha.
    + apply add_scalars_eval; reflexivity.
    + apply add_scalars_eval; reflexivity.
  - destruct (example3_cost_built engine) as (cl & c & Hc & Hnames).
    exists cl, c.
    assert (Hc' := Hc). unfold example3.cost in Hc'.
    unfold example3.classifier in Hc'.
    destruct (example3.MLP (reshape x [1; 1; 84; 84]%Z) [1; 1; 84; 84]%Z
                [[16; 1; 8; 8]%Z] [4%Z] 40 1) as [cl' |] eqn:Hcl;
      cbn [bind] in Hc'; [| discriminate].
    destruct (errors (example3.output (example3.output_layer_of cl')) y)
      as [err |] eqn:Herr; cbn [bind] in Hc'; [| discriminate].
    injection Hc' as <- <-.
    exists err. split; [exact Hc |]. split; [exact Herr |].
    intros a Ha.
    unfold errors in Herr.
    destruct (negb (tv_ndim y =? tv_ndim (example3.output (example3.output_layer_of cl')))%nat);
      [discriminate |].
    injection Herr as <-.
    destruct (@example3_penalties_eval _ _ _ _ _ _ _ _ e Hcl) as (l1 & l2 & H1 & H2 & _).
    now apply regularised_eval with l1 l2.
Qed.

Lemma cost_is_errors_witness :
  let e := mk_env example2.initial_store
                  (mk_ndarray [4; 2]%nat [0; 0; 0; 1; 1; 1; 1; 0])
                  (mk_ndarray [4; 1]%nat [0; 0; 1; 0]) in
  exists c err,
    example2.cost = Ok c /\
    errors (output (example2.output_layer_of example2.classifier)) y = Ok err /\
    (eval err e = Ok (scalar 3) -> eval c e = Ok (scalar 3)).
Proof.
  intros e.
  destruct (@cost_is_errors fixtures.unit_gradient_engine e)
    as ((c & err & Hc & Herr & Hsame) & _).
  exists c, err. split; [exact Hc |]. split; [exact Herr |]. apply Hsame.
Defined.

(** ** The forward pass of an affine layer *)

Lemma flat_map_rows_length (f : nat -> list R) (c : nat) (l : list nat) :
  (forall i, length (f i) = c) ->
  length (flat_map f l) = (length l * c)%nat.
Proof.
  intros Hf. induction l as [| a l IH]; cbn; [reflexivity |].
  now rewrite length_app, Hf, IH.
Qed.

Lemma nth_flat_map_rows (f : nat -> list R) (c : nat) (l : list nat) (i j : nat) :
  (forall k, length (f k) = c) ->
  (i < length l)%nat -> (j < c)%nat ->
  nth (i * c + j) (flat_map f l) 0 = nth j (f (nth i l 0%nat)) 0.
Proof.
  intros Hf. revert i. induction l as [| a l IH]; intros i Hi Hj; cbn in Hi; [lia |].
  cbn [flat_map]. destruct i as [| i].
  - cbn [Nat.mul Nat.add nth]. apply app_nth1. now rewrite Hf.
  - rewrite app_nth2 by (rewrite Hf; cbn; lia).
    rewrite Hf. replace (S i * c + j - c)%nat with (i * c + j)%nat by (cbn; lia).
    cbn [nth]. apply IH; lia.
Qed.

Lemma concat_repeat_length (l : list R) (r : nat) :
  length (concat (repeat l r)) = (r * length l)%nat.
Proof. induction r as [| r IH]; cbn; [reflexivity |]. now rewrite length_app, IH. Qed.

Lemma nth_concat_repeat (l : list R) (r i j : nat) :
  (i < r)%nat -> (j < length l)%nat ->
  nth (i * length l + j) (concat (repeat l r)) 0 = nth j l 0.
Proof.
  revert i. induction r as [| r IH]; intros i Hi Hj; [lia |].
  cbn [repeat concat]. destruct i as [| i].
  - cbn [Nat.mul Nat.add]. now apply app_nth1.
  - rewrite app_nth2 by (cbn; lia).
    replace (S i * length l + j - length l)%nat with (i * length l + j)%nat
      by (cbn; lia).
    apply IH; lia.
Qed.

Lemma nth_zip_with (f : R -> R -> R) (l1 l2 : list R) (k : nat) :
  (k < length l1)%nat -> (k < length l2)%nat ->
  nth k (zip_with f l1 l2) 0 = f (nth k l1 0) (nth k l2 0).
Proof.
  revert l2 k. induction l1 as [| a l1 IH]; intros [| b l2] k H1 H2; cbn in *; try lia.
  destruct k as [| k]; [reflexivity |]. apply IH; lia.
Qed.

Lemma zip_with_length_min (f : R -> R -> R) (l1 l2 : list R) :
  length (zip_with f l1 l2) = Nat.min (length l1) (length l2).
Proof.
  revert l2. induction l1 as [| a l1 IH]; intros [| b l2]; cbn; try reflexivity.
  now rewrite IH.
Qed.

Lemma nth_map_seq (g : nat -> R) (c j : nat) :
  (j < c)%nat -> nth j (map g (seq 0 c)) 0 = g j.
Proof.
  intros Hj.
  rewrite (nth_indep _ 0 (g 0%nat)) by (now rewrite length_map, length_seq).
  rewrite (map_nth g). now rewrite seq_nth by exact Hj.
Qed.

(** The product of an r x k matrix with a k x c matrix. *)
Lemma dot_matrices (a w : ndarray) (r k c : nat) :
  shape a = [r; k] -> shape w = [k; c] ->
  exists d,
    dot a w = Ok d /\ shape d = [r; c] /\ length (data d) = (r * c)%nat /\
    forall i j, (i < r)%nat -> (j < c)%nat ->
      item d (i * c + j)
      = sum_list (map (fun l => item a (i * k + l) * item w (l * c + j)) (seq 0 k)).
Proof.
  intros Ha Hw. unfold dot. rewrite Ha, Hw, Nat.eqb_refl.
  eexists. split; [reflexivity |]. split; [reflexivity |]. split.
  - cbn [data]. rewrite flat_map_rows_length with (c := c).
    + now rewrite length_seq.
    + intros i. now rewrite length_map, length_seq.
  - intros i j Hi Hj. unfold item at 1. cbn [data].
    rewrite nth_flat_map_rows with (c := c); try assumption.
    + rewrite seq_nth by exact Hi. cbn [Nat.add].
      now rewrite nth_map_seq by exact Hj.
    + intros i0. now rewrite length_map, length_seq.
    + now rewrite length_seq.
Qed.

(** The affine map of a layer has the rows of its input and the columns
    of its weights. *)
Lemma affine_eval :
  forall (self : layer_id) (input : TensorVariable) (n_in n_nodes : nat)
         (e : env) (a : ndarray) (r : nat),
    eval input e = Ok a ->
    shape a = [r; n_in] ->
    shape (shareds e (W_of self)) = [n_in; n_nodes] ->
    shape (shareds e (b_of self)) = [n_nodes] ->
    well_formed (shareds e (b_of self)) ->
    exists out,
      eval (output (example2.HiddenLayer self input n_in n_nodes)) e = Ok out /\
      shape out = [r; n_nodes] /\
      well_formed out.
Proof.
  intros self input n_in n_nodes e a r Ha Hsa HsW Hsb Hwb.
  destruct (dot_matrices a (shareds e (W_of self)) Hsa HsW)
    as (d & Hd & Hsd & Hld & _).
  assert (Hlb : length (data (shareds e (b_of self))) = n_nodes).
  { unfold well_formed in Hwb. rewrite Hwb, Hsb. cbn. lia. }
  cbn [example2.HiddenLayer output T_add T_dot lift2 variable shared_var
       shared_of_rank name eval].
  rewrite Ha. cbn [bind]. rewrite Hd. cbn [bind].
  unfold elemwise. rewrite Hsd, Hsb.
  assert (Hne : shape_eqb [r; n_nodes] [n_nodes] = false).
  { unfold shape_eqb. destruct (list_eq_dec Nat.eq_dec [r; n_nodes] [n_nodes]);
      [discriminate | reflexivity]. }
  rewrite Hne, Nat.eqb_refl.
  eexists. split; [reflexivity |]. split; [reflexivity |].
  unfold well_formed. cbn [data shape prod fold_right].
  rewrite zip_with_length_min, Hld, concat_repeat_length, Hlb. lia.
Qed.

(** X5.  [HiddenLayer.output] on an r x n_in input, with weights of shape
    (n_in, n_nodes) and a bias of n_nodes entries, is an r x n_nodes matrix
    whose entry (i, j) is [sum_k input[i,k] * W[k,j] + b[j]]. *)
Theorem HiddenLayer_forward :
  forall (self : layer_id) (input : TensorVariable) (n_in n_nodes : nat)
         (e : env) (a : ndarray) (r : nat),
    eval input e = Ok a ->
    shape a = [r; n_in] ->
    shape (shareds e (W_of self)) = [n_in; n_nodes] ->
    shape (shareds e (b_of self)) = [n_nodes] ->
    well_formed (shareds e (b_of self)) ->
    exists out,
      eval (output (example2.HiddenLayer self input n_in n_nodes)) e = Ok out /\
      shape out = [r; n_nodes] /\
      well_formed out /\
      forall i j, (i < r)%nat -> (j < n_nodes)%nat ->
        item out (i * n_nodes + j)
        = sum_list (map (fun l => item a (i * n_in + l)
                                  * item (shareds e (W_of self)) (l * n_nodes + j))
                        (seq 0 n_in))
          + item (shareds e (b_of self)) j.
Proof.
  intros self input n_in n_nodes e a r Ha Hsa HsW Hsb Hwb.
  destruct (dot_matrices a (shareds e (W_of self)) Hsa HsW)
    as (d & Hd & Hsd & Hld & Hentries).
  assert (Hlb : length (data (shareds e (b_of self))) = n_nodes).
  { unfold well_formed in Hwb. rewrite Hwb, Hsb. cbn. lia. }
  cbn [example2.HiddenLayer output T_add T_dot lift2 variable shared_var
       shared_of_rank name eval].
  rewrite Ha. cbn [bind]. rewrite Hd. cbn [bind].
  unfold elemwise. rewrite Hsd, Hsb.
  assert (Hne : shape_eqb [r; n_nodes] [n_nodes] = false).
  { unfold shape_eqb. destruct (list_eq_dec Nat.eq_dec [r; n_nodes] [n_nodes]);
      [discriminate | reflexivity]. }
  rewrite Hne, Nat.eqb_refl.
  eexists. split; [reflexivity |]. split; [reflexivity |]. split.
  - unfold well_formed. cbn [data shape prod fold_right].
    rewrite zip_with_length_min, Hld, concat_repeat_length, Hlb. lia.
  - intros i j Hi Hj. unfold item at 1. cbn [data].
    assert (Hlt : (i * n_nodes + j < r * n_nodes)%nat) by nia.
    rewrite nth_zip_with.
    + fold (item d (i * n_nodes + j)). rewrite Hentries by assumption.
      f_equal. rewrite <- Hlb at 1. apply nth_concat_repeat; [exact Hi | now rewrite Hlb].
    + now rewrite Hld.
    + now rewrite concat_repeat_length, Hlb.
Qed.

Lemma HiddenLayer_forward_witness :
  let e := mk_env example2.initial_store
                  (mk_ndarray [4; 2]%nat [0; 0; 0; 1; 1; 1; 1; 0])
                  (mk_ndarray [4; 1]%nat [0; 0; 1; 0]) in
  exists out,
    eval (output (example2.HiddenLayer hidden_layer x 2 1)) e = Ok out /\
    shape out = [4; 1]%nat /\ well_formed out.
Proof.
  intros e.
  destruct (@HiddenLayer_forward hidden_layer x 2%nat 1%nat e
              (mk_ndarray [4; 2]%nat [0; 0; 0; 1; 1; 1; 1; 0]) 4%nat
              eq_refl eq_refl eq_refl eq_refl eq_refl)
    as (out & Hout & Hs & Hw & _).
  exists out. split; [exact Hout |]. split; [exact Hs | exact Hw].
Defined.

(** ** What training writes *)

Lemma write_all_other (ups : updates_list) (vals : list ndarray) (st : store)
    (q : shared) :
  ~ In q (map (fun u => name (fst u)) ups) ->
  write_all ups vals st q = st q.
Proof.
  unfold write_all. revert vals st.
  induction ups as [| [p v] ups IH]; intros vals st Hq; [reflexivity |].
  destruct vals as [| a vals]; [reflexivity |].
  cbn [combine fold_left fst snd].
  rewrite IH by (intros H; apply Hq; now right).
  unfold set_value. destruct (shared_eq_dec q (name p)) as [-> | _]; [| reflexivity].
  elim Hq. now left.
Qed.

(** A compiled function writes the shared variables of its updates and no
    other. *)
Lemma function1_frame (c : TensorVariable) (ups : updates_list) (st st' : store)
    (index : Z) (cv : ndarray) (q : shared) :
  function1 c ups st index = Ok (cv, st') ->
  ~ In q (map (fun u => name (fst u)) ups) ->
  st' q = st q.
Proof.
  unfold function1, function. intros Hrun Hq.
  destruct (givens st index) as [batch |]; cbn [bind] in Hrun; [| discriminate].
  destruct (negb _); [discriminate |].
  destruct (eval_all _ [c]) as [outs |]; cbn [bind] in Hrun; [| discriminate].
  destruct (eval_all _ (map snd ups)) as [vals |]; cbn [bind fst snd] in Hrun;
    [| discriminate].
  destruct outs as [| o [| ? ?]]; try discriminate.
  injection Hrun as _ <-. now apply write_all_other.
Qed.

Lemma make_updates_names (engine : TensorEngine) (c : TensorVariable) (lr : R)
    (params : list SharedVariable) :
  map (fun u => name (fst u))
      (make_updates lr params (map (fun param => grad c param) params))
  = map name params.
Proof. rewrite make_updates_map, map_map. reflexivity. Qed.

Lemma example2_train_model_frame (engine : TensorEngine) (st st' : store)
    (index : Z) (cv : ndarray) (q : shared) :
  example2.train_model st index = Ok (cv, st') ->
  ~ In q [W_of hidden_layer; b_of hidden_layer; W_of output_layer; b_of output_layer] ->
  st' q = st q.
Proof.
  unfold example2.train_model. destruct example2_cost_built as (c & Hc & _).
  rewrite Hc. cbn [bind]. intros Hrun Hq.
  eapply function1_frame; [exact Hrun |].
  unfold example2.updates, example2.gparams. now rewrite make_updates_names.
Qed.

Lemma example3_train_model_frame (engine : TensorEngine) (st st' : store)
    (index : Z) (cv : ndarray) (q : shared) :
  example3.train_model st index = Ok (cv, st') ->
  q = train_set_x \/ q = train_set_y ->
  st' q = st q.
Proof.
  unfold example3.train_model.
  destruct (example3_cost_built engine) as (cl & c & Hc & Hnames).
  rewrite Hc. cbn [bind fst snd]. intros Hrun Hq.
  eapply function1_frame; [exact Hrun |].
  unfold example3.updates, example3.grads. rewrite make_updates_names, Hnames.
  cbn. destruct Hq as [-> | ->]; intuition discriminate.
Qed.

(** X6.  However long the loops of the two scripts run, they never write
    the data sets; the loop of example2.py writes nothing but the weights
    and the bias of its two layers. *)
Theorem training_keeps_the_data :
  forall (engine : TensorEngine) (n : nat) (st st' : store),
    (example2.train_loop n st = Ok st' ->
     forall q, ~ In q [W_of hidden_layer; b_of hidden_layer;
                       W_of output_layer; b_of output_layer] ->
               st' q = st q) /\
    (example3_main.train_loop n st = Ok st' ->
     st' train_set_x = st train_set_x /\ st' train_set_y = st train_set_y).
Proof.
  intros engine n. induction n as [| n IH]; intros st st'.
  - split; intros H; injection H as <-; auto.
  - split.
    + cbn [example2.train_loop]. intros Hrun q Hq.
      destruct (example2.train_model st 0) as [[cv st1] |] eqn:Hstep;
        cbn [bind snd] in Hrun; [| discriminate].
      rewrite (proj1 (IH st1 st') Hrun q Hq).
      eapply example2_train_model_frame; eassumption.
    + cbn [example3_main.train_loop]. intros Hrun.
      destruct (example3.train_model st 0) as [[cv0 st1] |] eqn:Hstep0;
        cbn [bind snd] in Hrun; [| discriminate].
      destruct (example3.train_model st1 1) as [[cv1 st2] |] eqn:Hstep1;
        cbn [bind snd] in Hrun; [| discriminate].
      destruct (example3_main.test_model st2 0); cbn [bind] in Hrun; [| discriminate].
      destruct (example3_main.test_model st2 1); cbn [bind] in Hrun; [| discriminate].
      destruct (proj2 (IH st2 st') Hrun) as (Hx & Hy).
      rewrite Hx, Hy.
      split.
      * transitivity (st1 train_set_x);
          eapply example3_train_model_frame; eauto.
      * transitivity (st1 train_set_y);
          eapply example3_train_model_frame; eauto.
Qed.

Lemma example2_first_step :
  exists st',
    @example2.train_model fixtures.unit_gradient_engine example2.initial_store 0
    = Ok (scalar 3, st').
Proof.
  destruct example2_cost_built as (c & Hc & _).
  destruct (@descent_step fixtures.unit_gradient_engine c example2.learning_rate
              (example2.MLP_params example2.classifier) example2.initial_store 0%Z
              (mk_ndarray [4; 2]%nat [0; 0; 0; 1; 1; 1; 1; 0])
              (mk_ndarray [4; 1]%nat [0; 0; 1; 0]) (scalar 3))
    as (st' & Hrun & _).
  - cbn. repeat constructor; cbn; intuition discriminate.
  - reflexivity.
  - reflexivity.
  - reflexivity.
  - now apply example2_first_cost.
  - apply unit_gradients_available.
  - exists st'. unfold example2.train_model, example2.updates, example2.gparams.
    rewrite Hc. exact Hrun.
Qed.

Lemma training_keeps_the_data_witness :
  exists st',
    @example2.train_loop fixtures.unit_gradient_engine 1 example2.initial_store = Ok st' /\
    st' train_set_x = example2.initial_store train_set_x /\
    st' train_set_y = example2.initial_store train_set_y.
Proof.
  destruct example2_first_step as (st' & Hstep).
  assert (Hloop : @example2.train_loop fixtures.unit_gradient_engine 1
                    example2.initial_store = Ok st').
  { cbn [example2.train_loop]. rewrite Hstep. reflexivity. }
  exists st'. split; [exact Hloop |].
  destruct (@training_keeps_the_data fixtures.unit_gradient_engine 1%nat
              example2.initial_store st') as (Hframe & _).
  split; apply (Hframe Hloop); cbn; intuition discriminate.
Defined.

(** X7.  [train_model(i)] of either script raises [IndexError] when [i]
    lies outside [-n, n), [n] being the number of batches; on an empty
    data set the loop of example2.py fails at its first iteration. *)
Theorem train_model_index_out_of_range :
  forall (engine : TensorEngine) (st : store) (n : nat) (rest : list nat) (i : Z),
    shape (st train_set_x) = n :: rest ->
    (i < - Z.of_nat n \/ Z.of_nat n <= i)%Z ->
    example2.train_model st i = Raise IndexError /\
    example3.train_model st i = Raise IndexError /\
    (n = 0%nat -> forall k, example2.train_loop (S k) st = Raise IndexError).
Proof.
  intros engine st n rest i Hs Hi.
  assert (Hgiv : forall j, (j < - Z.of_nat n \/ Z.of_nat n <= j)%Z ->
                           givens st j = Raise IndexError).
  { intros j Hj. unfold givens.
    now rewrite (proj2 (getitem_IndexError _ j Hs) Hj). }
  assert (H2 : forall j, (j < - Z.of_nat n \/ Z.of_nat n <= j)%Z ->
                         example2.train_model st j = Raise IndexError).
  { intros j Hj. unfold example2.train_model.
    destruct example2_cost_built as (c & Hc & _). rewrite Hc. cbn [bind].
    unfold function1, function. now rewrite (Hgiv j Hj). }
  split; [now apply H2 |]. split.
  - unfold example3.train_model.
    destruct (example3_cost_built engine) as (cl & c & Hc & _). rewrite Hc. cbn [bind].
    unfold function1, function. now rewrite (Hgiv i Hi).
  - intros -> k. cbn [example2.train_loop]. rewrite H2; [reflexivity |]. cbn. lia.
Qed.

Lemma train_model_index_out_of_range_witness :
  @example2.train_model fixtures.unit_gradient_engine example2.initial_store 2
  = Raise IndexError.
Proof.
  apply (@train_model_index_out_of_range fixtures.unit_gradient_engine
           example2.initial_store 2%nat [4; 2]%nat 2%Z eq_refl).
  right. cbn. lia.
Defined.

(** ** The constructors of example3.py *)

(** X9.  [HiddenLayer] and [OutputLayer] of example3.py raise
    [ZeroDivisionError] when [n_in + n_nodes] is 0, before anything is
    drawn. *)
Theorem dense_layers_divide_by_the_sizes :
  forall (self : layer_id) (input : TensorVariable) (n_in n_nodes : Z),
    (n_in + n_nodes = 0)%Z ->
    example3.HiddenLayer self input n_in n_nodes = Raise ZeroDivisionError /\
    example3.OutputLayer self input n_in n_nodes = Raise ZeroDivisionError.
Proof.
  intros self input n_in n_nodes H0.
  unfold example3.HiddenLayer, example3.OutputLayer, example3.float_div_int.
  rewrite H0. split; reflexivity.
Qed.

Lemma dense_layers_divide_by_the_sizes_witness :
  example3.HiddenLayer hidden_layer x 0 0 = Raise ZeroDivisionError /\
  example3.OutputLayer output_layer x 0 0 = Raise ZeroDivisionError.
Proof.
  exact (@dense_layers_divide_by_the_sizes hidden_layer x 0%Z 0%Z eq_refl).
Defined.

(** X10.  For sizes that are not negative and not both 0, the two dense
    layers of example3.py draw with the same two numbers,
    [sqrt(6/(n_in+n_nodes))] and its opposite, and [OutputLayer] passes
    them the other way round: its [low] is the [high] of [HiddenLayer], and
    its [high] the [low]. *)
Theorem OutputLayer_swaps_the_interval :
  forall (self : layer_id) (input : TensorVariable) (n_in n_nodes : Z),
    (0 <= n_in)%Z -> (0 <= n_nodes)%Z -> (0 < n_in + n_nodes)%Z ->
    exists h o,
      example3.HiddenLayer self input n_in n_nodes = Ok h /\
      example3.OutputLayer self input n_in n_nodes = Ok o /\
      example3.high (example3.W_draw h) = sqrt (6 / IZR (n_in + n_nodes)) /\
      example3.low (example3.W_draw h) = - sqrt (6 / IZR (n_in + n_nodes)) /\
      example3.low (example3.W_draw h) < example3.high (example3.W_draw h) /\
      example3.low (example3.W_draw o) = example3.high (example3.W_draw h) /\
      example3.high (example3.W_draw o) = example3.low (example3.W_draw h) /\
      example3.size (example3.W_draw o) = example3.size (example3.W_draw h).
Proof.
  intros self input n_in n_nodes Hin Hnodes Hpos.
  assert (Hb : 0 < sqrt (6 / IZR (n_in + n_nodes))).
  { apply sqrt_lt_R0. apply Rdiv_lt_0_compat; [lra | now apply IZR_lt]. }
  eexists. eexists.
  split; [apply HiddenLayer_built; lia |]. split; [apply OutputLayer_built; lia |].
  cbn [example3.W_draw example3.high example3.low example3.size].
  repeat split; try lra.
Qed.

Lemma OutputLayer_swaps_the_interval_witness :
  exists h o,
    example3.HiddenLayer output_layer x 40 1 = Ok h /\
    example3.OutputLayer output_layer x 40 1 = Ok o /\
    example3.low (example3.W_draw o) = example3.high (example3.W_draw h) /\
    example3.high (example3.W_draw o) = example3.low (example3.W_draw h).
Proof.
  destruct (@OutputLayer_swaps_the_interval output_layer x 40%Z 1%Z
              ltac:(lia) ltac:(lia) ltac:(lia))
    as (h & o & Hh & Ho & _ & _ & _ & Hlow & Hhigh & _).
  exists h, o. repeat split; assumption.
Defined.

Lemma getitem_short {A : Type} (l : list A) (k : nat) :
  (length l <= k)%nat -> Py.getitem l k = Raise IndexError.
Proof.
  intros H. unfold Py.getitem.
  now rewrite (proj2 (nth_error_None l k) H).
Qed.

Lemma getitem_long {A : Type} (l : list A) (k : nat) :
  (k < length l)%nat -> exists a, Py.getitem l k = Ok a.
Proof.
  intros H. unfold Py.getitem.
  destruct (nth_error l k) as [a |] eqn:Hn; [now exists a |].
  apply nth_error_None in Hn. lia.
Qed.

(** X11.  [ConvolutionalLayer] fails with [IndexError] on a shape too
    short for the entries it reads (two for the assertion, three after it)
    and, once the assertion has passed on shapes of three entries or more,
    with [ZeroDivisionError] on a stride of 0. *)
Theorem ConvolutionalLayer_failures :
  forall (engine : TensorEngine) (input_images : TensorVariable)
         (filter_shape image_shape : list Z) (stride : Z),
    ((length image_shape < 2)%nat \/ (length filter_shape < 2)%nat ->
     example3.ConvolutionalLayer input_images filter_shape image_shape stride
     = Raise IndexError) /\
    (forall maps,
       Py.getitem image_shape 1 = Ok maps ->
       Py.getitem filter_shape 1 = Ok maps ->
       (length image_shape < 3)%nat \/ (length filter_shape < 3)%nat ->
       example3.ConvolutionalLayer input_images filter_shape image_shape stride
       = Raise IndexError) /\
    (forall maps,
       Py.getitem image_shape 1 = Ok maps ->
       Py.getitem filter_shape 1 = Ok maps ->
       (3 <= length image_shape)%nat ->
       (3 <= length filter_shape)%nat ->
       stride = 0%Z ->
       example3.ConvolutionalLayer input_images filter_shape image_shape stride
       = Raise ZeroDivisionError).
Proof.
  intros engine input_images filter_shape image_shape stride.
  split; [| split].
  - intros Hshort. unfold example3.ConvolutionalLayer.
    destruct (Nat.lt_ge_cases (length image_shape) 2) as [Hi | Hi].
    + rewrite getitem_short by lia. reflexivity.
    + destruct (getitem_long image_shape (k := 1)) as (m & Hm); [lia |].
      rewrite Hm. cbn [bind].
      rewrite getitem_short by (destruct Hshort; lia). reflexivity.
  - intros maps Hi Hf Hshort. unfold example3.ConvolutionalLayer.
    rewrite Hi, Hf. cbn [bind]. rewrite Z.eqb_refl. cbn [assert bind].
    destruct (Nat.lt_ge_cases (length image_shape) 3) as [Hi3 | Hi3].
    + rewrite (getitem_short image_shape (k := 2)) by lia. reflexivity.
    + destruct (getitem_long image_shape (k := 2)) as (h & Hh); [lia |].
      rewrite Hh. cbn [bind].
      rewrite (getitem_short filter_shape (k := 2)) by (destruct Hshort; lia).
      reflexivity.
  - intros maps Hi Hf Hi3 Hf3 ->. unfold example3.ConvolutionalLayer.
    rewrite Hi, Hf. cbn [bind]. rewrite Z.eqb_refl. cbn [assert bind].
    destruct (getitem_long image_shape (k := 2)) as (h & Hh); [lia |].
    destruct (getitem_long filter_shape (k := 2)) as (h' & Hh'); [lia |].
    rewrite Hh, Hh'. reflexivity.
Qed.

Lemma ConvolutionalLayer_failures_witness :
  @example3.ConvolutionalLayer fixtures.unit_gradient_engine x
    [16; 1; 8; 8]%Z [84]%Z 4 = Raise IndexError /\
  @example3.ConvolutionalLayer fixtures.unit_gradient_engine x
    [16; 1]%Z [1; 1; 84; 84]%Z 4 = Raise IndexError /\
  @example3.ConvolutionalLayer fixtures.unit_gradient_engine x
    [16; 1; 8; 8]%Z [1; 1; 84; 84]%Z 0 = Raise ZeroDivisionError.
Proof.
  split; [| split].
  - apply (@ConvolutionalLayer_failures fixtures.unit_gradient_engine x
             [16; 1; 8; 8]%Z [84]%Z 4%Z). left. cbn. lia.
  - apply (proj1 (proj2 (@ConvolutionalLayer_failures fixtures.unit_gradient_engine x
                           [16; 1]%Z [1; 1; 84; 84]%Z 4%Z)) 1%Z eq_refl eq_refl).
    right. cbn. lia.
  - apply (proj2 (proj2 (@ConvolutionalLayer_failures fixtures.unit_gradient_engine x
                           [16; 1; 8; 8]%Z [1; 1; 84; 84]%Z 0%Z)) 1%Z eq_refl eq_refl);
      cbn; lia.
Defined.

(** X13.  The constructor compares neither the filter with the image nor
    a size with 0; numpy and the engine do, after the assertion and the
    division of the constructor have passed.  On shapes of four entries
    with the same number of feature maps, a stride other than 0 and sizes
    for which [fan_in + fan_out] is positive, a negative entry of the
    filter shape is refused by the draw with [ValueError]; without one and
    with a positive stride, a filter higher or wider than the image is
    refused by [conv2d] with [Exception]. *)
Theorem ConvolutionalLayer_refusals :
  forall (engine : TensorEngine) (input_images : TensorVariable)
         (n_filters maps fh fw batch ih iw stride : Z),
    stride <> 0%Z ->
    (0 < example3.np_prod [maps; fh; fw]
         + n_filters * (1 + (ih - fh) / stride) * (1 + (ih - fh) / stride))%Z ->
    ((n_filters < 0 \/ maps < 0 \/ fh < 0 \/ fw < 0)%Z ->
     example3.ConvolutionalLayer input_images
       [n_filters; maps; fh; fw] [batch; maps; ih; iw] stride = Raise ValueError) /\
    ((0 <= n_filters)%Z -> (0 <= maps)%Z -> (0 <= fh)%Z -> (0 <= fw)%Z ->
     (0 < stride)%Z -> (ih < fh \/ iw < fw)%Z ->
     example3.ConvolutionalLayer input_images
       [n_filters; maps; fh; fw] [batch; maps; ih; iw] stride = Raise Exception).
Proof.
  intros engine input_images n_filters maps fh fw batch ih iw stride Hs _.
  assert (Hrun : forall r,
            (W_draw <- example3.uniform
                         (sqrt (6 / IZR (example3.np_prod [maps; fh; fw]
                            + n_filters * (1 + (ih - fh) / stride)
                                        * (1 + (ih - fh) / stride))))
                         (- sqrt (6 / IZR (example3.np_prod [maps; fh; fw]
                            + n_filters * (1 + (ih - fh) / stride)
                                        * (1 + (ih - fh) / stride))))
                         [n_filters; maps; fh; fw] ;;
             b_shape <- example3.np_zeros [n_filters] ;;
             example3.conv2d_shapes [n_filters; maps; fh; fw] [batch; maps; ih; iw] stride ;;;
             Ok tt) = Raise r ->
            example3.ConvolutionalLayer input_images
              [n_filters; maps; fh; fw] [batch; maps; ih; iw] stride = Raise r).
  { intros r. unfold example3.ConvolutionalLayer.
    cbn [Py.getitem nth_error bind tl]. rewrite Z.eqb_refl. cbn [assert bind].
    unfold int_div. destruct (Z.eqb_spec stride 0) as [H0 | _]; [contradiction |].
    cbn [bind].
    destruct (example3.uniform _ _ _) as [d |]; cbn [bind];
      [| intros H; injection H as ->; reflexivity].
    destruct (example3.np_zeros _) as [bs |]; cbn [bind];
      [| intros H; injection H as ->; reflexivity].
    destruct (example3.conv2d_shapes _ _ _) as [[] |]; cbn [bind];
      [discriminate | intros H; injection H as ->; reflexivity]. }
  split.
  - intros Hneg. apply Hrun. unfold example3.uniform.
    destruct (example3.dimensions_ok [n_filters; maps; fh; fw]) eqn:Hd; [| reflexivity].
    apply dimensions_ok_spec in Hd.
    inversion Hd as [| ? ? Hge1 Hd1]. inversion Hd1 as [| ? ? Hge2 Hd2].
    inversion Hd2 as [| ? ? Hge3 Hd3]. inversion Hd3 as [| ? ? Hge4 _]. lia.
  - intros Hn Hm Hfh Hfw Hpos Hbig. apply Hrun.
    unfold example3.uniform, example3.np_zeros.
    rewrite (proj2 (dimensions_ok_spec [n_filters; maps; fh; fw]))
      by (repeat constructor; assumption).
    cbn [bind].
    rewrite (proj2 (dimensions_ok_spec [n_filters])) by (repeat constructor; assumption).
    cbn [bind].
    unfold example3.conv2d_shapes, example3.filter_fits. cbn [skipn].
    destruct (Z.ltb_spec 0 stride) as [_ | Hle]; [| lia].
    destruct (Z.leb_spec fh ih) as [Hh | _]; cbn [andb negb bind]; [| reflexivity].
    destruct (Z.leb_spec fw iw) as [Hw | _]; cbn [andb negb bind]; [lia | reflexivity].
Qed.

Lemma ConvolutionalLayer_refusals_witness :
  @example3.ConvolutionalLayer fixtures.unit_gradient_engine x
    [-1; 1; 80; 80]%Z [1; 1; 84; 84]%Z 4 = Raise ValueError /\
  @example3.ConvolutionalLayer fixtures.unit_gradient_engine x
    [16; 1; 13; 13]%Z [1; 1; 4; 4]%Z 4 = Raise Exception.
Proof.
  split.
  - apply (@ConvolutionalLayer_refusals fixtures.unit_gradient_engine x
             (-1)%Z 1%Z 80%Z 80%Z 1%Z 84%Z 84%Z 4%Z); first [lia | reflexivity].
  - apply (@ConvolutionalLayer_refusals fixtures.unit_gradient_engine x
             16%Z 1%Z 13%Z 13%Z 1%Z 4%Z 4%Z 4%Z); first [lia | reflexivity].
Defined.

(** X14.  A convolutional layer that is built with [fan_in + fan_out]
    positive has the bound [W_bound = sqrt(6/(fan_in + fan_out))], which is
    positive, and its weights are drawn, in the shape of the filters, from
    the interval of that bound: [low = -W_bound] and [high = W_bound], with
    [low] below [high]. *)
Theorem ConvolutionalLayer_interval :
  forall (engine : TensorEngine) (input_images : TensorVariable)
         (filter_shape image_shape : list Z) (stride : Z) (l : example3.ConvLayer),
    example3.ConvolutionalLayer input_images filter_shape image_shape stride = Ok l ->
    (0 < example3.fan_in l + example3.fan_out l)%Z ->
    example3.W_bound (example3.layer l)
    = sqrt (6 / IZR (example3.fan_in l + example3.fan_out l)) /\
    0 < example3.W_bound (example3.layer l) /\
    example3.low (example3.W_draw (example3.layer l))
    = - sqrt (6 / IZR (example3.fan_in l + example3.fan_out l)) /\
    example3.high (example3.W_draw (example3.layer l))
    = sqrt (6 / IZR (example3.fan_in l + example3.fan_out l)) /\
    example3.low (example3.W_draw (example3.layer l))
    < example3.high (example3.W_draw (example3.layer l)) /\
    example3.size (example3.W_draw (example3.layer l)) = filter_shape.
Proof.
  intros engine input_images filter_shape image_shape stride l Hl Hpos.
  apply ConvolutionalLayer_draw in Hl. destruct Hl as (Hb & Hlow & Hhigh & Hsize).
  assert (Hbound : 0 < sqrt (6 / IZR (example3.fan_in l + example3.fan_out l))).
  { apply sqrt_lt_R0. apply Rdiv_lt_0_compat; [lra | now apply IZR_lt]. }
  rewrite Hlow, Hhigh, Hb.
  repeat split; try assumption; lra.
Qed.

Lemma ConvolutionalLayer_interval_witness :
  exists l,
    @example3.ConvolutionalLayer fixtures.unit_gradient_engine x
      [16; 1; 8; 8]%Z [1; 1; 84; 84]%Z 4 = Ok l /\
    example3.W_bound (example3.layer l) = sqrt (6 / 6464) /\
    example3.low (example3.W_draw (example3.layer l)) = - sqrt (6 / 6464).
Proof.
  eexists. split; [reflexivity |].
  destruct (@ConvolutionalLayer_interval fixtures.unit_gradient_engine x
              [16; 1; 8; 8]%Z [1; 1; 84; 84]%Z 4%Z _ eq_refl)
    as (Hb & _ & Hlow & _).
  - cbn. lia.
  - split; [exact Hb | exact Hlow].
Defined.

(** X15.  In a classifier of example3.py the layers chain: the hidden
    layer draws a weight matrix with as many rows as the convolutional
    layer has outputs ([fan_out]) and [n_hidden] columns, the output layer
    one of [n_hidden] rows and [n_out] columns, and [params] lists the six
    shared variables, each once, hidden layer first and convolutional
    layer last. *)
Theorem MLP_layers_chain :
  forall (engine : TensorEngine) (input : TensorVariable) (input_shape : list Z)
         (filter_shapes : list (list Z)) (strides : list Z) (n_hidden n_out : Z)
         (cl : example3.MLP_object),
    example3.MLP input input_shape filter_shapes strides n_hidden n_out = Ok cl ->
    example3.size (example3.W_draw (example3.hidden_layer_of cl))
    = [example3.fan_out (example3.conv_layer_of cl); n_hidden] /\
    example3.b_shape (example3.hidden_layer_of cl) = [n_hidden] /\
    example3.size (example3.W_draw (example3.output_layer_of cl)) = [n_hidden; n_out] /\
    example3.b_shape (example3.output_layer_of cl) = [n_out] /\
    map name (example3.MLP_params cl)
    = [W_of hidden_layer; b_of hidden_layer; W_of output_layer; b_of output_layer;
       W_of conv_layer; b_of conv_layer] /\
    NoDup (map name (example3.MLP_params cl)).
Proof.
  intros engine input input_shape filter_shapes strides n_hidden n_out cl.
  unfold example3.MLP.
  destruct (Py.getitem filter_shapes 0) as [fs |]; cbn [bind]; [| discriminate].
  destruct (Py.getitem strides 0) as [stride |]; cbn [bind]; [| discriminate].
  destruct (example3.ConvolutionalLayer input fs input_shape stride) as [conv |] eqn:Hconv;
    cbn [bind]; [| discriminate].
  destruct (example3.HiddenLayer hidden_layer (flatten (example3.output (example3.layer conv)) 2)
              (example3.fan_out conv) n_hidden) as [h |] eqn:Hh;
    cbn [bind]; [| discriminate].
  destruct (example3.OutputLayer output_layer (example3.output h) n_hidden n_out)
    as [o |] eqn:Ho; cbn [bind]; [| discriminate].
  intros H. injection H as <-.
  destruct (HiddenLayer_Ok _ _ _ _ Hh) as (_ & _ & _ & Hh').
  rewrite Hh' in Hh. injection Hh as <-.
  destruct (OutputLayer_Ok _ _ _ _ Ho) as (_ & _ & _ & Ho').
  rewrite Ho' in Ho. injection Ho as <-.
  destruct (ConvolutionalLayer_Ok _ _ _ _ Hconv)
    as (m & ih & fh & n & _ & _ & _ & _ & _ & _ & _ & _ & _ & _ & _ & _ & _ & Hpar).
  cbn [example3.hidden_layer_of example3.output_layer_of example3.conv_layer_of
       example3.W_draw example3.size example3.b_shape example3.MLP_params
       example3.params].
  rewrite Hpar. cbn [map app name shared_of_rank].
  repeat split.
  repeat constructor; cbn; intuition discriminate.
Qed.

Lemma MLP_layers_chain_witness :
  exists cl,
    @example3.classifier fixtures.unit_gradient_engine = Ok cl /\
    example3.size (example3.W_draw (example3.hidden_layer_of cl))
    = [example3.fan_out (example3.conv_layer_of cl); 40%Z] /\
    example3.size (example3.W_draw (example3.output_layer_of cl)) = [40; 1]%Z.
Proof.
  destruct (example3_cost_built fixtures.unit_gradient_engine) as (cl & c & Hc & _).
  unfold example3.cost in Hc.
  destruct (@example3.classifier fixtures.unit_gradient_engine) as [cl' |] eqn:Hcl;
    cbn [bind] in Hc; [| discriminate].
  exists cl'. split; [reflexivity |].
  destruct (@MLP_layers_chain fixtures.unit_gradient_engine _ _ _ _ _ _ cl' Hcl)
    as (H1 & _ & H2 & _).
  split; [exact H1 | exact H2].
Defined.

(** X16.  [MLP] of example3.py fails with [IndexError] on an empty list of
    filter shapes or of strides, hands on what the convolutional layer
    raises, and fails with [ZeroDivisionError] when the hidden layer would
    have [fan_out + n_hidden = 0]. *)
Theorem MLP_failures :
  forall (engine : TensorEngine) (input : TensorVariable) (input_shape : list Z)
         (filter_shapes : list (list Z)) (strides : list Z) (n_hidden n_out : Z),
    (filter_shapes = [] \/ strides = [] ->
     example3.MLP input input_shape filter_shapes strides n_hidden n_out
     = Raise IndexError) /\
    (forall fs rest stride rest' err,
       filter_shapes = fs :: rest -> strides = stride :: rest' ->
       example3.ConvolutionalLayer input fs input_shape stride = Raise err ->
       example3.MLP input input_shape filter_shapes strides n_hidden n_out
       = Raise err) /\
    (forall fs rest stride rest' conv,
       filter_shapes = fs :: rest -> strides = stride :: rest' ->
       example3.ConvolutionalLayer input fs input_shape stride = Ok conv ->
       (example3.fan_out conv + n_hidden = 0)%Z ->
       example3.MLP input input_shape filter_shapes strides n_hidden n_out
       = Raise ZeroDivisionError).
Proof.
  intros engine input input_shape filter_shapes strides n_hidden n_out.
  split; [| split].
  - intros [-> | ->]; unfold example3.MLP; [reflexivity |].
    destruct filter_shapes; reflexivity.
  - intros fs rest stride rest' err -> -> Hconv. unfold example3.MLP.
    cbn [Py.getitem nth_error bind]. now rewrite Hconv.
  - intros fs rest stride rest' conv -> -> Hconv H0. unfold example3.MLP.
    cbn [Py.getitem nth_error bind]. rewrite Hconv. cbn [bind].
    unfold example3.HiddenLayer, example3.float_div_int. now rewrite H0.
Qed.

Lemma MLP_failures_witness :
  @example3.MLP fixtures.unit_gradient_engine x [1; 1; 84; 84]%Z [] [4%Z] 40 1
  = Raise IndexError /\
  @example3.MLP fixtures.unit_gradient_engine x [1; 1; 84; 84]%Z
    [[16; 1; 8; 8]%Z] [4%Z] (-6400) 1 = Raise ZeroDivisionError.
Proof.
  split.
  - apply (@MLP_failures fixtures.unit_gradient_engine x [1; 1; 84; 84]%Z
             [] [4%Z] 40%Z 1%Z). now left.
  - eapply (proj2 (proj2 (@MLP_failures fixtures.unit_gradient_engine x
                            [1; 1; 84; 84]%Z [[16; 1; 8; 8]%Z] [4%Z] (-6400)%Z 1%Z)));
      reflexivity.
Defined.

(** ** The other methods of [NeuralNet] *)

(** X17.  Once a [NeuralNet] is built, [get_data_dims] returns its
    [nr_inputs] at index 0 and its [nr_outputs] at index 1 and fails on its
    assertion at every other index; before any is built it fails at every
    index. *)
Theorem get_data_dims_after_init :
  forall (device : Type) (self : NeuralNet_py.NeuralNet device) (idx : Z),
    NeuralNet_py.get_data_dims (NeuralNet_py.dims_after_init self) 0
    = Ok (NeuralNet_py.nr_inputs self) /\
    NeuralNet_py.get_data_dims (NeuralNet_py.dims_after_init self) 1
    = Ok (NeuralNet_py.nr_outputs self) /\
    (idx <> 0%Z -> idx <> 1%Z ->
     NeuralNet_py.get_data_dims (NeuralNet_py.dims_after_init self) idx
     = Raise AssertionError) /\
    NeuralNet_py.get_data_dims None idx = Raise AssertionError.
Proof.
  intros device self idx. repeat split.
  intros H0 H1. apply get_data_dims_outside. cbn. lia.
Qed.

(** X18.  Whatever its arguments, a call of [train] that fails has made no
    call to the library and leaves the model as it was, and it fails with
    [AssertionError] or [IndexError]; the latter on a one-dimensional
    [inputs] that has the right number of rows. *)
Theorem train_failure_is_harmless :
  forall (device : Type) (lib : NeuralNet_py.LibModel device)
         (self : NeuralNet_py.NeuralNet device) (inputs outputs : ndarray) (e : exn),
    fst (NeuralNet_py.train self inputs outputs) = Raise e ->
    snd (NeuralNet_py.train self inputs outputs) = self /\
    (e = AssertionError \/ e = IndexError) /\
    (forall n k rest,
       shape inputs = [n] -> shape outputs = k :: rest ->
       Z.of_nat n = NeuralNet_py.nr_inputs self ->
       Z.of_nat k = NeuralNet_py.nr_outputs self ->
       e = IndexError).
Proof.
  intros device lib self inputs outputs e.
  unfold NeuralNet_py.train.
  destruct (NeuralNet_py.train_asserts self inputs outputs) as [u | e'] eqn:Ha;
    cbn [fst snd]; [discriminate |].
  intros H. injection H as <-.
  split; [reflexivity |]. split; [now apply (train_asserts_errors _ _ _ Ha) |].
  intros n k rest Hin Hout Hn Hk. revert Ha.
  unfold NeuralNet_py.train_asserts, Py.getitem, assert.
  rewrite Hin, Hout. cbn [nth_error bind].
  rewrite Hn, Hk, !Z.eqb_refl. cbn [bind]. intros H. now injection H as <-.
Qed.

Lemma train_failure_is_harmless_witness :
  let inputs := mk_ndarray [2]%nat [1; 2] in
  let outputs := mk_ndarray [1; 3]%nat [1; 0; 1] in
  snd (@NeuralNet_py.train nat fixtures.counting_library fixtures.small_net
         inputs outputs) = fixtures.small_net.
Proof.
  intros inputs outputs.
  apply (@train_failure_is_harmless nat fixtures.counting_library fixtures.small_net
           inputs outputs IndexError eq_refl).
Defined.

Lemma item_zeros (s : list nat) (k : nat) : item (zeros s) k = 0.
Proof.
  unfold item, zeros, full. cbn [data].
  destruct (Nat.lt_ge_cases k (prod s)) as [Hk | Hk].
  - now apply nth_repeat_lt.
  - apply nth_overflow. now rewrite repeat_length.
Qed.

Lemma flat_map_zero_rows (r : nat) (l : list nat) :
  flat_map (fun _ : nat => repeat 0 r) l = repeat 0 (length l * r).
Proof.
  induction l as [| a l IH]; cbn; [reflexivity |].
  now rewrite IH, repeat_app.
Qed.

Lemma map_zero (l : list nat) : map (fun _ : nat => 0) l = repeat 0 (length l).
Proof. induction l as [| a l IH]; cbn; [reflexivity | now rewrite IH]. Qed.

(** The transpose of a matrix of zeros. *)
Lemma transpose_zeros (r c : nat) :
  NeuralNet_methods.transpose (zeros [r; c]) = zeros [c; r].
Proof.
  unfold NeuralNet_methods.transpose. cbn [shape zeros full].
  unfold zeros, full. f_equal. cbn [prod fold_right].
  rewrite (flat_map_ext _ (fun _ : nat => repeat 0 r)).
  - rewrite flat_map_zero_rows, length_seq. f_equal. lia.
  - intros j. rewrite (map_ext _ (fun _ : nat => 0)).
    + now rewrite map_zero, length_seq.
    + intros i. apply (item_zeros [r; c]).
Qed.

Section predict_facts.

Import NeuralNet_py NeuralNet_methods.

Context {device : Type} {lib : LibModel device} {writer : FeatureWriter device}.
Variable self : NeuralNet device.

Lemma predict_prepare_errors (inputs : ndarray) (e : exn) :
  predict_prepare self inputs = Raise e ->
  e = IndexError \/ e = AssertionError \/ e = ValueError.
Proof.
  unfold predict_prepare, Py.getitem, assert, zeros2.
  destruct (nth_error (shape inputs) 0); cbn [bind];
    [| intros H; injection H as <-; auto].
  destruct (Z.of_nat n =? nr_inputs self)%Z; cbn [bind];
    [| intros H; injection H as <-; auto].
  destruct (nth_error (shape inputs) 1); cbn [bind];
    [| intros H; injection H as <-; auto].
  destruct (nr_outputs self <? 0)%Z; [intros H; injection H as <-; auto | discriminate].
Qed.

Lemma predict_prepare_ok (inputs : ndarray) (n m : nat) (rest : list nat) :
  shape inputs = n :: m :: rest ->
  Z.of_nat n = nr_inputs self ->
  (0 <= nr_outputs self)%Z ->
  predict_prepare self inputs = Ok (zeros [m; Z.to_nat (nr_outputs self)]).
Proof.
  intros Hs Hn Hk. unfold predict_prepare, Py.getitem, assert, zeros2.
  rewrite Hs. cbn [nth_error bind]. rewrite Hn, Z.eqb_refl. cbn [bind].
  destruct (Z.ltb_spec (nr_outputs self) 0); [lia | reflexivity].
Qed.

End predict_facts.

(** X19.  [predict] on an N x M array with [N = nr_inputs] hands the
    library the inputs, a [nr_outputs] x M array of zeros and the
    M x [nr_outputs] buffer, waits for the batch, and returns the buffer: an
    M x [nr_outputs] array holding what the library wrote. *)
Theorem predict_returns_the_buffer :
  forall (device : Type) (lib : NeuralNet_py.LibModel device)
         (writer : NeuralNet_methods.FeatureWriter device)
         (self : NeuralNet_py.NeuralNet device) (inputs : ndarray)
         (n m : nat) (rest : list nat),
    shape inputs = n :: m :: rest ->
    Z.of_nat n = NeuralNet_py.nr_inputs self ->
    (0 <= NeuralNet_py.nr_outputs self)%Z ->
    let k := Z.to_nat (NeuralNet_py.nr_outputs self) in
    let finished :=
      snd (NeuralNet_py.finishBatch_on
             (NeuralNet_methods.startFeatureWriter_on
                [inputs; zeros [k; m]] [zeros [m; k]]
                [NeuralNet_py.output_layer_name self]
                (NeuralNet_py.libmodel self))) in
    exists out,
      NeuralNet_methods.predict self inputs = (Ok out, finished) /\
      shape out = [m; k] /\
      well_formed out /\
      forall i, (i < m * k)%nat ->
                item out i = NeuralNet_methods.written_on finished i.
Proof.
  intros device lib writer self inputs n m rest Hs Hn Hk k finished.
  unfold NeuralNet_methods.predict.
  rewrite (predict_prepare_ok self inputs Hs Hn Hk).
  rewrite transpose_zeros. fold k. fold finished.
  eexists. split; [reflexivity |]. split; [reflexivity |].
  assert (Hlen : length (data (zeros [m; k])) = (m * k)%nat).
  { unfold zeros, full. cbn [data prod fold_right]. rewrite repeat_length. lia. }
  split.
  - unfold well_formed. cbn [data shape zeros full prod fold_right].
    rewrite length_map, length_seq, repeat_length. reflexivity.
  - intros i Hi. unfold item. cbn [data]. rewrite Hlen.
    rewrite (nth_indep _ 0 (NeuralNet_methods.written_on finished 0%nat))
      by (now rewrite length_map, length_seq).
    rewrite (map_nth (NeuralNet_methods.written_on finished)).
    now rewrite seq_nth by exact Hi.
Qed.

Lemma predict_returns_the_buffer_witness :
  exists out,
    fst (@NeuralNet_methods.predict nat fixtures.counting_library
           more_fixtures.counting_writer fixtures.small_net
           (mk_ndarray [2; 3]%nat [1; 2; 3; 4; 5; 6])) = Ok out /\
    shape out = [3; 1]%nat.
Proof.
  destruct (@predict_returns_the_buffer nat fixtures.counting_library
              more_fixtures.counting_writer fixtures.small_net
              (mk_ndarray [2; 3]%nat [1; 2; 3; 4; 5; 6]) 2%nat 3%nat []
              eq_refl eq_refl ltac:(cbn; lia))
    as (out & Hrun & Hshape & _).
  exists out. split; [now rewrite Hrun | exact Hshape].
Defined.

(** X20.  A call of [predict] that fails leaves the device untouched.  It
    fails with [AssertionError] when [inputs] has another number of rows
    than [nr_inputs], with [IndexError] when [inputs] has no second
    dimension, and with [ValueError] when [nr_outputs] is negative. *)
Theorem predict_failure_is_harmless :
  forall (device : Type) (lib : NeuralNet_py.LibModel device)
         (writer : NeuralNet_methods.FeatureWriter device)
         (self : NeuralNet_py.NeuralNet device) (inputs : ndarray),
    (forall e, fst (NeuralNet_methods.predict self inputs) = Raise e ->
               snd (NeuralNet_methods.predict self inputs)
               = NeuralNet_py.libmodel self) /\
    (forall n rest,
       shape inputs = n :: rest ->
       Z.of_nat n <> NeuralNet_py.nr_inputs self ->
       fst (NeuralNet_methods.predict self inputs) = Raise AssertionError) /\
    (forall n,
       shape inputs = [n] ->
       Z.of_nat n = NeuralNet_py.nr_inputs self ->
       fst (NeuralNet_methods.predict self inputs) = Raise IndexError) /\
    (forall n m rest,
       shape inputs = n :: m :: rest ->
       Z.of_nat n = NeuralNet_py.nr_inputs self ->
       (NeuralNet_py.nr_outputs self < 0)%Z ->
       fst (NeuralNet_methods.predict self inputs) = Raise ValueError).
Proof.
  intros device lib writer self inputs.
  unfold NeuralNet_methods.predict.
  split; [| split; [| split]].
  - intros e.
    destruct (NeuralNet_methods.predict_prepare self inputs); cbn [fst snd];
      [discriminate | reflexivity].
  - intros n rest Hs Hn.
    unfold NeuralNet_methods.predict_prepare, Py.getitem, assert.
    rewrite Hs. cbn [nth_error bind].
    destruct (Z.eqb_spec (Z.of_nat n) (NeuralNet_py.nr_inputs self));
      [contradiction | reflexivity].
  - intros n Hs Hn.
    unfold NeuralNet_methods.predict_prepare, Py.getitem, assert.
    rewrite Hs. cbn [nth_error bind]. rewrite Hn, Z.eqb_refl. reflexivity.
  - intros n m rest Hs Hn Hk.
    unfold NeuralNet_methods.predict_prepare, Py.getitem, assert,
      NeuralNet_methods.zeros2.
    rewrite Hs. cbn [nth_error bind]. rewrite Hn, Z.eqb_refl. cbn [bind].
    destruct (Z.ltb_spec (NeuralNet_py.nr_outputs self) 0); [reflexivity | lia].
Qed.

Lemma predict_failure_is_harmless_witness :
  @NeuralNet_methods.predict nat fixtures.counting_library
    more_fixtures.counting_writer fixtures.small_net
    (mk_ndarray [3; 3]%nat [1; 2; 3; 4; 5; 6; 7; 8; 9])
  = (Raise AssertionError, 0%nat).
Proof.
  pose proof (@predict_failure_is_harmless nat fixtures.counting_library
                more_fixtures.counting_writer fixtures.small_net
                (mk_ndarray [3; 3]%nat [1; 2; 3; 4; 5; 6; 7; 8; 9]))
    as (Hsame & Hassert & _).
  specialize (Hassert 3%nat [3%nat] eq_refl ltac:(cbn; lia)).
  specialize (Hsame _ Hassert).
  rewrite (surjective_pairing (NeuralNet_methods.predict _ _)).
  now rewrite Hassert, Hsame.
Defined.

(** ** [get_weight_stats] *)

Section weight_stats_facts.

Import weight_stats weight_stats_view.

Lemma mean_abs_nonneg (a : ndarray) : 0 <= mean_abs a.
Proof.
  unfold mean_abs, mean, abs, item, scalar. cbn [data nth].
  unfold Rdiv. apply Rmult_le_pos; [apply sum_abs_nonneg | apply inv_INR_nonneg].
Qed.

Lemma key_eqb_eq (k1 k2 : key) : key_eqb k1 k2 = true <-> k1 = k2.
Proof.
  destruct k1 as [n1 s1], k2 as [n2 s2]. unfold key_eqb. cbn [fst snd].
  rewrite andb_true_iff, String.eqb_eq. split.
  - intros [-> Hs]. f_equal.
    destruct s1, s2; cbn in Hs; try discriminate; [reflexivity |].
    apply Nat.eqb_eq in Hs. now subst.
  - intros H. injection H as -> ->. split; [reflexivity |].
    destruct s2; cbn; [reflexivity | apply Nat.eqb_refl].
Qed.

(** Writing a key keeps what is there, or adds the pair written. *)
Lemma setitem_In (d : OrderedDict) (k : key) (v : R * R) (kv : key * (R * R)) :
  In kv (setitem d k v) -> In kv d \/ kv = (k, v).
Proof.
  induction d as [| [k0 v0] d IH]; cbn.
  - intros [H | []]. now right.
  - destruct (key_eqb k0 k) eqn:Hk.
    + apply key_eqb_eq in Hk. subst k0. intros [H | H].
      * right. now symmetry.
      * left. now right.
    + intros [H | H]; [left; now left |].
      destruct (IH H) as [H' | H']; [left; now right | now right].
Qed.

(** Writing a key that is not there appends the pair. *)
Lemma setitem_fresh (d : OrderedDict) (k : key) (v : R * R) :
  ~ In k (map fst d) -> setitem d k v = d ++ [(k, v)].
Proof.
  induction d as [| [k0 v0] d IH]; cbn; [reflexivity |].
  intros Hk. destruct (key_eqb k0 k) eqn:Hkk.
  - apply key_eqb_eq in Hkk. elim Hk. now left.
  - now rewrite IH by (intros H; apply Hk; now right).
Qed.

(** Writing a list of pairs, one after the other. *)
Lemma write_entries_In (entries d : OrderedDict) (kv : key * (R * R)) :
  In kv (fold_left (fun d0 e => setitem d0 (fst e) (snd e)) entries d) ->
  In kv d \/ In kv entries.
Proof.
  revert d. induction entries as [| [k v] entries IH]; intros d; cbn [fold_left].
  - now left.
  - intros H. destruct (IH _ H) as [H' | H']; [| right; now right].
    cbn [fst snd] in H'. destruct (setitem_In _ _ _ _ H') as [Hd | ->];
      [now left | right; now left].
Qed.

Lemma write_entries_fresh (entries d : OrderedDict) :
  NoDup (map fst (d ++ entries)) ->
  fold_left (fun d0 e => setitem d0 (fst e) (snd e)) entries d = d ++ entries.
Proof.
  revert d. induction entries as [| [k v] entries IH]; intros d Hnd; cbn [fold_left].
  - now rewrite app_nil_r.
  - cbn [fst snd].
    assert (Hk : ~ In k (map fst d)).
    { rewrite map_app in Hnd. cbn [map fst] in Hnd.
      apply NoDup_remove_2 in Hnd. intros H. apply Hnd.
      apply in_or_app. now left. }
    rewrite setitem_fresh by exact Hk.
    rewrite IH; rewrite <- app_assoc; [reflexivity | exact Hnd].
Qed.

(** The body of the loop writes the entries of the layer. *)
Lemma record_layer_writes (d : OrderedDict) (l : layer_dict) :
  record_layer d l
  = fold_left (fun d0 e => setitem d0 (fst e) (snd e)) (layer_entries l) d.
Proof.
  unfold record_layer, layer_entries.
  destruct (l_weights l) as [wl |]; [| reflexivity].
  cbn [fold_left fst snd].
  generalize (setitem d (l_name l, biases_stat)
                      (mean_abs (biases wl), mean_abs (biasesInc wl))).
  generalize (enumerate_zip 0 (weights wl) (weightsInc wl)).
  intros iws. induction iws as [| iw iws IH]; intros d0; cbn [fold_left map fst snd];
    [reflexivity | apply IH].
Qed.

(** The whole loop writes the entries of the layers in the order of their
    ids. *)
Lemma get_weight_stats_writes (items : list (string * layer_dict)) :
  get_weight_stats items
  = fold_left (fun d0 e => setitem d0 (fst e) (snd e))
              (flat_map (fun item => layer_entries (snd item)) (sorted_by_id items))
              [].
Proof.
  unfold get_weight_stats. generalize (@nil (key * (R * R))).
  induction (sorted_by_id items) as [| item l IH]; intros d; cbn [fold_left flat_map];
    [reflexivity |].
  now rewrite fold_left_app, IH, record_layer_writes.
Qed.

Lemma insert_by_id_perm (a : string * layer_dict) (l : list (string * layer_dict)) :
  Permutation (a :: l) (insert_by_id a l).
Proof.
  induction l as [| b l IH]; cbn; [reflexivity |].
  destruct (l_id (snd a) <=? l_id (snd b))%Z; [reflexivity |].
  rewrite perm_swap. now constructor.
Qed.

Lemma sorted_by_id_perm (items : list (string * layer_dict)) :
  Permutation items (sorted_by_id items).
Proof.
  induction items as [| a items IH]; cbn; [constructor |].
  rewrite <- insert_by_id_perm. now constructor.
Qed.

Lemma layer_entries_facts (l : layer_dict) (kv : key * (R * R)) :
  In kv (layer_entries l) ->
  fst (fst kv) = l_name l /\ l_weights l <> None /\
  0 <= fst (snd kv) /\ 0 <= snd (snd kv).
Proof.
  unfold layer_entries. destruct (l_weights l) as [wl |]; [| contradiction].
  intros [<- | H].
  - cbn. repeat split; try discriminate; apply mean_abs_nonneg.
  - apply in_map_iff in H as (iw & <- & _).
    cbn. repeat split; try discriminate; apply mean_abs_nonneg.
Qed.

End weight_stats_facts.

(** X21.  Every entry of [get_weight_stats] comes from a layer that has
    weights and is filed under that layer's name, and both of its numbers,
    means of absolute values, are at least 0; layers without weights leave
    no entry. *)
Theorem weight_stats_entries :
  forall (items : list (string * weight_stats.layer_dict))
         (k : weight_stats.key) (v : R * R),
    In (k, v) (weight_stats.get_weight_stats items) ->
    (exists item,
       In item items /\
       weight_stats.l_name (snd item) = fst k /\
       weight_stats.l_weights (snd item) <> None) /\
    0 <= fst v /\ 0 <= snd v.
Proof.
  intros items k v Hin.
  rewrite get_weight_stats_writes in Hin.
  apply write_entries_In in Hin. destruct Hin as [[] | Hin].
  apply in_flat_map in Hin as (item & Hitem & Hkv).
  apply layer_entries_facts in Hkv as (Hname & Hw & H1 & H2).
  split; [| split; assumption].
  exists item. split; [| split; [now symmetry | exact Hw]].
  eapply Permutation_in; [symmetry; apply sorted_by_id_perm | exact Hitem].
Qed.

Lemma weight_stats_entries_witness :
  let items := [("fc"%string, more_fixtures.fc_layer);
                ("data"%string, more_fixtures.data_layer)] in
  exists v,
    In (("fc"%string, weight_stats.biases_stat), v)
       (weight_stats.get_weight_stats items) /\
    0 <= fst v /\ 0 <= snd v.
Proof.
  intros items. eexists.
  assert (Hin : In (("fc"%string, weight_stats.biases_stat),
                    (weight_stats.mean_abs (mk_ndarray [1]%nat [-2]),
                     weight_stats.mean_abs (mk_ndarray [1]%nat [0])))
                   (weight_stats.get_weight_stats items)).
  { cbn. now left. }
  split; [exact Hin |].
  apply (@weight_stats_entries items _ _ Hin).
Defined.

Section weight_stats_order.

Import weight_stats weight_stats_view.

Lemma enumerate_zip_indices (i : nat) (ws wis : list ndarray) :
  map fst (enumerate_zip i ws wis)
  = seq i (Nat.min (length ws) (length wis)).
Proof.
  revert i wis. induction ws as [| w ws IH]; intros i [| wi wis]; cbn;
    try reflexivity.
  now rewrite IH.
Qed.

Lemma weights_stat_keys (name : string) (iws : list (nat * (ndarray * ndarray))) :
  map fst
      (map (fun iw => ((name, weights_stat (fst iw)),
                       (mean_abs (fst (snd iw)), mean_abs (snd (snd iw)))))
           iws)
  = map (fun i => (name, weights_stat i)) (map fst iws).
Proof. rewrite !map_map. reflexivity. Qed.

Lemma layer_entries_keys (l : layer_dict) :
  NoDup (map fst (layer_entries l)) /\
  forall k, In k (map fst (layer_entries l)) -> fst k = l_name l.
Proof.
  unfold layer_entries. destruct (l_weights l) as [wl |];
    [| split; [constructor | contradiction]].
  cbn [map fst]. rewrite weights_stat_keys, enumerate_zip_indices. split.
  - constructor.
    + intros H. apply in_map_iff in H as (i & Hi & _). discriminate.
    + induction (seq_NoDup (Nat.min (length (weights wl)) (length (weightsInc wl))) 0)
        as [| i s Hi _ IH]; cbn; constructor; [| exact IH].
      intros H. apply in_map_iff in H as (j & Hj & Hin).
      injection Hj as ->. contradiction.
  - intros k [<- | H]; [reflexivity |].
    apply in_map_iff in H as (i & <- & _). reflexivity.
Qed.

Lemma layer_entries_length (l : layer_dict) (wl : weight_layer) :
  l_weights l = Some wl ->
  length (layer_entries l)
  = S (Nat.min (length (weights wl)) (length (weightsInc wl))).
Proof.
  intros Hw. unfold layer_entries. rewrite Hw. cbn [length]. f_equal.
  rewrite length_map, <- (length_map fst), enumerate_zip_indices.
  apply length_seq.
Qed.

Lemma all_entries_keys (ls : list (string * layer_dict)) :
  NoDup (map (fun item => l_name (snd item)) ls) ->
  NoDup (map fst (flat_map (fun item => layer_entries (snd item)) ls)).
Proof.
  induction ls as [| a ls IH]; cbn [map flat_map]; [constructor |].
  intros Hnd. inversion Hnd as [| ? ? Hnotin Hnd']; subst.
  rewrite map_app. apply NoDup_app.
  - apply layer_entries_keys.
  - now apply IH.
  - intros k Hk Hk'.
    apply (proj2 (layer_entries_keys (snd a))) in Hk.
    apply in_map_iff in Hk' as ([k' v'] & <- & Hin).
    apply in_flat_map in Hin as (item & Hitem & Hkv).
    apply layer_entries_facts in Hkv as (Hname & _). cbn [fst] in Hname, Hk.
    apply Hnotin. apply in_map_iff. exists item. split; [congruence | exact Hitem].
Qed.

Lemma insert_by_id_sorted (a : string * layer_dict) (l : list (string * layer_dict)) :
  Sorted id_le l -> Sorted id_le (insert_by_id a l).
Proof.
  induction 1 as [| b l Hl IH Hb]; cbn; [repeat constructor |].
  destruct (Z.leb_spec (l_id (snd a)) (l_id (snd b))) as [Hab | Hab].
  - repeat constructor; assumption.
  - constructor; [exact IH |].
    destruct l as [| c l]; cbn.
    + constructor. unfold id_le. lia.
    + destruct (l_id (snd a) <=? l_id (snd c))%Z; constructor.
      * unfold id_le. lia.
      * now inversion Hb.
Qed.

Lemma sorted_by_id_sorted (items : list (string * layer_dict)) :
  Sorted id_le (sorted_by_id items).
Proof.
  induction items as [| a items IH]; cbn; [constructor |].
  now apply insert_by_id_sorted.
Qed.

Lemma NoDup_map_injective {A B : Type} (f : A -> B) (l : list A) (a b : A) :
  NoDup (map f l) -> In a l -> In b l -> f a = f b -> a = b.
Proof.
  induction l as [| c l IH]; cbn; [contradiction |].
  intros Hnd Ha Hb Hf. inversion Hnd as [| ? ? Hc Hnd']; subst.
  destruct Ha as [-> | Ha], Hb as [-> | Hb]; auto.
  - elim Hc. rewrite Hf. now apply in_map.
  - elim Hc. rewrite <- Hf. now apply in_map.
Qed.

(** Two id-sorted lists of the same layers, with ids that differ, are one
    list. *)
Lemma sorted_unique (l1 l2 : list (string * layer_dict)) :
  StronglySorted id_le l1 -> StronglySorted id_le l2 ->
  Permutation l1 l2 ->
  NoDup (map (fun item => l_id (snd item)) l1) ->
  l1 = l2.
Proof.
  revert l2. induction l1 as [| a l1 IH]; intros l2 H1 H2 Hperm Hnd.
  - now apply Permutation_nil in Hperm.
  - destruct l2 as [| b l2];
      [apply Permutation_sym, Permutation_nil in Hperm; discriminate |].
    assert (Hab : a = b).
    { apply (NoDup_map_injective _ (a :: l1) a b Hnd); [now left | |].
      - eapply Permutation_in; [symmetry; exact Hperm | now left].
      - inversion H1 as [| ? ? _ Ha]; subst. inversion H2 as [| ? ? _ Hb]; subst.
        assert (Hba : In b (a :: l1))
          by (eapply Permutation_in; [symmetry; exact Hperm | now left]).
        assert (Hab : In a (b :: l2))
          by (eapply Permutation_in; [exact Hperm | now left]).
        rewrite Forall_forall in Ha, Hb.
        destruct Hba as [-> | Hba]; [reflexivity |].
        destruct Hab as [-> | Hab]; [reflexivity |].
        specialize (Ha _ Hba). specialize (Hb _ Hab). unfold id_le in *. lia. }
    subst b. f_equal.
    inversion H1; subst. inversion H2; subst.
    apply IH; try assumption.
    + now apply Permutation_cons_inv in Hperm.
    + cbn in Hnd. now inversion Hnd.
Qed.

Lemma id_le_transitive : Relations_1.Transitive id_le.
Proof. intros a b c. unfold id_le. lia. Qed.

Lemma sorted_by_id_of_permutation (items items' : list (string * layer_dict)) :
  Permutation items items' ->
  NoDup (map (fun item => l_id (snd item)) items) ->
  sorted_by_id items = sorted_by_id items'.
Proof.
  intros Hperm Hnd. apply sorted_unique.
  - apply Sorted_StronglySorted; [exact id_le_transitive | apply sorted_by_id_sorted].
  - apply Sorted_StronglySorted; [exact id_le_transitive | apply sorted_by_id_sorted].
  - rewrite <- (sorted_by_id_perm items), <- (sorted_by_id_perm items'). exact Hperm.
  - eapply Permutation_NoDup; [| exact Hnd].
    apply Permutation_map. apply sorted_by_id_perm.
Qed.

End weight_stats_order.

(** X22.  When no two layers share a name, [get_weight_stats] returns, in
    the order of the layer ids, the entries of every layer with weights (one
    for its biases followed by one for each pair of
    [zip(weights, weightsInc)], so [1 + min(len(weights), len(weightsInc))]
    entries) and no two entries share a key. *)
Theorem weight_stats_with_distinct_names :
  forall (items : list (string * weight_stats.layer_dict)),
    NoDup (map (fun item => weight_stats.l_name (snd item)) items) ->
    weight_stats.get_weight_stats items
    = flat_map (fun item => weight_stats_view.layer_entries (snd item))
               (weight_stats.sorted_by_id items) /\
    NoDup (map fst (weight_stats.get_weight_stats items)) /\
    Sorted weight_stats_view.id_le (weight_stats.sorted_by_id items) /\
    Permutation items (weight_stats.sorted_by_id items) /\
    (forall l wl,
       weight_stats.l_weights l = Some wl ->
       length (weight_stats_view.layer_entries l)
       = S (Nat.min (length (weight_stats.weights wl))
                    (length (weight_stats.weightsInc wl)))) /\
    (forall l,
       weight_stats.l_weights l = None -> weight_stats_view.layer_entries l = []).
Proof.
  intros items Hnd.
  assert (Hkeys : NoDup (map fst (flat_map
                     (fun item => weight_stats_view.layer_entries (snd item))
                     (weight_stats.sorted_by_id items)))).
  { apply all_entries_keys.
    eapply Permutation_NoDup; [| exact Hnd].
    apply Permutation_map. apply sorted_by_id_perm. }
  assert (Heq : weight_stats.get_weight_stats items
                = flat_map (fun item => weight_stats_view.layer_entries (snd item))
                           (weight_stats.sorted_by_id items)).
  { rewrite get_weight_stats_writes. now rewrite write_entries_fresh. }
  split; [exact Heq |]. split; [now rewrite Heq |].
  split; [apply sorted_by_id_sorted |]. split; [apply sorted_by_id_perm |].
  split; [apply layer_entries_length |].
  intros l Hl. unfold weight_stats_view.layer_entries. now rewrite Hl.
Qed.

Lemma weight_stats_with_distinct_names_witness :
  let items := [("fc"%string, more_fixtures.fc_layer);
                ("data"%string, more_fixtures.data_layer)] in
  weight_stats.get_weight_stats items
  = flat_map (fun item => weight_stats_view.layer_entries (snd item))
             [("data"%string, more_fixtures.data_layer);
              ("fc"%string, more_fixtures.fc_layer)].
Proof.
  intros items.
  apply (@weight_stats_with_distinct_names items).
  cbn. repeat constructor; cbn; intuition discriminate.
Defined.

(** X23.  When the layer ids differ, [get_weight_stats] does not depend on
    the order in which the dictionary yields its items. *)
Theorem weight_stats_ignore_dictionary_order :
  forall (items items' : list (string * weight_stats.layer_dict)),
    Permutation items items' ->
    NoDup (map (fun item => weight_stats.l_id (snd item)) items) ->
    weight_stats.get_weight_stats items = weight_stats.get_weight_stats items'.
Proof.
  intros items items' Hperm Hnd.
  unfold weight_stats.get_weight_stats.
  now rewrite (sorted_by_id_of_permutation Hperm Hnd).
Qed.

Lemma weight_stats_ignore_dictionary_order_witness :
  weight_stats.get_weight_stats
    [("fc"%string, more_fixtures.fc_layer); ("data"%string, more_fixtures.data_layer)]
  = weight_stats.get_weight_stats
      [("data"%string, more_fixtures.data_layer); ("fc"%string, more_fixtures.fc_layer)].
Proof.
  apply weight_stats_ignore_dictionary_order.
  - apply perm_swap.
  - cbn. repeat constructor; cbn; intuition discriminate.
Defined.

(** ** The two compiled functions of example2.py *)

Lemma example2_cost_shape :
  example2.cost
  = Ok (regularised
          (T_abs (T_mean (T_sub (output (example2.output_layer_of example2.classifier)) y)))
          (example2.L1 example2.classifier) (example2.L2_sqr example2.classifier)).
Proof. reflexivity. Qed.

Lemma cost_needs_the_output (o L1 L2_sqr : TensorVariable) (e : env) (cv : ndarray) :
  eval (regularised (T_abs (T_mean (T_sub o y))) L1 L2_sqr) e = Ok cv ->
  exists out, eval o e = Ok out.
Proof.
  unfold regularised. cbn [T_add T_mul T_abs T_mean T_sub lift2 lift1 eval constant].
  destruct (eval o e) as [out |]; cbn [bind]; [eexists; reflexivity | discriminate].
Qed.

(** X24.  [train_model(i)] returns the cost before its update: on the same
    shared variables [test_model(i)] succeeds and reports that very cost,
    after the batch and the prediction and before the four parameters as
    they stand. *)
Theorem train_model_returns_the_cost_before_the_update :
  forall (engine : TensorEngine) (st st' : store) (index : Z) (cv : ndarray),
    example2.train_model st index = Ok (cv, st') ->
    exists bx by_ out,
      givens st index = Ok (bx, by_) /\
      eval (output (example2.output_layer_of example2.classifier))
           (mk_env st bx by_) = Ok out /\
      example2.test_model st index
      = Ok [bx; out; cv;
            st (W_of hidden_layer); st (b_of hidden_layer);
            st (W_of output_layer); st (b_of output_layer)].
Proof.
  intros engine st st' index cv.
  unfold example2.train_model, example2.test_model.
  rewrite example2_cost_shape. cbn [bind].
  set (OUT := output (example2.output_layer_of example2.classifier)).
  set (c := regularised (T_abs (T_mean (T_sub OUT y)))
                        (example2.L1 example2.classifier)
                        (example2.L2_sqr example2.classifier)).
  assert (Hneed : forall e cv', eval c e = Ok cv' -> exists out, eval OUT e = Ok out)
    by (intros e cv'; apply cost_needs_the_output).
  clearbody c OUT.
  unfold function1, function.
  destruct (givens st index) as [[bx by_] |]; cbn [bind fst snd]; [| discriminate].
  destruct (negb _); [discriminate |].
  cbn [eval_all].
  destruct (eval c (mk_env st bx by_)) as [cv' |] eqn:Hc; cbn [bind]; [| discriminate].
  destruct (eval_all _ (map snd _)) as [vals |]; cbn [bind fst snd]; [| discriminate].
  intros H. injection H as <- _.
  destruct (Hneed _ _ Hc) as (out & Hout).
  exists bx, by_, out. split; [reflexivity |]. split; [exact Hout |].
  rewrite Hout. cbn [bind]. reflexivity.
Qed.

Lemma train_model_returns_the_cost_before_the_update_witness :
  exists out,
    example2.test_model example2.initial_store 0
    = Ok [mk_ndarray [4; 2]%nat [0; 0; 0; 1; 1; 1; 1; 0]; out; scalar 3;
          example2.initial_store (W_of hidden_layer);
          example2.initial_store (b_of hidden_layer);
          example2.initial_store (W_of output_layer);
          example2.initial_store (b_of output_layer)].
Proof.
  destruct example2_first_step as (st' & Hstep).
  destruct (@train_model_returns_the_cost_before_the_update
              fixtures.unit_gradient_engine example2.initial_store st' 0%Z (scalar 3)
              Hstep) as (bx & by_ & out & Hgiv & _ & Htest).
  exists out. rewrite Htest.
  assert (Hbx : bx = mk_ndarray [4; 2]%nat [0; 0; 0; 1; 1; 1; 1; 0]).
  { assert (Hg : givens example2.initial_store 0
                 = Ok (mk_ndarray [4; 2]%nat [0; 0; 0; 1; 1; 1; 1; 0],
                       mk_ndarray [4; 1]%nat [0; 0; 1; 0])) by reflexivity.
    rewrite Hg in Hgiv. now injection Hgiv as <- _. }
  now rewrite Hbx.
Defined.

(** X25.  The penalties [L1] and [L2_sqr] of both classifiers evaluate on
    every environment, to numbers that are not negative. *)
Theorem penalties_are_not_negative :
  forall (engine : TensorEngine) (e : env),
    (exists l1 l2,
       eval (example2.L1 example2.classifier) e = Ok (scalar l1) /\
       eval (example2.L2_sqr example2.classifier) e = Ok (scalar l2) /\
       0 <= l1 /\ 0 <= l2) /\
    (forall input input_shape filter_shapes strides n_hidden n_out cl,
       example3.MLP input input_shape filter_shapes strides n_hidden n_out = Ok cl ->
       exists l1 l2,
         eval (example3.L1 cl) e = Ok (scalar l1) /\
         eval (example3.L2_sqr cl) e = Ok (scalar l2) /\
         0 <= l1 /\ 0 <= l2).
Proof.
  intros engine e. split.
  - eexists. eexists. split; [| split; [| split]].
    + apply add_scalars_eval; apply sum_abs_eval.
    + apply add_scalars_eval; apply sum_sqr_eval.
    + apply Rplus_le_le_0_compat; apply sum_abs_nonneg.
    + apply Rplus_le_le_0_compat; apply sum_sqr_nonneg.
  - intros input input_shape filter_shapes strides n_hidden n_out cl Hcl.
    eapply example3_penalties_eval. exact Hcl.
Qed.

(** ** The forward pass of the classifier of example2.py *)

Lemma thresholded_well_formed (threshold : R) (a : ndarray) :
  well_formed a -> well_formed (stated.thresholded threshold a).
Proof.
  unfold well_formed, stated.thresholded. cbn [data shape].
  now rewrite length_map.
Qed.

(** X26.  With parameters of the shapes they are built with, the
    classifier of example2.py maps a batch of r rows of two inputs, r not
    0, to r rows of one prediction, none of them negative, and against a target of
    that shape its cost evaluates, to a number that is not negative: on
    data of the right shapes nothing in the forward pass or the cost is
    refused. *)
Theorem example2_forward_pass :
  forall (e : env) (r : nat),
    (0 < r)%nat ->
    shape (value_x e) = [r; 2]%nat ->
    shape (value_y e) = [r; 1]%nat ->
    well_formed (value_y e) ->
    shape (shareds e (W_of hidden_layer)) = [2; 1]%nat ->
    shape (shareds e (b_of hidden_layer)) = [1]%nat ->
    well_formed (shareds e (b_of hidden_layer)) ->
    shape (shareds e (W_of output_layer)) = [1; 1]%nat ->
    shape (shareds e (b_of output_layer)) = [1]%nat ->
    well_formed (shareds e (b_of output_layer)) ->
    exists out c v,
      eval (output (example2.output_layer_of example2.classifier)) e = Ok out /\
      shape out = [r; 1]%nat /\
      well_formed out /\
      Forall (fun u => 0 <= u) (data out) /\
      example2.cost = Ok c /\
      eval c e = Ok (scalar v) /\
      v = stated.absolute_mean_error out (value_y e) /\
      0 <= v.
Proof.
  intros e r _ Hx Hy Hwy HWh Hbh Hwbh HWo Hbo Hwbo.
  destruct (@affine_eval hidden_layer x 2%nat 1%nat e (value_x e) r
              eq_refl Hx HWh Hbh Hwbh) as (h & Hh & Hsh & Hwh).
  destruct (@affine_eval output_layer
              (output (example2.HiddenLayer hidden_layer x 2 1)) 1%nat 1%nat e h r
              Hh Hsh HWo Hbo Hwbo) as (lin & Hlin & Hsl & Hwl).
  pose proof (@rectifier_eval example2.threshold _ e lin Hlin Hwl) as Hout.
  set (out := stated.thresholded example2.threshold lin) in *.
  assert (Hso : shape out = [r; 1]%nat) by exact Hsl.
  assert (Hwo : well_formed out) by now apply thresholded_well_formed.
  change (eval (output (example2.output_layer_of example2.classifier)) e = Ok out)
    in Hout.
  destruct (@errors_eval (output (example2.output_layer_of example2.classifier)) y
              e out (value_y e) Hout eq_refl)
    as (err & Herr & Hv); try assumption.
  - unfold ndim. now rewrite Hso.
  - unfold ndim. now rewrite Hy.
  - now rewrite Hso, Hy.
  - exists out. eexists. exists (stated.absolute_mean_error out (value_y e)).
    split; [exact Hout |]. split; [exact Hso |]. split; [exact Hwo |].
    split; [apply thresholded_nonnegative |].
    split; [apply example2_cost_shape |].
    split; [| split; [reflexivity | apply Rabs_pos]].
    assert (Herr' : err = T_abs (T_mean (T_sub
                      (output (example2.output_layer_of example2.classifier)) y))).
    { rewrite errors_same_rank in Herr by reflexivity. now injection Herr as <-. }
    subst err.
    apply regularised_eval with
      (l1 := sum_list (map Rabs (data (shareds e (W_of hidden_layer))))
             + sum_list (map Rabs (data (shareds e (W_of output_layer)))))
      (l2 := sum_list (map (fun u => u * u) (data (shareds e (W_of hidden_layer))))
             + sum_list (map (fun u => u * u) (data (shareds e (W_of output_layer))))).
    + exact Hv.
    + apply add_scalars_eval; reflexivity.
    + apply add_scalars_eval; reflexivity.
Qed.

Lemma example2_forward_pass_witness :
  let e := mk_env example2.initial_store
                  (mk_ndarray [4; 2]%nat [0; 0; 0; 1; 1; 1; 1; 0])
                  (mk_ndarray [4; 1]%nat [0; 0; 1; 0]) in
  exists out c v,
    eval (output (example2.output_layer_of example2.classifier)) e = Ok out /\
    shape out = [4; 1]%nat /\
    example2.cost = Ok c /\
    eval c e = Ok (scalar v) /\
    0 <= v.
Proof.
  intros e.
  destruct (@example2_forward_pass e 4%nat ltac:(lia) eq_refl eq_refl eq_refl eq_refl
              eq_refl eq_refl eq_refl eq_refl eq_refl)
    as (out & c & v & Hout & Hs & _ & _ & Hc & Hv & _ & Hpos).
  exists out, c, v. repeat split; assumption.
Defined.
